(* ===== verification/_CoqProject ===== *)
-Q . S2P
Prelude.v
Codec.v
SyncEngine.v
LayerSettingsTable.v
DynamicEngine.v
Controller.v
StageHelpers.v
ImageOrder.v
LightEngine.v
Bringup.v
Dummies.v
Gui.v
GuiSession.v
System.v
