(* ===== verification/Prelude.v ===== *)
(** * A verification development for the dynamic-clip printer software

    The program ([src/]) drives a stereolithography printer: a motion stage
    (Newport SMC100CC controller, ASCII protocol over a serial port) moves
    the build plate between layers, while full-screen images cure resin
    layer by layer. Its parts, leaves first, and how they interact:

    - the command codec of the controller driver ([src/src/SMC100C.cpp],
      [src/dependencies/include/SMC100C.h]): static tables of the 45
      commands and of the 21 status codes, [SetCommand], the bytes that
      [SendCurrentCommand] writes, [ConvertToErrorString], and the status
      lookup of [GetCurrentStatus];
    - the serial link ([SMC100CInit], [readString], [SerialRead]) and the
      controller operations built on it ([Home], [RelativeMove],
      [GetPosition], ...);
    - the print loop ([RunFull], [RunFullDynamic] in
      [src/src/individualCommands.cpp]): a frame-paced light/dark cycle
      that, in each dark phase, launches [moveStage] as an asynchronous
      task, preloads the next image into the unused of two textures and
      swaps them once the dark time has elapsed and the move is over;
    - the stage helpers ([moveStage], [waitForPosition],
      [waitForVelocity]) and the settings loader ([readSettingsOrdered]);
    - the GUI ([src/demoqt], [src/unnamed]) that collects parameters and
      starts a run in a worker thread; the window's thread and the
      worker thread share the [Worker] object: the window writes its
      parameters and its start and abort flags, [Worker::process] reads
      them phase by phase.

    ** Files

    - [Prelude.v] (this file): C++ library semantics the program relies on,
      as values: exceptions as the sum type [cpp] with its own notation
      scope ([cpp_scope]); [std::string::substr], the erase/remove idiom,
      [std::stoi], [std::stof], [std::to_string] of [int] and [float]; the
      hint databases [dclip]/[dclip_rw] and the tactics [case_cmp] (case
      analysis of [Z]/[nat] comparisons), [case_if] and [saturate];
      [static_cast<U8>] as [to_U8].
    - [Codec.v]: Modules [CommandType], [CommandParameterType],
      [CommandGetSetType], [StatusType] (the [enum class]es) and [SMC100C]
      (tables, [SetCommand], [command_pieces]/[encode_line] for
      [SendCurrentCommand], [ConvertToErrorString], [decode_status] for
      [GetCurrentStatus]); the abstract decoder [decode_request] states the
      contract of the wire format. Theorems C5, C6, C9.
    - [SyncEngine.v]: Module [RunFull]: the state of the loop as the
      record [RunState] (the C++ locals), one function per step of an
      iteration ([light_frame], [dark_launch], [dark_preload], [dark_poll],
      [dark_swap]) composed into [tick] in the code's order, the loop
      [loop] with fuel over an environment of frames, and [run] with the
      lifecycle around it. The environment (abort flag, close request,
      clock, readiness of the move task, success of a texture load) is an
      input of each frame; the effects are an [Event] trace. Theorems
      C1-C4, C11.
    - [LayerSettingsTable.v] (stdpp): Module [LayerSettingsTable]:
      [struct LayerSettings] with decidable equality and a [Countable]
      instance, the file as its [std::getline] lines, the row extraction
      of [operator>>], and [readSettingsOrdered] as a fold of [read_step]
      over the rows, its [std::map] a [gmap]; the reference table
      [group_spec] (distinct settings in order of first appearance, with
      their number of rows) is its abstract specification. Theorems
      C13-C15.
    - [DynamicEngine.v]: Module [RunFullDynamic]: [RunFullDynamic] on the
      state, events, dark-phase steps and shutdown of [RunFull]; its own
      light frame (threshold [exposureTime]), its dark frame (dark time
      [darkTime], the swap counting [layercounter]), the inner loop
      [group_loop] and the walk [run_groups] over the table. Theorems
      C17-C20.
    - [Controller.v]: Module [StageLink]: the serial port as the record
      [Port] (open flag, bytes received and not read, lines written, reads
      made), the device as an environment [ReadEnv] (bytes arriving at
      each poll, the clock's lag behind the sleeps), [readString] as its
      polling loop and [SerialRead] with its C-string result. Module
      [Controller]: the controller object as the record [Ctl] (port,
      [CommandToPrint], the file-static [LastError]); every member
      function in a state-and-exception monad [M] ([Mret], [Mbind],
      [Mcatch], notation [ctl_scope]), in which an exception keeps the
      effects made before it. Theorems C21-C23.
    - [StageHelpers.v]: Module [StageHelpers]: [moveStage] with its
      retry loop [moveAndCheckReady] and status poll [poll_ready];
      [checkTimeout]; [waitForPosition] and [waitForVelocity] as one loop
      [wait_loop] over a clock environment [WaitEnv]; the predicates
      [keeps_open]/[no_throw] and the step lemmas the bring-up uses.
      Theorems C24-C29; lemma [wait_fuel_sufficient] justifies the fuel
      of the waits.
    - [ImageOrder.v]: Module [ImageOrder]: [customSort] with the regular
      expression [SEC_(\d+)\.PNG] as a matcher ([match_here],
      [regex_search]). Theorems C31-C32.
    - [LightEngine.v]: Module [LightEngine]: the light-engine functions
      as traces of calls ([LECall]) into the vendor library, whose
      answers are an environment [LibEnv]; the warm-up loop [warmup].
      Theorems C33-C35.
    - [Bringup.v]: Module [Bringup]: [initializeController],
      [checkStage], [InitializeSystem], [DeinitializeSystem], each on a
      fresh controller object ([new_controller]), composed from the
      operations of Controller.v and StageHelpers.v, followed by their
      light-engine calls ([with_led]). Theorems C7, C36.
    - [Dummies.v]: Module [Dummies]: the test doubles [checkStageDummy],
      [getLightEngineStatusDummy], [InitializeSystemDummy] and
      [RunFullDummy] (its display loop [dummy_loop] over an environment
      of close requests and texture loads; lemma [dummy_loop_stuck]: an
      image that never loads stalls it).
    - [Gui.v]: Module [Gui]: the [Worker] object with its setters and
      [process] (bring-up, the wait for the start flag, [RunFull] or
      [RunFullDynamic] through the interface [PrintEngine] (class with
      the law [engine_continues]; instances [RunFull_engine],
      [RunFullDynamic_engine]), tear-down: lemma [process_phases]); the main
      window's handlers with Qt's [toInt]/[toFloat] ([qt_toInt],
      [qt_toFloat]); every handler of [AdvancedSettingsDialog] on its own
      controller. Lemmas on the parameters the worker receives and on the
      limit handlers that read the velocity field.
    - [GuiSession.v]: Module [GuiSession]: the main window [demoqt] as a
      state machine: its state [MainWindow] (widgets, COM-port box, the
      global [globalComPort], the worker, its lifetime and its thread,
      the terminal [outputTerminalTextEdit] and the two status labels),
      one function [handle] per event (the user's clicks and edits, the
      worker's [logMessage] and [finished]); its result [GuiResult] is
      the next state, the program's [exit], undefined behaviour (the
      dangling worker pointer, an exception leaving a slot) or a model
      loop out of fuel. The step relation [session] (equivalent to the
      executable [run_events]), [app_main] and the destructor
      [demoqt_delete]; the advanced settings dialog as a nested session
      whose buttons run through its connection table ([click]: twelve
      buttons are connected twice). Invariants by induction on [session]
      ([session_invariant]): the COM port is kept by every other event,
      a deleted worker stays deleted, a started thread keeps running,
      only Start sets the start flag. Theorems C10 and C30.
    - [System.v]: Module [System]: the two threads interleaved: a state
      [Sys] is the window and the point [WorkerPC] [runFullThread] has
      reached in [process]; [sys_step] is a step of the window
      ([GuiSession.handle]) or one phase of [process] ([worker_step]) on
      the shared [Worker] as it is at that moment ([sys_run] for
      traces, [sys_exec] to evaluate them); the specification [Life] of
      the worker's life cycle and the abstraction [alpha]. Theorems C8,
      C12, C16.

    ** What the theorems show (claim ids of the manifest)

    - C1: safety of every run of [RunFull], for every environment: at most
      one stage move in flight, every move joined before the next, no
      exposure and no controller command of the main loop while a move is
      in flight.
    - C2: the loop invariant (texture index in {0,1}, image index in range,
      frame counter below its threshold, layer counter in lockstep with the
      image index, initial phase while [currentLayer < max 1 initialLayers]).
    - C3-C4: a layer is exposed for exactly its threshold of frames; an
      exposure starts only after the dark time, the join and the preload.
    - C5-C6: every line [SendCurrentCommand] writes decodes back to its
      command and intent; the command table is indexed by the enum (the
      uniqueness of the wire and status codes is a lemma of Codec.v).
    - C7: [DeinitializeSystem]'s command sequence on a named port: home,
      a position query, a move to [p - 10] with [p] the value the reply
      parses to (0 when it does not parse, [p] given by the reply the
      device sends), a velocity, a move to 0, each with its wait; then
      the LED current is set to the printing current, not to 0.
    - C8: Start without Initialize prints with an empty folder and the
      members [new Worker()] left uninitialised, whatever the window
      shows (invariant over the traces of the two threads).
    - C9: status replies are read at offset 7; every reply gives one
      of three results (type of the result: out_of_range for a reply
      shorter than 7 characters, a state name of the table, or the
      unknown-code text, distinct from every state name).
    - C10: a session of the main window in which the COM-port box is
      never changed keeps [globalComPort] empty, so the worker's
      [InitializeSystem] hands [""] to [Serial::open], which throws
      [std::invalid_argument]; nothing catches it, so the program ends
      through [std::terminate].
    - C11: an aborted run never homes the stage, ends with the stage
      closed, and closes the window only when a frame asked for it.
    - C12: the invariant of the reachable states of the two threads: the
      thread runs iff [process] was started; the worker is deleted only
      after [process] returned; [process] is past its wait loop only
      once the start flag is set.
    - C13: refinement: the loader's vector-and-map loop computes the
      reference table [group_spec].
    - C14-C15: the loaded table has distinct settings, positive counts
      summing to the number of data lines; loading the rows a table
      stands for gives it back.
    - C16: refinement: every step of the two threads from a reachable
      state is a step (or a stutter) of the linear life cycle [Life], in
      which a deleted worker is [LDeleted] whatever its phase: the worker
      never goes back, [process] is never restarted, and the worker is
      deleted only from [LDone].
    - C17: safety of every run of [RunFullDynamic] (as C1).
    - C18: a group whose inner loop runs to its end prints
      [layerCount + 1] layers.
    - C19: once the last image is shown, every further group of the
      table switches the current on to its intensity, presents a blank
      frame, launches a stage move unless one is in flight, and switches
      the current off, and the run exits after the table.
    - C20: the currents set are 0 or a group's intensity modulo 256.
    - C21-C22: [readString] always returns (termination); a reply
      arriving in one piece is returned up to its terminator, the bytes
      after it in the same chunk are lost.
    - C23: a set operation writes exactly its command line on an open
      port and throws on a closed one (a query, lemma [query_reply],
      flushes, writes its [Get] line and returns the reply line).
    - C24-C26: [moveStage] with a ready stage sends its sub-moves in
      sequence; a truncated status reply makes [moveAndCheckReady] send
      the relative move twice; on a closed port it never returns
      (liveness: for every number of iterations it is still retrying).
    - C27-C29: the waits always return (termination); on an open port they
      never throw; on a closed port they throw in the first iteration.
    - C30: liveness of the program's exit: closing the main window after
      Initialize and before Start, with a port that opens, makes the
      destructor join a [process] whose [InitializeSystem] completed and
      which, its start flag never set, never leaves its wait loop (for
      every fuel it is still waiting), so [main] never returns.
    - C31-C32: [customSort] orders numbered names by number; a number
      beyond [INT_MAX] throws from inside the comparator against every
      numbered name, in either position (that it is no strict weak
      ordering on mixed names is lemma [customSort_cycle]).
    - C33-C35: [TurnLightEngineOn] always ends (termination); with a
      ready engine it returns after exactly the polls needed; with an
      engine that never gets ready it powers off and exits with code 1.
    - C36: [InitializeSystem]'s command sequence on a named port: home,
      initial velocity, move to [initialPosition - 10], final velocity,
      move to [initialPosition], each followed by its wait of 1 to 601
      iterations; then the LED current is set to
      [static_cast<U8>(inputCurrent)].

    ** Modelling choices, bounds and fuel

    - [int] is [Z] (the loop's counters are proved to stay below their
      thresholds, so they never overflow); [size_t] indices are [nat].
    - A [float] is the exact rational it denotes ([Q]): single-precision
      rounding is not modelled; [std::to_string(float)] is ["%f"] with
      round-half-even on that rational; [std::stof] reads decimal text
      without exponent, [inf], [nan] or hexadecimal forms.
    - The loop runs for at most [fuel] frames ([RunFullDynamic]: [fuel]
      frames per group); [OutOfFuel] is a distinct outcome, never
      confused with the end of a run. The spec's scenarios end within 200
      frames (per group).
    - A settings row that fails to parse is read with the values its
      uninitialised [int]s hold: a parameter [garbage] of the loader.
    - Logging is not modelled; the variables that only gate log lines
      ([filenameLogged], [inLightPhase], [phaseStartTime]) are left out.
    - The directory listing is taken after [std::sort] with [customSort].

    - The serial library (not in the repository) is modelled by its
      documented behaviour: [write], [flushInput], [available], [read] on
      an open port, [PortNotOpenedException] on a closed one, [open]
      throwing [std::invalid_argument] on the empty port name (before
      anything else), [SerialException] on a port already open, and
      [IOException] when the device cannot be opened. [SMC100CInit]
      catches only [IOException] (false); the others leave it.
    - Clocks: [readString] sleeps 5 ms per iteration, the waits and the
      warm-up 100 ms; the clock at iteration [k] is the sleeps so far plus
      an arbitrary lag of the environment. The fuel of each of these
      loops is computed from its timeout ([timeOut_ms / 5 + 2], [10 T +
      1], 6010), enough for the clock to pass the timeout, so they never
      run out of fuel (C21, C27, C33). The [while (true)] loops of
      [moveAndCheckReady] have no timeout: their fuel is a parameter, and
      C26 shows that no fuel suffices on a closed port.
    - [abs] of a [float] is the exact absolute value; the tolerances
      [0.01f] and [0.5f] are the rationals 1/100 and 1/2.

    ** Not modelled

    Widget layout (what [setupUi] gives the fields is a parameter); the
    text of the status labels (a label holds the status record it
    formats); which messages the worker logs (a [LogMessage] event
    carries any text); console output; SFML's window creation ([initializeSfmlWindow]) and texture
    internals, sleeps. Which port names open is a parameter ([portOk]):
    the serial library and the operating system are not in the
    repository. *)

From Stdlib Require Import String Ascii List NArith ZArith QArith Lia Bool.
Import ListNotations.

(** ** C++ exceptions as values

    The modelled code throws the standard exceptions raised by
    [std::string::substr], [std::stoi] and [std::stof], and those of the
    serial library. All derive from [std::exception]. A computation that
    may throw is a value of [cpp A]. *)

Inductive cpp_exn : Type :=
| OutOfRange        (* std::out_of_range *)
| InvalidArgument   (* std::invalid_argument *)
| PortNotOpened     (* serial::PortNotOpenedException *)
| SerialIOError     (* serial::IOException *)
| SerialError.      (* serial::SerialException *)

Definition cpp (A : Type) : Type := (cpp_exn + A)%type.

Declare Scope cpp_scope.
Delimit Scope cpp_scope with cpp.

Notation "'ret' x" := (@inr cpp_exn _ x) (at level 10, x at level 9) : cpp_scope.
Notation "'throw' e" := (@inl cpp_exn _ e) (at level 10, e at level 9) : cpp_scope.
Notation "x <- c ;; k" :=
  (match c with inl e => inl e | inr x => k end)
  (at level 100, c at next level, right associativity) : cpp_scope.

Open Scope cpp_scope.

(** ** Characters *)

Definition is_digit (c : ascii) : bool :=
  (48 <=? nat_of_ascii c)%nat && (nat_of_ascii c <=? 57)%nat.

Definition digit_val (c : ascii) : Z := Z.of_nat (nat_of_ascii c) - 48.

(** [isspace] in the "C" locale: space, \t, \n, \v, \f, \r. *)
Definition is_space (c : ascii) : bool :=
  let n := nat_of_ascii c in
  (n =? 32)%nat || ((9 <=? n)%nat && (n <=? 13)%nat).

(** ** [std::string] operations used by the program *)

(** [s.substr(pos, count)]: throws [out_of_range] when [pos > s.size()],
    otherwise returns at most [count] characters starting at [pos]. *)
Definition substr (s : string) (pos count : nat) : cpp string :=
  if (pos <=? String.length s)%nat then ret (substring pos count s)
  else throw OutOfRange.

(** [s.erase(std::remove(s.begin(), s.end(), c), s.end())]. *)
Fixpoint erase_char (c : ascii) (s : string) : string :=
  match s with
  | EmptyString => EmptyString
  | String d s' =>
      if Ascii.eqb d c then erase_char c s' else String d (erase_char c s')
  end.

(** The "strip terminators" idiom of the program: erase ['\n'], then ['\r']. *)
Definition strip_crlf (s : string) : string :=
  erase_char "013"%char (erase_char "010"%char s).

Fixpoint skip_space (s : string) : string :=
  match s with
  | String c s' => if is_space c then skip_space s' else s
  | EmptyString => EmptyString
  end.

(** The longest prefix of decimal digits, and the rest. *)
Fixpoint span_digits (s : string) : string * string :=
  match s with
  | String c s' =>
      if is_digit c then let (d, r) := span_digits s' in (String c d, r)
      else (EmptyString, s)
  | EmptyString => (EmptyString, EmptyString)
  end.

Definition digits_value (d : string) : Z :=
  fold_left (fun acc c => acc * 10 + digit_val c)%Z (list_ascii_of_string d) 0%Z.

(** An optional sign: [true] when negative. *)
Definition take_sign (s : string) : bool * string :=
  match s with
  | String "-" s' => (true, s')
  | String "+" s' => (false, s')
  | _ => (false, s)
  end.

Definition INT_MIN : Z := - 2 ^ 31.
Definition INT_MAX : Z := 2 ^ 31 - 1.

(** [std::stoi(s)] (base 10, [strtol] then the [int] range check). *)
Definition stoi (s : string) : cpp Z :=
  let (neg, r) := take_sign (skip_space s) in
  let (d, _) := span_digits r in
  match d with
  | EmptyString => throw InvalidArgument
  | _ =>
      let v := if neg then - digits_value d else digits_value d in
      if (INT_MIN <=? v) && (v <=? INT_MAX) then ret v else throw OutOfRange
  end%Z.

(** [std::stof(s)] on decimal text [ws* [+-]? digits* ('.' digits* )?]
    with at least one digit. The value is the exact rational the text
    denotes (single-precision rounding is not modelled, see the header). *)
Definition stof (s : string) : cpp Q :=
  let (neg, r) := take_sign (skip_space s) in
  let (ip, r') := span_digits r in
  let fp := match r' with
            | String "." r'' => fst (span_digits r'')
            | _ => EmptyString
            end in
  if (String.length ip + String.length fp =? 0)%nat then throw InvalidArgument
  else
    let num := digits_value (ip ++ fp)%string in
    let q := Qmake (if neg then - num else num)%Z
                   (Pos.of_nat (Nat.pow 10 (String.length fp))) in
    ret q.

(** ** Number formatting ([std::to_string]) *)

Definition digit_char (n : N) : ascii := ascii_of_N (48 + n).

Fixpoint string_of_N_aux (fuel : nat) (n : N) (acc : string) : string :=
  match fuel with
  | O => acc
  | S f =>
      let acc' := String (digit_char (n mod 10)) acc in
      if (n <? 10)%N then acc' else string_of_N_aux f (n / 10)%N acc'
  end.

(** Decimal digits of [n], most significant first; [N.size_nat n] bits
    bound the number of decimal digits, so the fuel never runs out. *)
Definition string_of_N (n : N) : string := string_of_N_aux (S (N.size_nat n)) n EmptyString.

(** [std::to_string(int)]: ["%d"]. *)
Definition string_of_Z (z : Z) : string :=
  if (z <? 0)%Z then String "-" (string_of_N (Z.abs_N z)) else string_of_N (Z.abs_N z).

Fixpoint zeros (n : nat) : string :=
  match n with O => EmptyString | S k => String "0" (zeros k) end.

(** Left-pad with zeros to [w] characters. *)
Definition pad_left (w : nat) (s : string) : string :=
  (zeros (w - String.length s) ++ s)%string.

(** ** [float] values

    A C++ [float] is modelled by the exact rational it denotes ([Q]);
    single-precision rounding is abstracted away (see the header). *)

Abbreviation float := Q (only parsing).

(** Nearest integer to [n / d] for [n >= 0], ties to even (the rounding
    of [printf]). *)
Definition round_half_even (n : Z) (d : positive) : Z :=
  let qt := (n / Zpos d)%Z in
  let r := (n mod Zpos d)%Z in
  match Z.compare (2 * r) (Zpos d) with
  | Lt => qt
  | Gt => qt + 1
  | Eq => if Z.even qt then qt else qt + 1
  end%Z.

(** [std::to_string(float)]: ["%f"], six decimals. *)
Definition float_to_string (q : float) : string :=
  let m := round_half_even (Z.abs (Qnum q) * 10 ^ 6) (Qden q) in
  ((if (Qnum q <? 0)%Z then "-" else "") ++ string_of_N (Z.to_N (m / 10 ^ 6)) ++ "."
   ++ pad_left 6 (string_of_N (Z.to_N (m mod 10 ^ 6))))%string.

(** [static_cast<int>(f)]: truncation toward zero. *)
Definition float_to_int (q : float) : Z := Z.quot (Qnum q) (Zpos (Qden q)).

(** [static_cast<U8>(v)] of an [int]: the conversion to [unsigned char]
    keeps [v] modulo 2^8. *)
Definition to_U8 (v : Z) : Z := (v mod 256)%Z.

(** ** Boolean duplicate check, for the static tables *)

Fixpoint nodupb {A : Type} (eqb : A -> A -> bool) (l : list A) : bool :=
  match l with
  | [] => true
  | x :: r => negb (existsb (eqb x) r) && nodupb eqb r
  end.

(** ** Automation *)

Create HintDb dclip discriminated.
Create Rewrite HintDb dclip_rw.

Ltac cpp_simpl :=
  repeat match goal with
  | H : inl _ = inl _ |- _ => injection H as H
  | H : inr _ = inr _ |- _ => injection H as H
  | H : inl _ = inr _ |- _ => discriminate H
  | H : inr _ = inl _ |- _ => discriminate H
  end; subst.

(** Case analysis on the boolean comparisons of [Z] and [nat] in the goal
    and the hypotheses, each turned into the proposition it decides, so
    that [lia] can close the arithmetic. *)
Ltac case_cmp :=
  repeat match goal with
  | |- context [(?a <=? ?b)%Z] =>
      let E := fresh "E" in destruct (a <=? b)%Z eqn:E;
      [apply Z.leb_le in E | apply Z.leb_gt in E]
  | |- context [(?a <? ?b)%Z] =>
      let E := fresh "E" in destruct (a <? b)%Z eqn:E;
      [apply Z.ltb_lt in E | apply Z.ltb_ge in E]
  | |- context [(?a =? ?b)%Z] =>
      let E := fresh "E" in destruct (a =? b)%Z eqn:E;
      [apply Z.eqb_eq in E | apply Z.eqb_neq in E]
  | |- context [(?a <? ?b)%nat] =>
      let E := fresh "E" in destruct (a <? b)%nat eqn:E;
      [apply Nat.ltb_lt in E | apply Nat.ltb_ge in E]
  | |- context [(?a <=? ?b)%nat] =>
      let E := fresh "E" in destruct (a <=? b)%nat eqn:E;
      [apply Nat.leb_le in E | apply Nat.leb_gt in E]
  | H : context [(?a <=? ?b)%Z] |- _ =>
      let E := fresh "E" in destruct (a <=? b)%Z eqn:E;
      [apply Z.leb_le in E | apply Z.leb_gt in E]
  | H : context [(?a <? ?b)%Z] |- _ =>
      let E := fresh "E" in destruct (a <? b)%Z eqn:E;
      [apply Z.ltb_lt in E | apply Z.ltb_ge in E]
  | H : context [(?a =? ?b)%Z] |- _ =>
      let E := fresh "E" in destruct (a =? b)%Z eqn:E;
      [apply Z.eqb_eq in E | apply Z.eqb_neq in E]
  | H : context [(?a <? ?b)%nat] |- _ =>
      let E := fresh "E" in destruct (a <? b)%nat eqn:E;
      [apply Nat.ltb_lt in E | apply Nat.ltb_ge in E]
  end; simpl in *.

(** Discharge the premises of implications among the hypotheses that
    are themselves hypotheses. *)
(** Case analysis on the condition of the first [if] of the goal. *)
Ltac case_if :=
  match goal with |- context [if ?b then _ else _] => destruct b end.

Ltac saturate :=
  repeat match goal with
  | H : ?P -> ?Q, H' : ?P |- _ => specialize (H H')
  end.

(** ** Generic lemmas *)

Lemma substr_in_range (s : string) (pos count : nat) :
  (pos <= String.length s)%nat -> substr s pos count = ret (substring pos count s).
Proof. intros H. unfold substr. apply Nat.leb_le in H. now rewrite H. Qed.

Lemma length_string_of_list_ascii (l : list ascii) :
  String.length (string_of_list_ascii l) = length l.
Proof. induction l as [|c l IH]; simpl; congruence. Qed.

Lemma substr_out_of_range (s : string) (pos count : nat) :
  (String.length s < pos)%nat -> substr s pos count = throw OutOfRange.
Proof.
  intros H. unfold substr. destruct (Nat.leb_spec pos (String.length s)); [lia|easy].
Qed.

Lemma length_substring (s : string) (pos count : nat) :
  String.length (substring pos count s) = Nat.min count (String.length s - pos).
Proof.
  revert pos count. induction s as [|c s IH]; intros [|p] [|n]; simpl; auto.
  - now rewrite IH, Nat.sub_0_r.
Qed.

Lemma erase_char_not_in (c : ascii) (s : string) (i : nat) :
  String.get i (erase_char c s) <> Some c.
Proof.
  revert i. induction s as [|d s IH]; intros i; simpl; [discriminate|].
  destruct (Ascii.eqb_spec d c); [apply IH|].
  destruct i; simpl; [congruence|apply IH].
Qed.

Lemma erase_char_id (c : ascii) (s : string) :
  (forall i, String.get i s <> Some c) -> erase_char c s = s.
Proof.
  induction s as [|d s IH]; intros H; simpl; auto.
  destruct (Ascii.eqb_spec d c) as [->|Hne].
  - exfalso. apply (H 0%nat). reflexivity.
  - f_equal. apply IH. intros i. apply (H (S i)).
Qed.

Lemma erase_char_length (c : ascii) (s : string) :
  (String.length (erase_char c s) <= String.length s)%nat.
Proof. induction s as [|d s IH]; simpl; [lia|]. destruct (Ascii.eqb d c); simpl; lia. Qed.

#[export] Hint Resolve substr_in_range erase_char_length : dclip.
Lemma nodupb_NoDup {A : Type} (eqb : A -> A -> bool)
  (Heqb : forall x y, eqb x y = true <-> x = y) (l : list A) :
  nodupb eqb l = true -> NoDup l.
Proof.
  induction l as [|x r IH]; simpl; intros H; constructor.
  - apply andb_true_iff in H as [Hn _]. intros Hin.
    apply negb_true_iff in Hn. rewrite <- Bool.not_true_iff_false in Hn.
    apply Hn, existsb_exists. exists x. split; [exact Hin|]. now apply Heqb.
  - apply andb_true_iff in H as [_ H]. now apply IH.
Qed.

Lemma string_app_assoc (a b c : string) : ((a ++ b) ++ c = a ++ (b ++ c))%string.
Proof. induction a as [|x a IH]; simpl; [reflexivity|now rewrite IH]. Qed.

Lemma string_app_nil_r (a : string) : (a ++ "")%string = a.
Proof. induction a as [|x a IH]; simpl; [reflexivity|now rewrite IH]. Qed.

Lemma string_length_app (a b : string) :
  String.length (a ++ b) = (String.length a + String.length b)%nat.
Proof. induction a as [|x a IH]; simpl; auto. Qed.

Lemma get_append_r (a b : string) (i : nat) :
  String.get (String.length a + i) (a ++ b) = String.get i b.
Proof. induction a as [|c a IH]; simpl; auto. Qed.

Lemma substring_append_l (a b : string) : substring 0 (String.length a) (a ++ b) = a.
Proof. induction a as [|c a IH]; simpl; [now destruct b|now rewrite IH]. Qed.

Lemma substring_shift (c : ascii) (s : string) (pos count : nat) :
  substring (S pos) count (String c s) = substring pos count s.
Proof. reflexivity. Qed.

Lemma is_digit_digit_char (d : N) : (d < 10)%N -> is_digit (digit_char d) = true.
Proof.
  intros Hd. unfold is_digit, digit_char, nat_of_ascii.
  rewrite N_ascii_embedding by lia.
  apply andb_true_iff; split; apply Nat.leb_le; lia.
Qed.

(** Every non-empty output of [string_of_N_aux] starts with a digit. *)
Lemma string_of_N_aux_head (f : nat) (n : N) (acc : string) :
  exists d rest, string_of_N_aux (S f) n acc = String (digit_char d) rest /\ (d < 10)%N.
Proof.
  revert n acc. induction f as [|f IH]; intros n acc; simpl.
  - destruct (n <? 10)%N; eexists _, _; split; try reflexivity; apply N.mod_lt; lia.
  - destruct (n <? 10)%N; [eexists _, _; split; [reflexivity|apply N.mod_lt; lia]|].
    apply IH.
Qed.

Lemma string_of_N_head (n : N) :
  exists d rest, string_of_N n = String (digit_char d) rest /\ (d < 10)%N.
Proof. apply string_of_N_aux_head. Qed.

#[export] Hint Rewrite length_substring get_append_r substring_append_l string_length_app : dclip_rw.
