(* ===== verification/Codec.v ===== *)
(** * Codec: the SMC100C command and status tables and the wire format

    Models the static data of [src/dependencies/include/SMC100C.h] and
    [src/src/SMC100C.cpp]: the [enum class]es (each in a Module of its own,
    as C++ scopes them), the [CommandLibrary] and [StatusLibrary] tables,
    [SetCommand], the bytes [SendCurrentCommand] writes, the error-character
    table [ConvertToErrorString] and the status lookup of [GetCurrentStatus].
    The theorems show that the tables are well formed (one entry per
    command, at its enum ordinal; unique wire codes and status codes), that
    an encoded line can be decoded back to its command and its get/set
    intent, and how a status reply is interpreted on every branch. *)

From Stdlib Require Import String Ascii List ZArith QArith Lia Bool.
From S2P Require Import Prelude.
Import ListNotations.
Local Open Scope string_scope.

Module CommandType.
(** [enum class CommandType], in declaration order. *)
Inductive t : Type :=
| None
| Acceleration
| BacklashComp
| HysterisisComp
| DriverVoltage
| KdLowPassFilterCutOff
| FollowingErrorLim
| FrictionComp
| HomeSearchType
| StageIdentifier
| LeaveJoggingState
| KeypadEnable
| JerkTime
| DerivativeGain
| IntegralGain
| ProportionalGain
| VelocityFeedForward
| Enable
| HomeSearchVelocity
| HomeSearch
| HomeSearchTimeout
| MoveAbs
| MoveRel
| MoveEstimate
| Configure
| Analog
| TTLInputVal
| Reset
| RS485Adress
| TTLOutputVal
| ControlLoopState
| NegativeSoftwareLim
| PositiveSoftwareLim
| StopMotion
| EncoderIncrementVal
| CommandErrorString
| LastCommandErr
| PositionAsSet
| PositionReal
| ErrorStatus
| Velocity
| BaseVelocity
| ControllerRevisionInfo
| AllConfigParam
| ESPStageConfig.

(** [static_cast<int>(Type)]: the enumerator's ordinal. *)
Definition to_int (c : t) : nat :=
  match c with
  | None => 0
  | Acceleration => 1
  | BacklashComp => 2
  | HysterisisComp => 3
  | DriverVoltage => 4
  | KdLowPassFilterCutOff => 5
  | FollowingErrorLim => 6
  | FrictionComp => 7
  | HomeSearchType => 8
  | StageIdentifier => 9
  | LeaveJoggingState => 10
  | KeypadEnable => 11
  | JerkTime => 12
  | DerivativeGain => 13
  | IntegralGain => 14
  | ProportionalGain => 15
  | VelocityFeedForward => 16
  | Enable => 17
  | HomeSearchVelocity => 18
  | HomeSearch => 19
  | HomeSearchTimeout => 20
  | MoveAbs => 21
  | MoveRel => 22
  | MoveEstimate => 23
  | Configure => 24
  | Analog => 25
  | TTLInputVal => 26
  | Reset => 27
  | RS485Adress => 28
  | TTLOutputVal => 29
  | ControlLoopState => 30
  | NegativeSoftwareLim => 31
  | PositiveSoftwareLim => 32
  | StopMotion => 33
  | EncoderIncrementVal => 34
  | CommandErrorString => 35
  | LastCommandErr => 36
  | PositionAsSet => 37
  | PositionReal => 38
  | ErrorStatus => 39
  | Velocity => 40
  | BaseVelocity => 41
  | ControllerRevisionInfo => 42
  | AllConfigParam => 43
  | ESPStageConfig => 44
  end.
End CommandType.

Module CommandParameterType.
Inductive t : Type := None | Int | Float.
End CommandParameterType.

Module CommandGetSetType.
(** [Set] is a keyword of Rocq: the enumerator [Set] is [Set_]. *)
Inductive t : Type := None | Get | Set_ | GetSet | GetAlways.

Definition eqb (a b : t) : bool :=
  match a, b with
  | None, None | Get, Get | Set_, Set_ | GetSet, GetSet | GetAlways, GetAlways => true
  | _, _ => false
  end.
End CommandGetSetType.

Module StatusType.
Inductive t : Type :=
  Unknown | Error | Config | NoReference | Homing | Moving | Ready | Disabled | Jogging.
End StatusType.

Module SMC100C.

Record CommandStruct : Type := mkCommand {
  Command : CommandType.t;
  CommandChar : string;
  SendType : CommandParameterType.t;
  GetSetType : CommandGetSetType.t
}.

(** [struct CommandEntry]; its field [Command] is [EntryCommand] here
    and [Parameter] (a keyword of Rocq) is [Parameter_],
    since [Command] already names the field of [CommandStruct]. *)
Record CommandEntry : Type := mkEntry {
  EntryCommand : CommandStruct;
  GetOrSet : CommandGetSetType.t;
  Parameter_ : float
}.

(** [struct StatusCharSet]; [Type] is a keyword of Rocq, so the field is [Type_]. *)
Record StatusCharSet : Type := mkStatus {
  Code : string;
  Type_ : StatusType.t
}.

Definition CommandLibrary : list CommandStruct := [
  mkCommand CommandType.None "  " CommandParameterType.None CommandGetSetType.None;
  mkCommand CommandType.Acceleration "AC" CommandParameterType.Float CommandGetSetType.GetSet;
  mkCommand CommandType.BacklashComp "BA" CommandParameterType.Float CommandGetSetType.GetSet;
  mkCommand CommandType.HysterisisComp "BH" CommandParameterType.Float CommandGetSetType.GetSet;
  mkCommand CommandType.DriverVoltage "DV" CommandParameterType.Float CommandGetSetType.GetSet;
  mkCommand CommandType.KdLowPassFilterCutOff "FD" CommandParameterType.Float CommandGetSetType.GetSet;
  mkCommand CommandType.FollowingErrorLim "FE" CommandParameterType.Float CommandGetSetType.GetSet;
  mkCommand CommandType.FrictionComp "FF" CommandParameterType.Float CommandGetSetType.GetSet;
  mkCommand CommandType.HomeSearchType "HT" CommandParameterType.Int CommandGetSetType.GetSet;
  mkCommand CommandType.StageIdentifier "ID" CommandParameterType.Float CommandGetSetType.GetSet;
  mkCommand CommandType.LeaveJoggingState "JD" CommandParameterType.None CommandGetSetType.None;
  mkCommand CommandType.KeypadEnable "JM" CommandParameterType.Int CommandGetSetType.GetSet;
  mkCommand CommandType.JerkTime "JR" CommandParameterType.Float CommandGetSetType.GetSet;
  mkCommand CommandType.DerivativeGain "KD" CommandParameterType.Float CommandGetSetType.GetSet;
  mkCommand CommandType.IntegralGain "KI" CommandParameterType.Float CommandGetSetType.GetSet;
  mkCommand CommandType.ProportionalGain "KP" CommandParameterType.Float CommandGetSetType.GetSet;
  mkCommand CommandType.VelocityFeedForward "KV" CommandParameterType.Float CommandGetSetType.GetSet;
  mkCommand CommandType.Enable "MM" CommandParameterType.Int CommandGetSetType.None;
  mkCommand CommandType.HomeSearchVelocity "OH" CommandParameterType.Float CommandGetSetType.GetSet;
  mkCommand CommandType.HomeSearch "OR" CommandParameterType.None CommandGetSetType.None;
  mkCommand CommandType.HomeSearchTimeout "OT" CommandParameterType.Float CommandGetSetType.GetSet;
  mkCommand CommandType.MoveAbs "PA" CommandParameterType.Float CommandGetSetType.GetSet;
  mkCommand CommandType.MoveRel "PR" CommandParameterType.Float CommandGetSetType.GetSet;
  mkCommand CommandType.MoveEstimate "PT" CommandParameterType.Float CommandGetSetType.GetAlways;
  mkCommand CommandType.Configure "PW" CommandParameterType.Int CommandGetSetType.GetSet;
  mkCommand CommandType.Analog "RA" CommandParameterType.None CommandGetSetType.GetAlways;
  mkCommand CommandType.TTLInputVal "RB" CommandParameterType.None CommandGetSetType.GetAlways;
  mkCommand CommandType.Reset "RS" CommandParameterType.None CommandGetSetType.None;
  mkCommand CommandType.RS485Adress "SA" CommandParameterType.Int CommandGetSetType.GetSet;
  mkCommand CommandType.TTLOutputVal "SB" CommandParameterType.Int CommandGetSetType.GetSet;
  mkCommand CommandType.ControlLoopState "SC" CommandParameterType.Int CommandGetSetType.GetSet;
  mkCommand CommandType.NegativeSoftwareLim "SL" CommandParameterType.Float CommandGetSetType.GetSet;
  mkCommand CommandType.PositiveSoftwareLim "SR" CommandParameterType.Float CommandGetSetType.GetSet;
  mkCommand CommandType.StopMotion "ST" CommandParameterType.None CommandGetSetType.None;
  mkCommand CommandType.EncoderIncrementVal "SU" CommandParameterType.Float CommandGetSetType.GetSet;
  mkCommand CommandType.CommandErrorString "TB" CommandParameterType.None CommandGetSetType.GetAlways;
  mkCommand CommandType.LastCommandErr "TE" CommandParameterType.None CommandGetSetType.GetAlways;
  mkCommand CommandType.PositionAsSet "TH" CommandParameterType.None CommandGetSetType.GetAlways;
  mkCommand CommandType.PositionReal "TP" CommandParameterType.None CommandGetSetType.GetAlways;
  mkCommand CommandType.ErrorStatus "TS" CommandParameterType.None CommandGetSetType.GetAlways;
  mkCommand CommandType.Velocity "VA" CommandParameterType.Float CommandGetSetType.GetSet;
  mkCommand CommandType.BaseVelocity "Vb" CommandParameterType.Float CommandGetSetType.GetSet;
  mkCommand CommandType.ControllerRevisionInfo "VE" CommandParameterType.None CommandGetSetType.GetAlways;
  mkCommand CommandType.AllConfigParam "ZT" CommandParameterType.None CommandGetSetType.GetAlways;
  mkCommand CommandType.ESPStageConfig "ZX" CommandParameterType.None CommandGetSetType.GetSet
].

Definition StatusLibrary : list StatusCharSet := [
  mkStatus "0A" StatusType.NoReference;
  mkStatus "0B" StatusType.NoReference;
  mkStatus "0C" StatusType.NoReference;
  mkStatus "0D" StatusType.NoReference;
  mkStatus "0E" StatusType.NoReference;
  mkStatus "0F" StatusType.NoReference;
  mkStatus "10" StatusType.NoReference;
  mkStatus "11" StatusType.NoReference;
  mkStatus "14" StatusType.Config;
  mkStatus "1E" StatusType.Homing;
  mkStatus "1F" StatusType.Homing;
  mkStatus "28" StatusType.Moving;
  mkStatus "32" StatusType.Ready;
  mkStatus "33" StatusType.Ready;
  mkStatus "34" StatusType.Ready;
  mkStatus "35" StatusType.Ready;
  mkStatus "3C" StatusType.Disabled;
  mkStatus "3D" StatusType.Disabled;
  mkStatus "3E" StatusType.Disabled;
  mkStatus "46" StatusType.Jogging;
  mkStatus "47" StatusType.Jogging
].

(** [static const char* ControllerAdress = "1"]. *)
Definition ControllerAdress : string := "1".

(** [SetCommand]: [&CommandLibrary[static_cast<int>(Type)]], with the
    parameter and the get/set intent. *)
Definition SetCommand (Type_ : CommandType.t) (Param : float)
    (GetOrSet_ : CommandGetSetType.t) : CommandEntry :=
  mkEntry (nth (CommandType.to_int Type_) CommandLibrary
               (mkCommand CommandType.None "  " CommandParameterType.None
                          CommandGetSetType.None))
          GetOrSet_ Param.

(** The parameter text [SendCurrentCommand] writes when the intent is
    not [Get] (lines 627-634): [std::to_string] of the truncated value
    for an [Int] command, of the float for a [Float] command, nothing
    for a command without parameter. *)
Definition param_string (e : CommandEntry) : string :=
  match SendType (EntryCommand e) with
  | CommandParameterType.Int => string_of_Z (float_to_int (Parameter_ e))
  | CommandParameterType.Float => float_to_string (Parameter_ e)
  | CommandParameterType.None => ""
  end.

Definition CRLF : string := String "013" (String "010" "").

(** The four [my_serial.write] calls of [SendCurrentCommand], in order:
    address, command code, ["?"] or the parameter, terminator. *)
Definition command_pieces (e : CommandEntry) : list string :=
  [ControllerAdress; CommandChar (EntryCommand e);
   match GetOrSet e with
   | CommandGetSetType.Get => "?"
   | _ => param_string e
   end;
   CRLF].

(** The line on the wire. *)
Definition encode_line (e : CommandEntry) : string := String.concat "" (command_pieces e).

(** [ConvertToErrorString]: the error character of a [TE] reply. *)
Definition ConvertToErrorString (ErrorChar : ascii) : string :=
  match ErrorChar with
  | "@"%char => "No Error Encountered"
  | "A"%char => "Unknown message"
  | "B"%char => "Incorrect address"
  | "C"%char => "Parameter missing"
  | "D"%char => "Command not allowed"
  | "E"%char => "Already homing"
  | "F"%char => "ESP stage unknown"
  | "G"%char => "Displacement out of limits"
  | "H"%char => "Not allowed in NOT REFERENCED"
  | "I"%char => "Not allowed in CONFIGURATION"
  | "J"%char => "Not allowed in DISABLED"
  | "K"%char => "Not allowed in READY"
  | "L"%char => "Not allowed in HOMING"
  | "M"%char => "Not allowed in MOVING"
  | "N"%char => "Out of soft limits"
  | "S"%char => "Communication time out"
  | "U"%char => "EEPROM error"
  | "V"%char => "Error during command execution"
  | "W"%char => "Command not allowed for PP"
  | "X"%char => "Command not allowed for CC"
  | _ => "0"
  end.

(** The [switch] of [GetCurrentStatus] from a status type to its text. *)
Definition status_name (t : StatusType.t) : string :=
  match t with
  | StatusType.Config => "Configuration"
  | StatusType.NoReference => "No Reference"
  | StatusType.Homing => "Homing"
  | StatusType.Moving => "Moving"
  | StatusType.Ready => "Ready"
  | StatusType.Disabled => "Disabled"
  | StatusType.Jogging => "Jogging"
  | StatusType.Error => "Error"
  | StatusType.Unknown => "Unknown"
  end.

(** The [for] loop over [StatusLibrary]: the first entry whose code is
    [statusCode]. *)
Fixpoint find_status (lib : list StatusCharSet) (statusCode : string)
    : option StatusType.t :=
  match lib with
  | [] => None
  | s :: r => if String.eqb statusCode (Code s) then Some (Type_ s)
              else find_status r statusCode
  end.

Definition UnknownStatusPrefix : string := "Unknown Status Code: ".

(** What [GetCurrentStatus] makes of the reply [response] it read:
    [response.substr(7, 2)] (which throws on a reply shorter than seven
    characters), looked up in [StatusLibrary]. *)
Definition decode_status (response : string) : cpp string :=
  statusCode <- substr response 7 2 ;;
  ret (match find_status StatusLibrary statusCode with
       | Some t => status_name t
       | None => UnknownStatusPrefix ++ statusCode
       end)%string.

(** ** Abstract decoder of a command line (the contract of the codec)

    Not a function of the program: the reading of a line that the
    device, and the spec's round-trip property, assume. *)
Fixpoint command_of_code (lib : list CommandStruct) (code : string)
    : option CommandType.t :=
  match lib with
  | [] => None
  | c :: r => if String.eqb code (CommandChar c) then Some (Command c)
              else command_of_code r code
  end.

Definition decode_request (line : string) : option (CommandType.t * bool) :=
  match line with
  | String a rest =>
      if Ascii.eqb a "1"%char then
        match command_of_code CommandLibrary (substring 0 2 rest) with
        | Some t => Some (t, match String.get 2 rest with
                             | Some c => Ascii.eqb c "?"
                             | None => false
                             end)
        | None => None
        end
      else None
  | EmptyString => None
  end.

(** ** Well-formedness of the static tables *)

Lemma CommandLibrary_indexed (t : CommandType.t) :
  exists c, nth_error CommandLibrary (CommandType.to_int t) = Some c /\ Command c = t.
Proof. destruct t; eexists; split; reflexivity. Qed.

Lemma nth_nth_error_entry (t : CommandType.t) d :
  nth (CommandType.to_int t) CommandLibrary d =
  nth (CommandType.to_int t) CommandLibrary
      (mkCommand CommandType.None "  " CommandParameterType.None CommandGetSetType.None).
Proof. destruct t; reflexivity. Qed.

(** C6: [SetCommand] selects the table row of the requested command:
    the enum order and the order of [CommandLibrary] agree for all 45
    commands, and the parameter and intent are recorded unchanged. *)
Theorem SetCommand_selects_entry (t : CommandType.t) (p : float) (g : CommandGetSetType.t) :
  Command (EntryCommand (SetCommand t p g)) = t /\
  GetOrSet (SetCommand t p g) = g /\ Parameter_ (SetCommand t p g) = p.
Proof. split; [destruct t; reflexivity | split; reflexivity]. Qed.

Lemma string_eqb_iff (a b : string) : String.eqb a b = true <-> a = b.
Proof. apply String.eqb_eq. Qed.

(** The wire codes of [CommandLibrary] are pairwise distinct, and so
    are the status codes of [StatusLibrary]; every code has two
    characters. *)
Theorem tables_codes_unique :
  NoDup (map CommandChar CommandLibrary) /\ NoDup (map Code StatusLibrary) /\
  Forall (fun c => String.length (CommandChar c) = 2%nat) CommandLibrary /\
  Forall (fun s => String.length (Code s) = 2%nat) StatusLibrary.
Proof.
  split; [|split]; [apply (nodupb_NoDup String.eqb string_eqb_iff); vm_compute; reflexivity
                   |apply (nodupb_NoDup String.eqb string_eqb_iff); vm_compute; reflexivity|].
  split; repeat constructor.
Qed.

Lemma code_length (t : CommandType.t) (p : float) (g : CommandGetSetType.t) :
  String.length (CommandChar (EntryCommand (SetCommand t p g))) = 2%nat.
Proof. destruct t; reflexivity. Qed.

Lemma decode_request_addr (rest : string) :
  decode_request (String "1" rest) =
  match command_of_code CommandLibrary (substring 0 2 rest) with
  | Some t => Some (t, match String.get 2 rest with
                       | Some c => Ascii.eqb c "?" | None => false end)
  | None => None
  end.
Proof. reflexivity. Qed.

Lemma code_prefix (c x : string) :
  String.length c = 2%nat -> substring 0 2 (c ++ x) = c.
Proof. intros H. rewrite <- H. apply substring_append_l. Qed.

Lemma code_get2 (c x : string) :
  String.length c = 2%nat -> String.get 2 (c ++ x) = String.get 0 x.
Proof. intros H. rewrite <- (get_append_r c x 0), H. reflexivity. Qed.

Lemma command_of_code_SetCommand (t : CommandType.t) (p : float) (g : CommandGetSetType.t) :
  command_of_code CommandLibrary (CommandChar (EntryCommand (SetCommand t p g))) = Some t.
Proof. destruct t; reflexivity. Qed.

(** ** The wire line *)

Lemma encode_line_eq (e : CommandEntry) :
  encode_line e =
  String "1" (CommandChar (EntryCommand e) ++
              (match GetOrSet e with CommandGetSetType.Get => "?" | _ => param_string e end
               ++ CRLF)).
Proof. reflexivity. Qed.

Lemma is_digit_question : is_digit "?"%char = false.
Proof. reflexivity. Qed.

Lemma head_of_N_not_question (n : N) (x : string) :
  match String.get 0 (string_of_N n ++ x) with
  | Some c => Ascii.eqb c "?" | None => false end = false.
Proof.
  destruct (string_of_N_head n) as (d & rest & -> & Hd). simpl.
  destruct (Ascii.eqb_spec (digit_char d) "?") as [E|]; [|reflexivity].
  pose proof (is_digit_digit_char d Hd) as H. rewrite E in H. discriminate.
Qed.

(** The parameter text never starts with ['?'], so the intent marker is
    unambiguous. *)
Lemma param_head_not_question (e : CommandEntry) :
  match String.get 0 (param_string e ++ CRLF) with
  | Some c => Ascii.eqb c "?" | None => false end = false.
Proof.
  unfold param_string. destruct (SendType (EntryCommand e)); [reflexivity| |].
  - unfold string_of_Z. destruct (_ <? 0)%Z; [reflexivity|apply head_of_N_not_question].
  - unfold float_to_string. destruct (_ <? 0)%Z; [reflexivity|].
    simpl. rewrite string_app_assoc. apply head_of_N_not_question.
Qed.

(** C5: round trip of the wire format: the line [SendCurrentCommand]
    writes for any command, parameter and intent decodes back to that
    command, with the ['?'] marker present exactly for a [Get]. *)
Theorem encode_decode_request (t : CommandType.t) (p : float) (g : CommandGetSetType.t) :
  decode_request (encode_line (SetCommand t p g)) =
  Some (t, CommandGetSetType.eqb g CommandGetSetType.Get).
Proof.
  rewrite encode_line_eq, decode_request_addr.
  rewrite (code_prefix _ _ (code_length t p g)), command_of_code_SetCommand.
  rewrite (code_get2 _ _ (code_length t p g)).
  destruct g; simpl; try reflexivity; now rewrite param_head_not_question.
Qed.

(** A command without parameter sent with intent [Set] is written as
    its bare code: the parameter is dropped silently, no encoding error
    is raised (the spec asks for an [EncodingError]). *)
Theorem encode_set_without_parameter (t : CommandType.t) (p : float) :
  SendType (EntryCommand (SetCommand t p CommandGetSetType.Set_)) = CommandParameterType.None ->
  encode_line (SetCommand t p CommandGetSetType.Set_) =
  String "1" (CommandChar (EntryCommand (SetCommand t p CommandGetSetType.Set_)) ++ CRLF).
Proof. intros H. rewrite encode_line_eq. simpl. unfold param_string. now rewrite H. Qed.

Lemma encode_set_without_parameter_witness :
  SendType (EntryCommand (SetCommand CommandType.HomeSearch 5 CommandGetSetType.Set_))
    = CommandParameterType.None /\
  encode_line (SetCommand CommandType.HomeSearch 5 CommandGetSetType.Set_) =
  String "1" ("OR" ++ CRLF).
Proof.
  split; [reflexivity|].
  apply (encode_set_without_parameter CommandType.HomeSearch 5). reflexivity.
Defined.

(** ** Status replies *)

Lemma find_status_in (lib : list StatusCharSet) (c : StatusCharSet) :
  NoDup (map Code lib) -> In c lib -> find_status lib (Code c) = Some (Type_ c).
Proof.
  induction lib as [|s r IH]; simpl; [tauto|]. intros Hnd [->|Hin].
  - now rewrite String.eqb_refl.
  - inversion Hnd as [|? ? Hnotin Hnd']; subst.
    destruct (String.eqb_spec (Code c) (Code s)) as [E|]; [|now apply IH].
    exfalso. apply Hnotin. rewrite <- E. now apply in_map.
Qed.

Lemma substring_nonempty_bound (s : string) (pos n : nat) :
  substring pos n s <> "" -> (pos <= String.length s)%nat.
Proof.
  revert pos. induction s as [|c s IH]; intros [|pos] H; simpl in *; try lia.
  - now destruct n.
  - apply IH in H. lia.
Qed.

(** A status reply carrying a documented code at offset 7 is
    reported as that code's state; e.g. ["33"] (ready from moving)
    gives ["Ready"]. *)
Theorem decode_status_table (r : string) (c : StatusCharSet) :
  In c StatusLibrary -> substring 7 2 r = Code c ->
  decode_status r = ret (status_name (Type_ c)).
Proof.
  intros Hin Hs. unfold decode_status.
  assert (Hne : substring 7 2 r <> "") by (rewrite Hs; apply in_map with (f := Code) in Hin;
    simpl in Hin; intuition congruence).
  rewrite substr_in_range by now apply substring_nonempty_bound in Hne.
  rewrite Hs, find_status_in; [reflexivity| |exact Hin].
  apply tables_codes_unique.
Qed.

Lemma decode_status_table_witness :
  In (mkStatus "33" StatusType.Ready) StatusLibrary /\
  substring 7 2 ("1TS000033" ++ CRLF) = "33" /\
  decode_status ("1TS000033" ++ CRLF) = ret "Ready".
Proof.
  split; [simpl; tauto|split; [reflexivity|]].
  apply (decode_status_table _ (mkStatus "33" StatusType.Ready)); [simpl; tauto|reflexivity].
Defined.

Lemma find_status_some (lib : list StatusCharSet) (code : string) (t : StatusType.t) :
  find_status lib code = Some t -> exists e, In e lib /\ Code e = code /\ Type_ e = t.
Proof.
  induction lib as [|s l IH]; simpl; [discriminate|].
  destruct (String.eqb_spec code (Code s)) as [->|_]; intros H.
  - injection H as <-. exists s. auto.
  - destruct (IH H) as (e & ? & ? & ?). exists e. auto.
Qed.

Lemma status_name_short (t : StatusType.t) : (String.length (status_name t) <= 13)%nat.
Proof. destruct t; simpl; lia. Qed.

(** A reply whose code has no table entry yields
    ["Unknown Status Code: "] followed by the raw code, a text distinct
    from every state name (also from ["Unknown"]). *)
Theorem decode_status_unmapped (r code : string) :
  substr r 7 2 = ret code -> find_status StatusLibrary code = None ->
  decode_status r = ret (UnknownStatusPrefix ++ code) /\
  forall t, decode_status r <> ret (status_name t).
Proof.
  intros Hs Hf. unfold decode_status. rewrite Hs, Hf. split; [reflexivity|].
  intros t E. injection E as E. apply (f_equal String.length) in E.
  pose proof (status_name_short t). simpl in E. lia.
Qed.

Lemma decode_status_unmapped_witness :
  substr ("1TS0000FF" ++ CRLF) 7 2 = ret "FF" /\ find_status StatusLibrary "FF" = None /\
  decode_status ("1TS0000FF" ++ CRLF) = ret (UnknownStatusPrefix ++ "FF").
Proof.
  split; [reflexivity|split; [reflexivity|]].
  apply (decode_status_unmapped _ "FF"); reflexivity.
Defined.

(** A reply shorter than seven characters (such as the ["Error"]
    that [SerialRead] returns when its buffer fills) makes
    [GetCurrentStatus] throw [std::out_of_range]. *)
Theorem decode_status_short (r : string) :
  (String.length r < 7)%nat -> decode_status r = throw OutOfRange.
Proof. intros H. unfold decode_status. now rewrite substr_out_of_range. Qed.

Lemma decode_status_short_witness :
  (String.length "Error" < 7)%nat /\ decode_status "Error" = throw OutOfRange.
Proof. split; [simpl; lia|apply decode_status_short; simpl; lia]. Defined.

(** C9: [GetCurrentStatus] gives one of three results for every reply:
    [std::out_of_range] for a reply shorter than seven characters; the
    state name of the [StatusLibrary] entry whose code is the reply's
    [substr(7, 2)]; or, when no entry has that code,
    ["Unknown Status Code: "] followed by it, a text distinct from every
    state name. *)
Theorem decode_status_results (r : string) :
  ((String.length r < 7)%nat /\ decode_status r = throw OutOfRange) \/
  (exists e, In e StatusLibrary /\ Code e = substring 7 2 r /\
             decode_status r = ret (status_name (Type_ e))) \/
  (find_status StatusLibrary (substring 7 2 r) = None /\
   decode_status r = ret (UnknownStatusPrefix ++ substring 7 2 r) /\
   forall t, decode_status r <> ret (status_name t)).
Proof.
  destruct (Nat.lt_ge_cases (String.length r) 7) as [H|H].
  - left. split; [exact H|]. unfold decode_status. now rewrite substr_out_of_range.
  - right. destruct (find_status StatusLibrary (substring 7 2 r)) as [t|] eqn:F.
    + left. destruct (find_status_some _ _ _ F) as (e & Hin & Hc & Ht).
      exists e. split; [exact Hin|]. split; [exact Hc|].
      unfold decode_status. rewrite substr_in_range by lia. rewrite F, Ht. reflexivity.
    + right. split; [reflexivity|].
      exact (decode_status_unmapped r _ (substr_in_range r 7 2 ltac:(lia)) F).
Qed.

End SMC100C.
