(* ===== verification/SyncEngine.v ===== *)
(** * SyncEngine: the static print loop of [RunFull]

    Models [RunFull] of [src/src/individualCommands.cpp] (lines 824-1124):
    one Rocq function per frame of the [while (window.isOpen())] loop,
    on an explicit [RunState] record holding the loop variables of the
    C++ function, and the run lifecycle around it (directory listing,
    first preload, controller initialisation, shutdown).

    Everything the loop observes from outside is an input of the tick:
    the window's close request, the abort flag, the clock, whether the
    asynchronous [moveStage] task is ready when polled, and whether a
    texture load succeeds. What the loop does to the outside world is an
    [Event] of the trace it returns. Logging is not modelled; the
    variables that only gate log lines ([filenameLogged], [inLightPhase],
    [phaseStartTime], [darkDisplayCount]) are therefore left out. *)

From Stdlib Require Import String List ZArith Lia Bool.
From S2P Require Import Prelude.
Import ListNotations.
Local Open Scope Z_scope.

Module RunFull.

(** The arguments of [RunFull] that the loop reads. *)
Record RunParams : Type := mkParams {
  maxImageDisplayCount : Z;     (* frames per exposure after the initial layers *)
  mindarktime : Z;              (* ms *)
  initialExposureCounter : Z;   (* frames per exposure of the initial layers *)
  initialLayers : Z
}.

(** The loop variables of [RunFull]. [texture0]/[texture1] record which
    image index each of [textures[0]], [textures[1]] holds. *)
Record RunState : Type := mkRunState {
  displayImage : bool;
  imageDisplayCount : Z;
  currentLayer : Z;
  inInitialPhase : bool;
  currentImageIndex : nat;
  currentTextureIndex : Z;
  texture0 : option nat;
  texture1 : option nat;
  nextImageLoaded : bool;
  isNextImageLoading : bool;
  allImagesShown : bool;
  isStageThreadRunning : bool;
  darkTimeStart : Z
}.

(** What one loop iteration observes. *)
Record TickInput : Type := mkTick {
  closeRequested : bool;   (* a [sf::Event::Closed] was polled *)
  abortFlag : bool;        (* [getAbortFlag()] *)
  now : Z;                 (* [high_resolution_clock::now()], in ms *)
  moveReady : bool;        (* [stageThread.wait_for(0ms) == ready] *)
  loadOk : bool            (* [loadFromFile] succeeds *)
}.

Inductive Event : Type :=
| PresentImage (slot : Z) (img : option nat)  (* draw [textures[slot]] and display *)
| PresentBlank                                (* [window.clear(); window.display()] *)
| QueryPosition                               (* [controller.GetPosition()] *)
| LaunchMove                                  (* [std::async(moveStage, ...)] *)
| JoinMove                                    (* [stageThread.get()] *)
| LoadImage (slot : Z) (img : nat)            (* [textures[slot].loadFromFile(...)] *)
| SetCurrent (v : Z)                          (* [SetCurrent(0, v)], [v] a [U8] *)
| HomeStage                                   (* [controller.Home()] *)
| CloseStage                                  (* [controller.SMC100CClose()] *)
| CloseWindow.                                (* [window.close()] *)

(** How an iteration ends: go on, [break] out of the loop, or [return]
    from [RunFull] (the abort). *)
Inductive Control : Type := Continue | Break | Return.

Section Loop.
Context (p : RunParams) (len : nat).

Definition texture (st : RunState) (i : Z) : option nat :=
  if i =? 0 then texture0 st else texture1 st.

(** The exposure threshold of the current layer ([maxCount]). *)
Definition maxCount (st : RunState) : Z :=
  if inInitialPhase st then initialExposureCounter p else maxImageDisplayCount p.

(** The light branch ([if (displayImage)], lines 945-1013), after the
    abort check: present the current texture, count the frame, and at
    the threshold end the layer, query the position and start the dark
    timer. *)
Definition light_frame (i : TickInput) (st : RunState) : RunState * list Event :=
  let cnt := imageDisplayCount st + 1 in
  let reached := maxCount st <=? cnt in
  let layer := if reached then currentLayer st + 1 else currentLayer st in
  ({| displayImage := negb reached;
      imageDisplayCount := if reached then 0 else cnt;
      currentLayer := layer;
      inInitialPhase := if reached && (initialLayers p <=? layer) then false
                        else inInitialPhase st;
      currentImageIndex := currentImageIndex st;
      currentTextureIndex := currentTextureIndex st;
      texture0 := texture0 st; texture1 := texture1 st;
      nextImageLoaded := nextImageLoaded st;
      isNextImageLoading := isNextImageLoading st;
      allImagesShown := allImagesShown st;
      isStageThreadRunning := isStageThreadRunning st;
      darkTimeStart := if reached then now i else darkTimeStart st |},
   PresentImage (currentTextureIndex st) (texture st (currentTextureIndex st))
     :: if reached then [QueryPosition] else []).

(** Dark branch, step 1 (lines 1030-1034): start the stage move when no
    move is in flight and the next image is not loaded yet. *)
Definition dark_launch (st : RunState) : RunState * list Event :=
  if negb (isStageThreadRunning st) && negb (nextImageLoaded st) then
    ({| displayImage := displayImage st; imageDisplayCount := imageDisplayCount st;
        currentLayer := currentLayer st; inInitialPhase := inInitialPhase st;
        currentImageIndex := currentImageIndex st;
        currentTextureIndex := currentTextureIndex st;
        texture0 := texture0 st; texture1 := texture1 st;
        nextImageLoaded := nextImageLoaded st;
        isNextImageLoading := isNextImageLoading st;
        allImagesShown := allImagesShown st;
        isStageThreadRunning := true;
        darkTimeStart := darkTimeStart st |}, [LaunchMove])
  else (st, []).

(** Step 2 (lines 1037-1049): preload the next image into the unused
    texture, or note that every image has been shown. A failed load
    leaves the texture as it was, but [nextImageLoaded] is set all the
    same. *)
Definition dark_preload (i : TickInput) (st : RunState) : RunState * list Event :=
  let nxt := S (currentImageIndex st) in
  let slot := 1 - currentTextureIndex st in
  if (nxt <? len)%nat && negb (isNextImageLoading st) then
    let img := if loadOk i then Some nxt else texture st slot in
    ({| displayImage := displayImage st; imageDisplayCount := imageDisplayCount st;
        currentLayer := currentLayer st; inInitialPhase := inInitialPhase st;
        currentImageIndex := currentImageIndex st;
        currentTextureIndex := currentTextureIndex st;
        texture0 := if slot =? 0 then img else texture0 st;
        texture1 := if slot =? 0 then texture1 st else img;
        nextImageLoaded := true;
        isNextImageLoading := true;
        allImagesShown := allImagesShown st;
        isStageThreadRunning := isStageThreadRunning st;
        darkTimeStart := darkTimeStart st |}, [LoadImage slot nxt])
  else if (len <=? nxt)%nat && negb (isNextImageLoading st) then
    ({| displayImage := displayImage st; imageDisplayCount := imageDisplayCount st;
        currentLayer := currentLayer st; inInitialPhase := inInitialPhase st;
        currentImageIndex := currentImageIndex st;
        currentTextureIndex := currentTextureIndex st;
        texture0 := texture0 st; texture1 := texture1 st;
        nextImageLoaded := nextImageLoaded st;
        isNextImageLoading := isNextImageLoading st;
        allImagesShown := true;
        isStageThreadRunning := isStageThreadRunning st;
        darkTimeStart := darkTimeStart st |}, [])
  else (st, []).

(** Step 3 (lines 1052-1055): poll the move without blocking. *)
Definition dark_poll (i : TickInput) (st : RunState) : RunState * list Event :=
  if isStageThreadRunning st && moveReady i then
    ({| displayImage := displayImage st; imageDisplayCount := imageDisplayCount st;
        currentLayer := currentLayer st; inInitialPhase := inInitialPhase st;
        currentImageIndex := currentImageIndex st;
        currentTextureIndex := currentTextureIndex st;
        texture0 := texture0 st; texture1 := texture1 st;
        nextImageLoaded := nextImageLoaded st;
        isNextImageLoading := isNextImageLoading st;
        allImagesShown := allImagesShown st;
        isStageThreadRunning := false;
        darkTimeStart := darkTimeStart st |}, [JoinMove])
  else (st, []).

(** Step 4 (lines 1061-1079): once the dark time has elapsed, the next
    image is loaded and the move is over, swap the buffers, advance the
    image index and present two blank frames. [swap_ready] is the
    condition (its dark time a parameter, as [RunFullDynamic] takes it
    from the current settings) and [swap_buffers] the block it guards. *)
Definition swap_ready (darkDuration : Z) (i : TickInput) (st : RunState) : bool :=
  (darkDuration <? now i - darkTimeStart st) && nextImageLoaded st
  && negb (isStageThreadRunning st).

Definition swap_buffers (st : RunState) : RunState * list Event :=
  ({| displayImage := true; imageDisplayCount := imageDisplayCount st;
      currentLayer := currentLayer st; inInitialPhase := inInitialPhase st;
      currentImageIndex := S (currentImageIndex st);
      currentTextureIndex := 1 - currentTextureIndex st;
      texture0 := texture0 st; texture1 := texture1 st;
      nextImageLoaded := false;
      isNextImageLoading := false;
      allImagesShown := allImagesShown st;
      isStageThreadRunning := isStageThreadRunning st;
      darkTimeStart := darkTimeStart st |}, [PresentBlank; PresentBlank]).

Definition dark_swap (i : TickInput) (st : RunState) : RunState * list Event :=
  if swap_ready (mindarktime p) i st then swap_buffers st else (st, []).

(** The dark branch (lines 1014-1082), its four steps in the code's order. *)
Definition dark_frame (i : TickInput) (st : RunState) : RunState * list Event :=
  let '(s1, e1) := dark_launch st in
  let '(s2, e2) := dark_preload i s1 in
  let '(s3, e3) := dark_poll i s2 in
  let '(s4, e4) := dark_swap i s3 in
  (s4, PresentBlank :: e1 ++ e2 ++ e3 ++ e4).

(** One iteration of the loop (lines 936-1091): the polled [Closed]
    event closes the window (lines 939-942), then the abort check of the
    light phase, then the frame. *)
Definition tick (i : TickInput) (st : RunState) : Control * RunState * list Event :=
  let ev0 := if closeRequested i then [CloseWindow] else [] in
  if displayImage st && abortFlag i then (Return, st, ev0)
  else
    let '(st', ev) := if displayImage st then light_frame i st else dark_frame i st in
    if allImagesShown st' && negb (displayImage st') then
      (Break, st', ev0 ++ ev ++ [SetCurrent 0])
    else (Continue, st', ev0 ++ ev).

(** How the loop ends. *)
Inductive LoopEnd : Type :=
| Aborted (st : RunState)     (* the [return] of the abort *)
| Exited (st : RunState)      (* [break], or the window was closed *)
| OutOfFuel (st : RunState).  (* still running after the modelled frames *)

(** The [while (window.isOpen())] loop over the frames [t], [t+1], ...
    of the environment [env], for at most [fuel] frames. *)
Fixpoint loop (env : nat -> TickInput) (fuel t : nat) (st : RunState)
    : LoopEnd * list Event :=
  match fuel with
  | O => (OutOfFuel st, [])
  | S f =>
      let '(c, st', ev) := tick (env t) st in
      match c with
      | Return => (Aborted st', ev)
      | Break => (Exited st', ev)
      | Continue =>
          if closeRequested (env t) then (Exited st', ev)
          else let '(r, ev') := loop env f (S t) st' in (r, ev ++ ev')
      end
  end.

End Loop.

(** The state when the loop starts (lines 865-933): first image
    preloaded into [textures[0]] (when the load succeeds). *)
Definition initial_state (firstLoadOk : bool) : RunState :=
  {| displayImage := true; imageDisplayCount := 0; currentLayer := 0;
     inInitialPhase := true; currentImageIndex := 0; currentTextureIndex := 0;
     texture0 := if firstLoadOk then Some 0%nat else None; texture1 := None;
     nextImageLoaded := false; isNextImageLoading := false; allImagesShown := false;
     isStageThreadRunning := false; darkTimeStart := 0 |}.

(** The shutdown code after the loop (lines 1093-1121). *)
Definition shutdown (st : RunState) : list Event :=
  (if isStageThreadRunning st then [JoinMove] else [])
    ++ [QueryPosition; HomeStage; CloseStage; CloseWindow].

Inductive RunOutcome : Type :=
| FilesystemError                (* [directory_iterator] threw: logged, [return] *)
| EmptyDirectory                 (* [imagePaths[0]] on an empty vector: undefined *)
| ControllerInitFailed           (* [initializeController] failed: [exit(0)] *)
| ControllerThrew (e : cpp_exn)  (* [initializeController] threw (an empty port name) *)
| RunAborted (st : RunState)
| RunEnded (st : RunState)
| RunIncomplete (st : RunState).

(** The environment of a whole run. *)
Record RunEnv : Type := mkEnv {
  listing : option (list string);   (* the sorted directory listing, or the error *)
  firstLoadOk : bool;
  controllerInit : cpp bool;      (* what [initializeController] returned or threw *)
  frames : nat -> TickInput
}.

(** [RunFull]: listing, preload, controller, loop, shutdown. On the
    abort's [return], the destructors of the [std::future] (which waits
    for a running move) and of the serial port (which closes it) run;
    no home command is sent. *)
Definition run (p : RunParams) (e : RunEnv) (fuel : nat) : RunOutcome * list Event :=
  match listing e with
  | None => (FilesystemError, [])
  | Some [] => (EmptyDirectory, [])
  | Some imgs =>
      match controllerInit e with
      | inl ex => (ControllerThrew ex, [])
      | inr false => (ControllerInitFailed, [])
      | inr true =>
        let '(r, ev) := loop p (length imgs) (frames e) fuel 0 (initial_state (firstLoadOk e)) in
        match r with
        | Aborted st =>
            (RunAborted st,
             ev ++ (if isStageThreadRunning st then [JoinMove] else []) ++ [CloseStage])
        | Exited st => (RunEnded st, ev ++ shutdown st)
        | OutOfFuel st => (RunIncomplete st, ev)
        end
      end
  end.

(** ** Reading a trace

    [safe_trace running evs]: replaying [evs] from a state where a move
    is in flight iff [running], a move is launched only when none is in
    flight and joined only when one is, and neither an exposure nor a
    command of the main loop to the controller (position query, home,
    close) happens while a move is in flight. *)
Fixpoint safe_trace (running : bool) (evs : list Event) : Prop :=
  match evs with
  | [] => True
  | LaunchMove :: r => running = false /\ safe_trace true r
  | JoinMove :: r => running = true /\ safe_trace false r
  | PresentImage _ _ :: r | QueryPosition :: r | HomeStage :: r | CloseStage :: r =>
      running = false /\ safe_trace running r
  | _ :: r => safe_trace running r
  end.

(** Whether a move is in flight after replaying [evs]. *)
Fixpoint running_after (running : bool) (evs : list Event) : bool :=
  match evs with
  | [] => running
  | LaunchMove :: r => running_after true r
  | JoinMove :: r => running_after false r
  | _ :: r => running_after running r
  end.

Definition loop_state (r : LoopEnd) : RunState :=
  match r with Aborted st | Exited st | OutOfFuel st => st end.

Definition is_exposure (ev : Event) : bool :=
  match ev with PresentImage _ _ => true | _ => false end.

(** The lengths of the maximal runs of exposed frames in a trace: one
    entry per layer, its exposure in frames. *)
Fixpoint exposures_aux (cur : nat) (evs : list Event) : list nat :=
  match evs with
  | [] => if (cur =? 0)%nat then [] else [cur]
  | ev :: r =>
      if is_exposure ev then exposures_aux (S cur) r
      else if (cur =? 0)%nat then exposures_aux 0 r else cur :: exposures_aux 0 r
  end.

Definition exposures (evs : list Event) : list nat := exposures_aux 0 evs.

Definition count_event (e : Event) (evs : list Event) : nat :=
  length (filter (fun x => match x, e with
                           | LaunchMove, LaunchMove | JoinMove, JoinMove
                           | HomeStage, HomeStage | CloseWindow, CloseWindow => true
                           | _, _ => false end) evs).

(** The events the frames never issue: only the shutdown homes the
    stage, and only a polled close request or the shutdown closes the
    window. *)
Definition loop_event (ev : Event) : bool :=
  match ev with HomeStage | CloseWindow => false | _ => true end.

(** A step [f] of the loop is safe when its events are a safe trace
    from its state and account for its change of [isStageThreadRunning]. *)
Definition step_safe (st : RunState) (res : RunState * list Event) : Prop :=
  safe_trace (isStageThreadRunning st) (snd res) /\
  running_after (isStageThreadRunning st) (snd res) = isStageThreadRunning (fst res).

(** The first three steps of the dark branch change neither the phase,
    nor the image and texture indices, nor the dark timer. *)
Definition keeps_phase (st st' : RunState) : Prop :=
  displayImage st' = displayImage st /\ currentImageIndex st' = currentImageIndex st /\
  currentTextureIndex st' = currentTextureIndex st /\ darkTimeStart st' = darkTimeStart st.

Definition scenario_params : RunParams := mkParams 5 100 3 2.

(** The environment of the spec's end-to-end scenario: five images
    [SEC_1.PNG] to [SEC_5.PNG], a frame every 40 ms, every move ready at
    its first poll, every load successful, no abort. *)
Definition scenario_env (abortAt : option nat) : RunEnv :=
  mkEnv (Some ["SEC_1.PNG"; "SEC_2.PNG"; "SEC_3.PNG"; "SEC_4.PNG"; "SEC_5.PNG"]%string)
        true (ret true)
        (fun t => mkTick false (match abortAt with Some a => (a <=? t)%nat | None => false end)
                         (40 * Z.of_nat t) true true).

Definition swap_state : RunState :=
  {| displayImage := false; imageDisplayCount := 0; currentLayer := 1;
     inInitialPhase := true; currentImageIndex := 0; currentTextureIndex := 0;
     texture0 := Some 0%nat; texture1 := Some 1%nat; nextImageLoaded := true;
     isNextImageLoading := true; allImagesShown := false; isStageThreadRunning := false;
     darkTimeStart := 0 |}.

Definition swap_input : TickInput := mkTick false false 200 true true.

(** ** The loop invariant *)

Section Invariant.
Context (p : RunParams) (len : nat).

(** What holds of the loop variables at the top of every iteration:
    the texture index is 0 or 1; the image index is in range; the two
    preload flags agree and a preloaded image exists; in the light
    phase no move is in flight and nothing is preloaded; the frame
    counter is below the threshold ([int] never overflows); the layer
    counter runs in lockstep with the image index; and the initial
    phase lasts while [currentLayer < max 1 initialLayers]. *)
Definition inv (st : RunState) : Prop :=
  (currentTextureIndex st = 0 \/ currentTextureIndex st = 1) /\
  (currentImageIndex st < len)%nat /\
  nextImageLoaded st = isNextImageLoading st /\
  (nextImageLoaded st = true -> (S (currentImageIndex st) < len)%nat) /\
  (allImagesShown st = true -> (len <= S (currentImageIndex st))%nat) /\
  (displayImage st = true ->
     isStageThreadRunning st = false /\ nextImageLoaded st = false /\
     allImagesShown st = false /\ imageDisplayCount st < Z.max 1 (maxCount p st)) /\
  (displayImage st = false -> imageDisplayCount st = 0) /\
  0 <= imageDisplayCount st /\
  currentLayer st = Z.of_nat (currentImageIndex st) + (if displayImage st then 0 else 1) /\
  inInitialPhase st = (currentLayer st =? 0) || (currentLayer st <? initialLayers p).

End Invariant.

Section Preservation.
Context (p : RunParams) (len : nat).

#[local] Arguments Z.sub : simpl never.
#[local] Arguments Z.add : simpl never.
#[local] Arguments Z.of_nat : simpl never.

Ltac inv_intro H :=
  destruct H as (Hc & Hi & Hl & Hn & Ha & Hd & Hz & Hpos & Hlay & Hinit).

Ltac inv_close :=
  unfold inv, maxCount in *; simpl in *;
  repeat match goal with |- _ /\ _ => split | |- _ -> _ => intro end;
  subst; simpl in *; try assumption; try discriminate; try congruence;
  saturate; try assumption;
  case_cmp; saturate; try discriminate; try reflexivity; try congruence; try lia.

Lemma light_frame_inv (i : TickInput) (st : RunState) :
  inv p len st -> displayImage st = true -> inv p len (fst (light_frame p i st)).
Proof.
  intros H Hdisp. inv_intro H. rewrite Hdisp in *.
  destruct (Hd eq_refl) as (Hr & Hnl & Has & Hlt). unfold light_frame, maxCount in *.
  rewrite Hinit in *. inv_close.
Qed.

Lemma dark_launch_inv (st : RunState) :
  inv p len st -> displayImage st = false ->
  inv p len (fst (dark_launch st)) /\ displayImage (fst (dark_launch st)) = false.
Proof.
  intros H Hdisp. inv_intro H. unfold dark_launch.
  destruct (negb _ && negb _); inv_close.
Qed.

Lemma dark_preload_inv (i : TickInput) (st : RunState) :
  inv p len st -> displayImage st = false ->
  inv p len (fst (dark_preload len i st)) /\
  displayImage (fst (dark_preload len i st)) = false.
Proof.
  intros H Hdisp. inv_intro H. unfold dark_preload.
  destruct (isNextImageLoading st) eqn:EL; simpl; [|case_cmp]; inv_close.
Qed.

Lemma dark_poll_inv (i : TickInput) (st : RunState) :
  inv p len st -> displayImage st = false ->
  inv p len (fst (dark_poll i st)) /\ displayImage (fst (dark_poll i st)) = false.
Proof.
  intros H Hdisp. inv_intro H. unfold dark_poll.
  destruct (isStageThreadRunning st && moveReady i); inv_close.
Qed.

Lemma dark_swap_inv (i : TickInput) (st : RunState) :
  inv p len st -> displayImage st = false -> inv p len (fst (dark_swap p i st)).
Proof.
  intros H Hdisp. unfold dark_swap, swap_ready, swap_buffers.
  destruct (_ && nextImageLoaded st && _) eqn:G; [|exact H].
  apply andb_true_iff in G as [G Gr]. apply andb_true_iff in G as [_ Gl].
  apply negb_true_iff in Gr. inv_intro H.
  rewrite Hdisp in *.
  destruct (allImagesShown st) eqn:Eas; [saturate; lia|]. inv_close.
Qed.

Lemma dark_frame_inv (i : TickInput) (st : RunState) :
  inv p len st -> displayImage st = false -> inv p len (fst (dark_frame p len i st)).
Proof.
  intros H Hdisp. unfold dark_frame.
  destruct (dark_launch_inv st H Hdisp) as [H1 D1].
  destruct (dark_launch st) as [s1 e1]; simpl in *.
  destruct (dark_preload_inv i s1 H1 D1) as [H2 D2].
  destruct (dark_preload len i s1) as [s2 e2]; simpl in *.
  destruct (dark_poll_inv i s2 H2 D2) as [H3 D3].
  destruct (dark_poll i s2) as [s3 e3]; simpl in *.
  pose proof (dark_swap_inv i s3 H3 D3) as H4.
  destruct (dark_swap p i s3) as [s4 e4]; exact H4.
Qed.

(** C2: every iteration of the loop preserves [inv]; in particular the
    texture index stays 0 or 1, the image index stays in range, the
    frame counter stays below its threshold, and the layer counter
    stays in lockstep with the image index. *)
Theorem tick_inv (i : TickInput) (st : RunState) (c : Control) (st' : RunState)
    (ev : list Event) :
  inv p len st -> tick p len i st = (c, st', ev) -> inv p len st'.
Proof.
  intros H E. unfold tick in E.
  destruct (displayImage st && abortFlag i); [congruence|].
  destruct (displayImage st) eqn:Hd.
  - pose proof (light_frame_inv i st H Hd) as H'.
    destruct (light_frame p i st) as [s e]; simpl in *.
    destruct (allImagesShown s && negb (displayImage s)); congruence.
  - pose proof (dark_frame_inv i st H Hd) as H'.
    destruct (dark_frame p len i st) as [s e]; simpl in *.
    destruct (allImagesShown s && negb (displayImage s)); congruence.
Qed.

End Preservation.

(** ** Safety of the trace *)

Lemma safe_trace_app (r : bool) (a b : list Event) :
  safe_trace r (a ++ b) <-> safe_trace r a /\ safe_trace (running_after r a) b.
Proof.
  revert r. induction a as [|e a IH]; intros r; simpl; [tauto|].
  destruct e; rewrite ?IH; tauto.
Qed.

Lemma running_after_app (r : bool) (a b : list Event) :
  running_after r (a ++ b) = running_after (running_after r a) b.
Proof. revert r. induction a as [|e a IH]; intros r; simpl; [|destruct e]; auto. Qed.

Lemma step_safe_seq (st : RunState) (r1 r2 : RunState * list Event) :
  step_safe st r1 -> step_safe (fst r1) r2 -> step_safe st (fst r2, snd r1 ++ snd r2).
Proof.
  unfold step_safe; simpl. intros [S1 R1] [S2 R2].
  rewrite safe_trace_app, running_after_app, R1. tauto.
Qed.

Section Safety.
Context (p : RunParams) (len : nat).

Lemma light_frame_safe (i : TickInput) (st : RunState) :
  isStageThreadRunning st = false -> step_safe st (light_frame p i st).
Proof.
  intros Hr. unfold step_safe, light_frame; simpl. rewrite Hr.
  destruct (maxCount p st <=? _)%Z; simpl; intuition congruence.
Qed.

Lemma dark_launch_safe (st : RunState) : step_safe st (dark_launch st).
Proof.
  unfold step_safe, dark_launch.
  destruct (isStageThreadRunning st) eqn:R; simpl; [intuition congruence|].
  destruct (nextImageLoaded st); simpl; rewrite ?R; intuition congruence.
Qed.

Lemma dark_preload_safe (i : TickInput) (st : RunState) :
  step_safe st (dark_preload len i st).
Proof.
  unfold step_safe, dark_preload.
  destruct (_ && _); simpl; [intuition congruence|]. destruct (_ && _); simpl; intuition congruence.
Qed.

Lemma dark_poll_safe (i : TickInput) (st : RunState) : step_safe st (dark_poll i st).
Proof.
  unfold step_safe, dark_poll.
  destruct (isStageThreadRunning st) eqn:R; simpl; [|intuition congruence].
  destruct (moveReady i); simpl; intuition congruence.
Qed.

Lemma dark_swap_safe (i : TickInput) (st : RunState) : step_safe st (dark_swap p i st).
Proof. unfold step_safe, dark_swap, swap_buffers. destruct (swap_ready _ _ _); simpl; intuition congruence. Qed.

Lemma swap_buffers_safe (st : RunState) : step_safe st (swap_buffers st).
Proof. unfold step_safe, swap_buffers; simpl; tauto. Qed.

Lemma dark_frame_safe (i : TickInput) (st : RunState) :
  step_safe st (dark_frame p len i st).
Proof.
  unfold dark_frame.
  pose proof (dark_launch_safe st) as S1. destruct (dark_launch st) as [s1 e1].
  pose proof (dark_preload_safe i s1) as S2. destruct (dark_preload len i s1) as [s2 e2].
  pose proof (dark_poll_safe i s2) as S3. destruct (dark_poll i s2) as [s3 e3].
  pose proof (dark_swap_safe i s3) as S4. destruct (dark_swap p i s3) as [s4 e4].
  pose proof (step_safe_seq _ _ _ S1 (step_safe_seq _ _ _ S2 (step_safe_seq _ _ _ S3 S4)))
    as S. unfold step_safe in *; simpl in *. intuition congruence.
Qed.

(** Closing the window changes nothing a move depends on. *)
Lemma close_prefix_safe (b : bool) (st st' : RunState) (ev : list Event) :
  step_safe st (st', ev) -> step_safe st (st', (if b then [CloseWindow] else []) ++ ev).
Proof. destruct b; exact (fun H => H). Qed.

Lemma tick_safe (i : TickInput) (st : RunState) :
  inv p len st -> let '(_, st', ev) := tick p len i st in step_safe st (st', ev).
Proof.
  intros H. unfold tick. cbv zeta.
  destruct (displayImage st) eqn:D; cbn [andb].
  - destruct (abortFlag i).
    { unfold step_safe; destruct (closeRequested i); simpl; tauto. }
    destruct H as (_ & _ & _ & _ & _ & Hd & _). destruct (Hd D) as [Hr _].
    pose proof (light_frame_safe i st Hr) as S. destruct (light_frame p i st) as [s e].
    destruct (_ && _); apply close_prefix_safe; [|exact S].
    apply (step_safe_seq st (s, e) (s, [SetCurrent 0])); [exact S|].
    unfold step_safe; simpl; tauto.
  - pose proof (dark_frame_safe i st) as S. destruct (dark_frame p len i st) as [s e].
    destruct (_ && _); apply close_prefix_safe; [|exact S].
    apply (step_safe_seq st (s, e) (s, [SetCurrent 0])); [exact S|].
    unfold step_safe; simpl; tauto.
Qed.

Lemma loop_safe (env : nat -> TickInput) (fuel t : nat) (st : RunState) :
  inv p len st ->
  let '(r, ev) := loop p len env fuel t st in step_safe st (loop_state r, ev).
Proof.
  revert t st. induction fuel as [|f IH]; intros t st H; simpl.
  - unfold step_safe; simpl; tauto.
  - pose proof (tick_safe (env t) st H) as Hs.
    destruct (tick p len (env t) st) as [[c st'] ev] eqn:E.
    pose proof (tick_inv p len _ _ _ _ _ H E) as H'.
    destruct c; [|exact Hs|exact Hs].
    destruct (closeRequested (env t)); [exact Hs|].
    specialize (IH (S t) st' H'). destruct (loop p len env f (S t) st') as [r ev'].
    apply (step_safe_seq st (st', ev) (loop_state r, ev') Hs IH).
Qed.

End Safety.

Lemma initial_state_inv' (p : RunParams) (len : nat) (ok : bool) :
  (0 < len)%nat -> inv p len (initial_state ok).
Proof.
  intros Hlen. unfold inv, initial_state, maxCount; simpl.
  repeat split; try discriminate; lia.
Qed.

(** C1: safety of the whole run: in every run of [RunFull], whatever
    the environment does, at most one stage move is in flight, every
    move is joined before the next is launched, and while a move is in
    flight no image is exposed and the main loop sends no command
    (position query, home, close) to the controller. *)
Theorem run_safe (p : RunParams) (e : RunEnv) (fuel : nat) :
  safe_trace false (snd (run p e fuel)).
Proof.
  unfold run. destruct (listing e) as [[|img imgs]|]; simpl; auto.
  destruct (controllerInit e) as [x|[]]; simpl; auto.
  assert (Hlen : (0 < length (img :: imgs))%nat) by (simpl; lia).
  pose proof (loop_safe p (length (img :: imgs)) (frames e) fuel 0
                (initial_state (firstLoadOk e))
                (initial_state_inv' p _ (firstLoadOk e) Hlen)) as Hs.
  destruct (loop _ _ _ _ _ _) as [r ev]. destruct Hs as [Hs R]. simpl in R.
  destruct r as [st|st|st]; simpl in *; rewrite ?safe_trace_app, ?R; try split; auto;
    unfold shutdown; destruct (isStageThreadRunning st); simpl; tauto.
Qed.

(** ** Phases of the loop *)

Section Phases.
Context (p : RunParams) (len : nat).

#[local] Arguments Z.of_nat : simpl never.
#[local] Arguments Z.sub : simpl never.

Lemma keeps_phase_trans (a b c : RunState) :
  keeps_phase a b -> keeps_phase b c -> keeps_phase a c.
Proof. unfold keeps_phase. intuition congruence. Qed.

Lemma dark_launch_keeps (st : RunState) : keeps_phase st (fst (dark_launch st)).
Proof. unfold keeps_phase, dark_launch. destruct (_ && _); simpl; auto. Qed.

Lemma dark_preload_keeps (i : TickInput) (st : RunState) :
  keeps_phase st (fst (dark_preload len i st)).
Proof.
  unfold keeps_phase, dark_preload. destruct (_ && _); simpl; [auto|].
  destruct (_ && _); simpl; auto.
Qed.

Lemma dark_poll_keeps (i : TickInput) (st : RunState) : keeps_phase st (fst (dark_poll i st)).
Proof. unfold keeps_phase, dark_poll. destruct (_ && _); simpl; auto. Qed.

(** C4: an exposure starts only when the dark time has elapsed
    (strictly more than [mindarktime] ms since the layer ended), the
    stage move has been joined, and then it shows the next image from
    the other texture. *)
Theorem tick_starts_exposure (i : TickInput) (st : RunState) (c : Control)
    (st' : RunState) (ev : list Event) :
  displayImage st = false -> tick p len i st = (c, st', ev) -> displayImage st' = true ->
  mindarktime p < now i - darkTimeStart st /\ isStageThreadRunning st' = false /\
  currentImageIndex st' = S (currentImageIndex st) /\
  currentTextureIndex st' = 1 - currentTextureIndex st.
Proof.
  intros Hd E Hd'. unfold tick in E. rewrite Hd in E. simpl in E.
  unfold dark_frame in E.
  pose proof (dark_launch_keeps st) as K1.
  destruct (dark_launch st) as [s1 e1]. pose proof (dark_preload_keeps i s1) as K2.
  destruct (dark_preload len i s1) as [s2 e2]. pose proof (dark_poll_keeps i s2) as K3.
  destruct (dark_poll i s2) as [s3 e3]. simpl in K1, K2, K3.
  pose proof (keeps_phase_trans _ _ _ K1 (keeps_phase_trans _ _ _ K2 K3)) as (P1 & P2 & P3 & P4).
  unfold dark_swap, swap_ready, swap_buffers in E.
  destruct (mindarktime p <? now i - darkTimeStart s3) eqn:G1;
    destruct (nextImageLoaded s3); destruct (isStageThreadRunning s3) eqn:G3; simpl in E;
    destruct (allImagesShown _ && _); injection E as <- <- <-; simpl in *;
    try congruence.
  all: apply Z.ltb_lt in G1; rewrite P4 in G1; repeat split; congruence.
Qed.

(** The light phase, frame by frame: with [S m] frames left before the
    threshold and no abort or close request, the loop exposes the
    current texture [S m] times, queries the position once and enters
    the dark phase with the next layer. *)
Lemma light_phase_frames (env : nat -> TickInput) (m t : nat) (st : RunState) :
  inv p len st -> displayImage st = true ->
  Z.max 1 (maxCount p st) - imageDisplayCount st = Z.of_nat (S m) ->
  (forall k, (k <= m)%nat -> abortFlag (env (t + k)%nat) = false /\
                              closeRequested (env (t + k)%nat) = false) ->
  exists st', loop p len env (S m) t st =
    (OutOfFuel st', repeat (PresentImage (currentTextureIndex st)
                              (texture st (currentTextureIndex st))) (S m)
                    ++ [QueryPosition]) /\
  displayImage st' = false /\ currentLayer st' = currentLayer st + 1.
Proof.
  revert t st. induction m as [|m IH]; intros t st H Hd Hm Henv.
  - destruct (Henv 0%nat ltac:(lia)) as [Ha Hc]. rewrite Nat.add_0_r in Ha, Hc.
    pose proof H as (_ & _ & _ & _ & _ & Hdd & _ & Hpos & _).
    destruct (Hdd Hd) as (_ & _ & Has & _). rewrite Nat2Z.inj_succ in Hm.
    simpl. unfold tick. rewrite Hd, Ha. simpl. unfold light_frame.
    destruct (Z.leb_spec (maxCount p st) (imageDisplayCount st + 1)); [|lia].
    simpl. rewrite Has, Hc. eexists. split; [reflexivity|]. simpl. lia.
  - destruct (Henv 0%nat ltac:(lia)) as [Ha Hc]. rewrite Nat.add_0_r in Ha, Hc.
    pose proof H as (_ & _ & _ & _ & _ & Hdd & _ & Hpos & _).
    destruct (Hdd Hd) as (_ & _ & Has & _). rewrite !Nat2Z.inj_succ in Hm.
    simpl loop. destruct (tick p len (env t) st) as [[c st1] ev] eqn:E.
    pose proof (tick_inv p len _ _ _ _ _ H E) as H1.
    unfold tick in E. rewrite Hd, Ha in E. simpl in E. unfold light_frame in E.
    destruct (Z.leb_spec (maxCount p st) (imageDisplayCount st + 1)); [lia|].
    simpl in E. rewrite Has in E. simpl in E. injection E as <- <- <-. rewrite Hc.
    edestruct (IH (S t)) as (st' & E' & D' & L').
    + exact H1.
    + reflexivity.
    + unfold maxCount in *; simpl. lia.
    + intros k Hk. replace (S t + k)%nat with (t + S k)%nat by lia. apply Henv. lia.
    + simpl in E'. rewrite E'. exists st'. split; [reflexivity|]. split; [exact D'|]. simpl in L'. lia.
Qed.

(** C3: exposure of a layer: from the start of a light phase, with no
    abort or close request, the loop exposes the current image for
    exactly [max 1 threshold] frames, where the threshold is
    [initialExposureCounter] for the layers below
    [max 1 initialLayers] and [maxImageDisplayCount] after, then
    queries the position once and goes dark with the layer counter
    advanced. *)
Theorem light_phase_exposure (env : nat -> TickInput) (t : nat) (st : RunState) :
  let K := Z.to_nat (Z.max 1 (if (currentLayer st =? 0) || (currentLayer st <? initialLayers p)
                              then initialExposureCounter p
                              else maxImageDisplayCount p)) in
  inv p len st -> displayImage st = true -> imageDisplayCount st = 0 ->
  (forall k, (k < K)%nat -> abortFlag (env (t + k)%nat) = false /\
                             closeRequested (env (t + k)%nat) = false) ->
  exists st', loop p len env K t st =
    (OutOfFuel st', repeat (PresentImage (currentTextureIndex st)
                              (texture st (currentTextureIndex st))) K
                    ++ [QueryPosition]) /\
  displayImage st' = false /\ currentLayer st' = currentLayer st + 1.
Proof.
  intros K H Hd H0 Henv.
  pose proof H as (_ & _ & _ & _ & _ & _ & _ & _ & _ & Hinit).
  assert (HK : K = S (Z.to_nat (Z.max 1 (maxCount p st)) - 1)).
  { unfold K, maxCount. rewrite Hinit. lia. }
  rewrite HK in *. apply light_phase_frames; auto.
  - rewrite H0. lia.
  - intros k Hk. apply Henv. lia.
Qed.

End Phases.

Lemma light_phase_exposure_witness :
  let st := initial_state true in
  inv scenario_params 5 st /\ displayImage st = true /\ imageDisplayCount st = 0 /\
  exists st', loop scenario_params 5 (frames (scenario_env None)) 3 0 st =
    (OutOfFuel st', repeat (PresentImage 0 (Some 0%nat)) 3 ++ [QueryPosition]) /\
    displayImage st' = false /\ currentLayer st' = 1.
Proof.
  intros st.
  assert (H : inv scenario_params 5 st) by (apply initial_state_inv'; lia).
  split; [exact H|split; [reflexivity|split; [reflexivity|]]].
  apply (light_phase_exposure scenario_params 5 (frames (scenario_env None)) 0 st H
           eq_refl eq_refl).
  intros k Hk. split; reflexivity.
Defined.

Lemma tick_inv_witness :
  let st := initial_state true in
  let r := tick scenario_params 5 swap_input st in
  inv scenario_params 5 st /\ inv scenario_params 5 (snd (fst r)).
Proof.
  intros st r.
  assert (H : inv scenario_params 5 st) by (apply initial_state_inv'; lia).
  split; [exact H|].
  apply (tick_inv scenario_params 5 swap_input st (fst (fst r)) (snd (fst r)) (snd r) H).
  reflexivity.
Defined.

Lemma tick_starts_exposure_witness :
  mindarktime scenario_params < now swap_input - darkTimeStart swap_state /\
  isStageThreadRunning (snd (fst (tick scenario_params 5 swap_input swap_state))) = false /\
  currentImageIndex (snd (fst (tick scenario_params 5 swap_input swap_state))) = 1%nat /\
  currentTextureIndex (snd (fst (tick scenario_params 5 swap_input swap_state))) = 1 - 0.
Proof.
  apply (tick_starts_exposure scenario_params 5 swap_input swap_state Continue
           (snd (fst (tick scenario_params 5 swap_input swap_state)))
           (snd (tick scenario_params 5 swap_input swap_state)));
    reflexivity.
Defined.

(** The spec's end-to-end scenario: five images, two initial
    layers of 3 frames, then 5 frames per layer, every move ready at its
    first poll: the run ends normally after exactly five light/dark
    cycles with exposures 3, 3, 5, 5, 5, five stage moves and one home
    command. *)
Theorem scenario_static_run :
  let '(o, evs) := run scenario_params (scenario_env None) 200 in
  match o with RunEnded _ => True | _ => False end /\
  exposures evs = [3; 3; 5; 5; 5]%nat /\ count_event LaunchMove evs = 5%nat /\
  count_event JoinMove evs = 5%nat /\ count_event HomeStage evs = 1%nat.
Proof. vm_compute. repeat split. Qed.

(** ** The abort *)

Lemma dark_frame_loop_events (p : RunParams) (len : nat) (i : TickInput) (st : RunState) :
  forallb loop_event (snd (dark_frame p len i st)) = true.
Proof.
  unfold dark_frame.
  assert (L1 : forallb loop_event (snd (dark_launch st)) = true)
    by (unfold dark_launch; destruct (_ && _); reflexivity).
  destruct (dark_launch st) as [s1 e1].
  assert (L2 : forallb loop_event (snd (dark_preload len i s1)) = true)
    by (unfold dark_preload; repeat (destruct (_ && _)); reflexivity).
  destruct (dark_preload len i s1) as [s2 e2].
  assert (L3 : forallb loop_event (snd (dark_poll i s2)) = true)
    by (unfold dark_poll; destruct (_ && _); reflexivity).
  destruct (dark_poll i s2) as [s3 e3].
  assert (L4 : forallb loop_event (snd (dark_swap p i s3)) = true)
    by (unfold dark_swap; destruct (swap_ready _ _ _); reflexivity).
  destruct (dark_swap p i s3) as [s4 e4]. simpl in *.
  rewrite !forallb_app, L1, L2, L3, L4. reflexivity.
Qed.

(** The events of the frames ([loop_event]) and, before them, the
    [window.close()] of a polled close request. *)
Lemma in_close_prefix (b : bool) (l : list Event) (ev : Event) :
  In ev ((if b then [CloseWindow] else []) ++ l) -> (ev = CloseWindow /\ b = true) \/ In ev l.
Proof. destruct b; cbn; intuition. Qed.

Lemma tick_events (p : RunParams) (len : nat) (i : TickInput) (st : RunState) (ev : Event) :
  In ev (snd (tick p len i st)) -> (ev = CloseWindow /\ closeRequested i = true) \/ loop_event ev = true.
Proof.
  assert (L : forallb loop_event (snd (if displayImage st then light_frame p i st
                                       else dark_frame p len i st)) = true).
  { destruct (displayImage st); [|apply dark_frame_loop_events].
    unfold light_frame. simpl. destruct (_ <=? _)%Z; reflexivity. }
  rewrite forallb_forall in L.
  unfold tick. cbv zeta. destruct (_ && _).
  { cbn [snd]. destruct (closeRequested i); cbn; intuition. }
  destruct (if displayImage st then _ else _) as [s e]. cbn [snd] in L.
  destruct (_ && _); cbn [snd]; intros H; apply in_close_prefix in H;
    (destruct H as [H|H]; [left; exact H|right]);
    [apply in_app_or in H as [H|[<-|[]]]; [exact (L _ H)|reflexivity]|exact (L _ H)].
Qed.

(** A [CloseWindow] of the loop answers a close request of one of its
    frames; the loop never homes the stage. *)
Lemma loop_events (p : RunParams) (len : nat) env fuel t st (ev : Event) :
  In ev (snd (loop p len env fuel t st)) ->
  (ev = CloseWindow /\ exists k, (t <= k < t + fuel)%nat /\ closeRequested (env k) = true) \/
  loop_event ev = true.
Proof.
  revert t st. induction fuel as [|f IH]; intros t st; [intros []|]. simpl.
  pose proof (tick_events p len (env t) st ev) as L.
  destruct (tick p len (env t) st) as [[c st'] e]. cbn [snd] in L.
  assert (T : In ev e -> (ev = CloseWindow /\ exists k, (t <= k < t + S f)%nat /\ closeRequested (env k) = true)
                         \/ loop_event ev = true)
    by (intros H; destruct (L H) as [[-> C]|R]; [left; split; [reflexivity|exists t; split; [lia|exact C]]|right; exact R]).
  destruct c; try exact T. destruct (closeRequested (env t)); [exact T|].
  specialize (IH (S t) st'). destruct (loop p len env f (S t) st') as [r e'].
  cbn [snd] in *. intros H. apply in_app_or in H as [H|H]; [exact (T H)|].
  destruct (IH H) as [[-> (k & Hk & C)]|R]; [left; split; [reflexivity|exists k; split; [lia|exact C]]|right; exact R].
Qed.

(** C11: an aborted run ends without homing the stage: after the
    abort's [return] only the implicit join of a running move and the
    closing of the port by the destructors happen, the port's closing
    last (the spec asks for home and close). The window is closed only
    where the user asked for it: every [CloseWindow] of the trace
    answers a close request polled in one of the run's frames. *)
Theorem run_aborted_no_home (p : RunParams) (e : RunEnv) (fuel : nat)
    (st : RunState) (evs : list Event) :
  run p e fuel = (RunAborted st, evs) ->
  ~ In HomeStage evs /\
  (In CloseWindow evs -> exists k, (k < fuel)%nat /\ closeRequested (frames e k) = true) /\
  exists evs', evs = evs' ++ [CloseStage].
Proof.
  unfold run. destruct (listing e) as [[|img imgs]|]; try discriminate.
  destruct (controllerInit e) as [x|[]]; try discriminate. cbv iota.
  pose proof (loop_events p (S (length imgs)) (frames e) fuel 0 (initial_state (firstLoadOk e))) as L.
  destruct (loop _ _ _ _ _ _) as [[s|s|s] ev]; try discriminate.
  intros E. injection E as <- <-. cbn [snd] in L.
  assert (A : forall x, In x ((if isStageThreadRunning s then [JoinMove] else []) ++ [CloseStage]) ->
                        x <> HomeStage /\ x <> CloseWindow)
    by (destruct (isStageThreadRunning s); cbn; intuition congruence).
  split; [|split].
  - intros H. apply in_app_or in H as [H|H]; [|exact (proj1 (A _ H) eq_refl)].
    destruct (L _ H) as [[D _]|D]; discriminate D.
  - intros H. apply in_app_or in H as [H|H]; [|destruct (proj2 (A _ H) eq_refl)].
    destruct (L _ H) as [[_ (k & Hk & C)]|D]; [exists k; split; [lia|exact C]|discriminate D].
  - exists (ev ++ (if isStageThreadRunning s then [JoinMove] else [])). rewrite <- app_assoc. reflexivity.
Qed.

Lemma run_aborted_no_home_witness :
  exists st evs, run scenario_params (scenario_env (Some 20%nat)) 200 = (RunAborted st, evs) /\
    ~ In HomeStage evs /\
    (In CloseWindow evs -> exists k, (k < 200)%nat /\ closeRequested (frames (scenario_env (Some 20%nat)) k) = true) /\
    exists evs', evs = evs' ++ [CloseStage].
Proof.
  destruct (run scenario_params (scenario_env (Some 20%nat)) 200) as [o evs] eqn:E.
  destruct o as [| | | |st|st|st]; try (vm_compute in E; discriminate).
  exists st, evs. split; [reflexivity|].
  apply (run_aborted_no_home scenario_params (scenario_env (Some 20%nat)) 200 st evs E).
Defined.

End RunFull.
