(* ===== verification/LayerSettingsTable.v ===== *)
(** * LayerSettingsTable: [LayerSettings] and [readSettingsOrdered]

    Models [struct LayerSettings] ([src/dependencies/include/
    individualCommands.h]) and [readSettingsOrdered]
    ([src/src/individualCommands.cpp], lines 1665-1707): the file is split
    into lines by [std::getline], the header is skipped, each row is read
    by [operator>>] into four [int]s, and the settings are collected into
    an ordered vector of (settings, count) pairs, with a [std::map] from
    settings to a counter used to recognise settings already seen. The map
    is stdpp's [gmap]; its [Countable] key is the triple of fields.

    The theorems show that the loader computes the reference table
    [group_spec] (distinct settings in order of first appearance, each
    with its number of rows), hence that its entries are distinct and its
    counts add up to the number of rows; that loading the expansion of a
    table gives the table back; and that rows that are not grouped
    (a setting recurring after another one) are reordered. *)

From Stdlib Require Import String Ascii ZArith Lia.
From S2P Require Import Prelude.
From stdpp Require Import base list gmap.
Local Open Scope Z_scope.
#[local] Set Warnings "-clear-no-such-hyp".

Module LayerSettingsTable.

(** [struct LayerSettings] (its [operator==] is equality of the three
    fields; its [operator<] is the lexicographic order the [std::map]
    uses, which only matters for lookups, modelled by the [gmap]). *)
Record LayerSettings : Type := mkLayerSettings {
  intensity : Z;
  exposureTime : Z;
  darkTime : Z
}.

#[export] Instance LayerSettings_eq_dec : EqDecision LayerSettings.
Proof. solve_decision. Defined.

#[export] Instance LayerSettings_countable : Countable LayerSettings.
Proof.
  apply (inj_countable' (fun s => (intensity s, exposureTime s, darkTime s))
                        (fun '(i, e, d) => mkLayerSettings i e d)).
  by intros [].
Defined.

(** The running state of the loop: [orderedSettings] and [settingsCount]. *)
Definition Table : Type := list (LayerSettings * Z).

(** [settingsCount[s]++]: [operator[]] inserts 0 first when [s] is absent. *)
Definition map_incr (s : LayerSettings) (m : gmap LayerSettings Z) : gmap LayerSettings Z :=
  <[s := default 0 (m !! s) + 1]> m.

(** The inner [for] loop: increment the count of the first entry equal to
    [s], then [break]. *)
Fixpoint bump_first (s : LayerSettings) (t : Table) : Table :=
  match t with
  | [] => []
  | (s', n) :: r => if decide (s' = s) then (s', n + 1) :: r else (s', n) :: bump_first s r
  end.

(** One row (lines 1685-1703): a new setting is appended with count 1; a
    known one has its vector entry incremented; the map counter is then
    incremented (twice for a known setting, as in the code). *)
Definition read_step (acc : Table * gmap LayerSettings Z) (cur : LayerSettings)
    : Table * gmap LayerSettings Z :=
  let '(orderedSettings, settingsCount) := acc in
  match settingsCount !! cur with
  | None => (orderedSettings ++ [(cur, 1)], map_incr cur settingsCount)
  | Some _ => (bump_first cur orderedSettings, map_incr cur (map_incr cur settingsCount))
  end.

(** The [while (std::getline(file, line))] loop over the parsed rows. *)
Definition read_rows (rows : list LayerSettings) : Table * gmap LayerSettings Z :=
  foldl read_step ([], ∅) rows.

(** [std::getline] on the whole file: the lines, without their ['\n']; a
    final line without terminator is a line, an empty remainder is not. *)
Fixpoint getlines_aux (cur : string) (s : string) : list string :=
  match s with
  | EmptyString => match cur with EmptyString => [] | _ => [cur] end
  | String c r =>
      if Ascii.eqb c "010"%char then cur :: getlines_aux EmptyString r
      else getlines_aux (cur ++ String c EmptyString)%string r
  end.

Definition getlines (s : string) : list string := getlines_aux EmptyString s.

(** [in >> x] for an [int]: skip blanks, read an optional sign and at
    least one digit, fail on overflow. *)
Definition extract_int (s : string) : option (Z * string) :=
  let '(neg, r) := take_sign (skip_space s) in
  let '(d, rest) := span_digits r in
  match d with
  | EmptyString => None
  | _ => let v := if neg then - digits_value d else digits_value d in
         if (INT_MIN <=? v) && (v <=? INT_MAX) then Some (v, rest) else None
  end.

(** [in >> c] for a [char]: skip blanks, read one character. *)
Definition extract_char (s : string) : option (ascii * string) :=
  match skip_space s with
  | String c r => Some (c, r)
  | EmptyString => None
  end.

(** Line 1684: [iss >> layer >> delim >> intensity >> delim >> exposureTime
    >> delim >> darkTime]. [None] when an extraction fails. *)
Definition parse_row (line : string) : option LayerSettings :=
  '(_, r) ← extract_int line;
  '(_, r) ← extract_char r;
  '(i, r) ← extract_int r;
  '(_, r) ← extract_char r;
  '(e, r) ← extract_int r;
  '(_, r) ← extract_char r;
  '(d, _) ← extract_int r;
  Some (mkLayerSettings i e d).

(** [readSettingsOrdered]. A file that cannot be opened reads as no
    lines. A row whose extraction fails is not rejected: the code goes on
    with the values the [int]s happen to hold, given here by [garbage]. *)
Definition readSettingsOrdered (garbage : string -> LayerSettings) (file : option string)
    : Table :=
  match file with
  | None => []
  | Some text =>
      match getlines text with
      | [] => []
      | _ :: body =>
          fst (read_rows (map (fun l => default (garbage l) (parse_row l)) body))
      end
  end.

(** ** Reference specification *)

(** The distinct elements of [rows] in order of first appearance. *)
Fixpoint firsts_aux (seen : list LayerSettings) (rows : list LayerSettings)
    : list LayerSettings :=
  match rows with
  | [] => []
  | x :: r => if decide (x ∈ seen) then firsts_aux seen r else x :: firsts_aux (x :: seen) r
  end.

Definition firsts (rows : list LayerSettings) : list LayerSettings := firsts_aux [] rows.

Definition countZ (s : LayerSettings) (rows : list LayerSettings) : Z :=
  Z.of_nat (length (filter (fun r => r = s) rows)).

(** The table a settings file describes: each distinct setting, in order
    of first appearance, with its number of rows. *)
Definition group_spec (rows : list LayerSettings) : Table :=
  map (fun s => (s, countZ s rows)) (firsts rows).

(** The rows a table stands for: each setting repeated [count] times
    (the layers [RunFullDynamic] is meant to print, group after group). *)
Fixpoint expand (t : Table) : list LayerSettings :=
  match t with
  | [] => []
  | (s, n) :: r => replicate (Z.to_nat n) s ++ expand r
  end.

(** The data lines of a settings file: every line after the header. *)
Definition data_lines (file : option string) : list string :=
  match file with
  | None => []
  | Some text => match getlines text with [] => [] | _ :: body => body end
  end.

Definition sample_A : LayerSettings := mkLayerSettings 10 5 100.
Definition sample_B : LayerSettings := mkLayerSettings 20 8 150.

Definition sum_counts (t : Table) : Z := foldr (fun '(_, n) acc => n + acc) 0 t.


(** The state of the loop after a prefix of the rows: the vector is the
    reference table of the prefix and the map knows exactly its settings. *)
Definition read_inv (rows : list LayerSettings) (acc : Table * gmap LayerSettings Z) : Prop :=
  fst acc = group_spec rows /\ forall s, is_Some (snd acc !! s) <-> s ∈ rows.

(** ** The reference table *)

Lemma decide_iff_eq {A : Type} (P Q : Prop) `{DP : Decision P} `{DQ : Decision Q} (a b : A) :
  (P <-> Q) -> (if decide P then a else b) = (if decide Q then a else b).
Proof. intros H. destruct (decide P), (decide Q); tauto. Qed.

Lemma firsts_aux_snoc (seen l : list LayerSettings) (x : LayerSettings) :
  firsts_aux seen (l ++ [x]) =
  firsts_aux seen l ++ (if decide (x ∈ seen \/ x ∈ l) then [] else [x]).
Proof.
  revert seen. induction l as [|y l IH]; intros seen; simpl.
  - apply decide_iff_eq. set_solver.
  - destruct (decide (y ∈ seen)) as [Hy|Hy]; rewrite IH; simpl.
    + f_equal. apply decide_iff_eq. set_solver.
    + do 2 f_equal. apply decide_iff_eq. set_solver.
Qed.

Lemma elem_of_firsts_aux (seen l : list LayerSettings) (x : LayerSettings) :
  x ∈ firsts_aux seen l <-> x ∈ l /\ x ∉ seen.
Proof.
  revert seen. induction l as [|y l IH]; intros seen; simpl; [set_solver|].
  case_decide; rewrite ?elem_of_cons, IH; [|rewrite elem_of_cons];
    destruct (decide (x = y)); set_solver.
Qed.

Lemma NoDup_firsts_aux (seen l : list LayerSettings) : NoDup (firsts_aux seen l).
Proof.
  revert seen. induction l as [|y l IH]; intros seen; simpl; [constructor|].
  case_decide; [apply IH|constructor; [|apply IH]].
  rewrite elem_of_firsts_aux. set_solver.
Qed.

Lemma countZ_snoc (s x : LayerSettings) (l : list LayerSettings) :
  countZ s (l ++ [x]) = countZ s l + (if decide (x = s) then 1 else 0).
Proof.
  unfold countZ. rewrite filter_app, length_app, filter_cons, filter_nil.
  repeat case_decide; simpl in *; subst; try lia; congruence.
Qed.

Lemma countZ_not_in (s : LayerSettings) (l : list LayerSettings) :
  s ∉ l -> countZ s l = 0.
Proof.
  unfold countZ. induction l as [|y l IH]; intros H; [reflexivity|].
  rewrite filter_cons. case_decide; [subst; set_solver|]. apply IH. set_solver.
Qed.

Lemma bump_first_map (f : LayerSettings -> Z) (F : list LayerSettings) (x : LayerSettings) :
  NoDup F ->
  bump_first x (map (fun s => (s, f s)) F) =
  map (fun s => (s, f s + (if decide (x = s) then 1 else 0))) F.
Proof.
  induction F as [|y F IH]; intros Hnd; simpl; [reflexivity|].
  apply NoDup_cons in Hnd as [Hy Hnd].
  destruct (decide (y = x)) as [->|Hne].
  - rewrite decide_True by reflexivity. f_equal. apply map_ext_in.
    intros s Hs. apply list_elem_of_In in Hs. case_decide; [subst; contradiction|]. now rewrite Z.add_0_r.
  - rewrite decide_False by congruence. rewrite Z.add_0_r, IH by exact Hnd. reflexivity.
Qed.

(** [group_spec] grows like the loop: a new setting is appended with
    count 1, a known one has its count incremented in place. *)
Lemma group_spec_snoc (rows : list LayerSettings) (x : LayerSettings) :
  group_spec (rows ++ [x]) =
  if decide (x ∈ rows) then bump_first x (group_spec rows)
  else group_spec rows ++ [(x, 1)].
Proof.
  unfold group_spec, firsts. rewrite firsts_aux_snoc.
  case_decide as Hx.
  - rewrite decide_True by set_solver. rewrite app_nil_r, bump_first_map
      by apply NoDup_firsts_aux.
    apply map_ext. intros s. rewrite countZ_snoc. reflexivity.
  - rewrite decide_False by set_solver. rewrite map_app. simpl. f_equal.
    + apply map_ext_in. intros s Hs. apply list_elem_of_In, elem_of_firsts_aux in Hs.
      rewrite countZ_snoc, decide_False by set_solver. f_equal. lia.
    + rewrite countZ_snoc, (countZ_not_in x rows ltac:(set_solver)), decide_True by reflexivity.
      reflexivity.
Qed.

Lemma map_incr_is_Some (x s : LayerSettings) (m : gmap LayerSettings Z) :
  is_Some (map_incr x m !! s) <-> s = x \/ is_Some (m !! s).
Proof.
  unfold map_incr. destruct (decide (x = s)) as [->|Hne].
  - rewrite lookup_insert_eq. split; eauto.
  - rewrite lookup_insert_ne by exact Hne. naive_solver.
Qed.

Lemma read_step_inv (rows : list LayerSettings) (acc : Table * gmap LayerSettings Z)
    (x : LayerSettings) :
  read_inv rows acc -> read_inv (rows ++ [x]) (read_step acc x).
Proof.
  destruct acc as [ord m]. intros [Ho Hm]; simpl in *.
  unfold read_inv, read_step. rewrite group_spec_snoc.
  destruct (m !! x) eqn:E; simpl; split.
  - rewrite decide_True by (apply Hm; rewrite E; eauto). now rewrite Ho.
  - intros s. rewrite !map_incr_is_Some, Hm. set_solver.
  - rewrite decide_False by (rewrite <- Hm, E; intros [? ?]; discriminate). now rewrite Ho.
  - intros s. rewrite map_incr_is_Some, Hm. set_solver.
Qed.

(** C13: the loader is a refinement of the reference table: for any
    sequence of rows, the vector [readSettingsOrdered] builds holds each
    distinct setting once, in order of first appearance, with its number
    of rows. *)
Theorem read_rows_refines (rows : list LayerSettings) :
  fst (read_rows rows) = group_spec rows.
Proof.
  assert (H : read_inv rows (read_rows rows)).
  { unfold read_rows. induction rows as [|x rows IH] using rev_ind.
    - split; [reflexivity|]. intros s. simpl. rewrite lookup_empty.
      split; [intros [? ?]; discriminate|set_solver].
    - rewrite foldl_app. apply read_step_inv, IH. }
  apply H.
Qed.

(** ** Well-formedness of the loaded table *)

Lemma sum_counts_bump (x : LayerSettings) (t : Table) :
  NoDup (map fst t) ->
  sum_counts (bump_first x t) = sum_counts t + (if decide (x ∈ map fst t) then 1 else 0).
Proof.
  induction t as [|[y n] t IH]; intros Hnd; simpl; [reflexivity|].
  apply NoDup_cons in Hnd as [Hy Hnd].
  destruct (decide (y = x)) as [->|Hne]; simpl.
  - rewrite decide_True by set_solver. lia.
  - rewrite IH by exact Hnd. repeat case_decide; set_solver || lia.
Qed.

Lemma sum_counts_app (a b : Table) : sum_counts (a ++ b) = sum_counts a + sum_counts b.
Proof. induction a as [|[y n] a IH]; simpl; lia. Qed.

Lemma keys_group_spec (rows : list LayerSettings) : map fst (group_spec rows) = firsts rows.
Proof. unfold group_spec. rewrite map_map. apply map_id. Qed.

Lemma group_spec_sum (rows : list LayerSettings) :
  sum_counts (group_spec rows) = Z.of_nat (length rows).
Proof.
  induction rows as [|x rows IH] using rev_ind; [reflexivity|].
  rewrite group_spec_snoc, length_app. simpl.
  case_decide as Hx.
  - rewrite sum_counts_bump by (rewrite keys_group_spec; apply NoDup_firsts_aux).
    rewrite keys_group_spec, decide_True by (apply elem_of_firsts_aux; set_solver). lia.
  - rewrite sum_counts_app, IH. simpl. lia.
Qed.

Lemma countZ_pos (s : LayerSettings) (rows : list LayerSettings) :
  s ∈ rows -> 1 <= countZ s rows.
Proof.
  unfold countZ. induction rows as [|y rows IH]; intros H; [set_solver|].
  rewrite filter_cons. case_decide; simpl; [lia|]. apply IH. set_solver.
Qed.

(** C14: whatever the file holds, the table [readSettingsOrdered] returns
    has pairwise distinct settings, every count is at least 1, and the
    counts add up to the number of data lines (every line after the
    header is counted, a malformed one included). *)
Theorem readSettingsOrdered_wf (garbage : string -> LayerSettings) (file : option string) :
  let t := readSettingsOrdered garbage file in
  NoDup (map fst t) /\ Forall (fun e => 1 <= snd e) t /\
  sum_counts t = Z.of_nat (length (data_lines file)).
Proof.
  intros t. assert (Ht : t = group_spec (map (fun l => default (garbage l) (parse_row l))
                                              (data_lines file))).
  { unfold t, readSettingsOrdered, data_lines.
    destruct file as [text|]; [|reflexivity].
    destruct (getlines text); [reflexivity|]. apply read_rows_refines. }
  rewrite Ht. split; [|split].
  - rewrite keys_group_spec. apply NoDup_firsts_aux.
  - apply Forall_forall. intros [k n] Hin. unfold group_spec in Hin.
    apply list_elem_of_In, in_map_iff in Hin as (k' & E & Hk). injection E as <- <-.
    simpl. apply countZ_pos. apply list_elem_of_In, elem_of_firsts_aux in Hk. apply Hk.
  - rewrite group_spec_sum, length_map. reflexivity.
Qed.

(** ** Round trip *)

Lemma firsts_aux_ext (s1 s2 l : list LayerSettings) :
  (forall y, y ∈ s1 <-> y ∈ s2) -> firsts_aux s1 l = firsts_aux s2 l.
Proof.
  revert s1 s2. induction l as [|x l IH]; intros s1 s2 H; simpl; [reflexivity|].
  rewrite (decide_iff_eq (x ∈ s1) (x ∈ s2)) by apply H.
  case_decide; [apply IH, H|f_equal; apply IH; set_solver].
Qed.

Lemma firsts_aux_app (seen l1 l2 : list LayerSettings) :
  firsts_aux seen (l1 ++ l2) = firsts_aux seen l1 ++ firsts_aux (l1 ++ seen) l2.
Proof.
  revert seen. induction l1 as [|y l1 IH]; intros seen; simpl; [reflexivity|].
  case_decide.
  - rewrite IH. f_equal. apply firsts_aux_ext. set_solver.
  - rewrite IH. simpl. f_equal. f_equal. apply firsts_aux_ext. set_solver.
Qed.

Lemma firsts_aux_replicate (seen : list LayerSettings) (s : LayerSettings) (n : nat) :
  s ∉ seen -> firsts_aux seen (replicate (S n) s) = [s].
Proof.
  intros H. simpl. rewrite decide_False by exact H. f_equal.
  induction n as [|n IH]; simpl; [reflexivity|]. rewrite decide_True by set_solver. exact IH.
Qed.

Lemma elem_of_expand (t : Table) (y : LayerSettings) : y ∈ expand t -> y ∈ map fst t.
Proof.
  induction t as [|[s n] t IH]; simpl; [set_solver|].
  rewrite elem_of_app. intros [H|H]; [apply elem_of_replicate in H; set_solver|set_solver].
Qed.

Lemma firsts_aux_expand (seen : list LayerSettings) (t : Table) :
  NoDup (map fst t) -> Forall (fun e => 1 <= snd e) t ->
  (forall k, k ∈ map fst t -> k ∉ seen) -> firsts_aux seen (expand t) = map fst t.
Proof.
  revert seen. induction t as [|[s n] t IH]; intros seen Hnd Hpos Hsep; simpl; [reflexivity|].
  apply NoDup_cons in Hnd as [Hs Hnd]. apply Forall_cons in Hpos as [Hn Hpos]. simpl in Hn.
  rewrite firsts_aux_app. replace (Z.to_nat n) with (S (Z.to_nat n - 1)) by lia.
  rewrite firsts_aux_replicate by (apply Hsep; set_solver). simpl. f_equal.
  apply IH; [exact Hnd|exact Hpos|]. intros k Hk Hin.
  apply elem_of_cons in Hin as [->|Hin]; [apply Hs, Hk|].
  apply elem_of_app in Hin as [Hin|Hin].
  - apply elem_of_replicate in Hin as [-> _]. contradiction.
  - apply (Hsep k); [set_solver|exact Hin].
Qed.

Lemma countZ_app (s : LayerSettings) (a b : list LayerSettings) :
  countZ s (a ++ b) = countZ s a + countZ s b.
Proof. unfold countZ. rewrite filter_app, length_app. lia. Qed.

Lemma countZ_replicate (s y : LayerSettings) (n : nat) :
  countZ s (replicate n y) = if decide (y = s) then Z.of_nat n else 0.
Proof.
  unfold countZ. induction n as [|n IH]; simpl; [case_decide; reflexivity|].
  rewrite filter_cons. repeat case_decide; simpl in *; subst; try congruence; lia.
Qed.

Lemma group_spec_expand (t : Table) :
  NoDup (map fst t) -> Forall (fun e => 1 <= snd e) t -> group_spec (expand t) = t.
Proof.
  intros Hnd Hpos. unfold group_spec, firsts.
  rewrite firsts_aux_expand by (auto; set_solver).
  induction t as [|[s n] t IH]; simpl; [reflexivity|].
  apply NoDup_cons in Hnd as [Hs Hnd]. apply Forall_cons in Hpos as [Hn Hpos]. simpl in Hn.
  rewrite countZ_app, countZ_replicate, decide_True by reflexivity.
  rewrite (countZ_not_in s (expand t)) by (intros H; apply Hs, elem_of_expand, H).
  f_equal; [f_equal; lia|].
  rewrite <- (IH Hnd Hpos) at 2. apply map_ext_in. intros k Hk.
  apply list_elem_of_In in Hk.
  rewrite countZ_app, countZ_replicate, decide_False by (intros ->; contradiction).
  reflexivity.
Qed.

(** C15: round trip (the spec's idempotence of the loader): for a table
    with pairwise distinct settings and positive counts, loading the rows
    it stands for gives the table back, in the same order. *)
Theorem read_rows_expand (t : Table) :
  NoDup (map fst t) -> Forall (fun e => 1 <= snd e) t -> fst (read_rows (expand t)) = t.
Proof. intros Hnd Hpos. rewrite read_rows_refines. apply group_spec_expand; assumption. Qed.

Lemma read_rows_expand_witness :
  let t := [(sample_A, 3); (sample_B, 2)] in
  NoDup (map fst t) /\ Forall (fun e => 1 <= snd e) t /\ fst (read_rows (expand t)) = t.
Proof.
  intros t. assert (Hnd : NoDup (map fst t)) by (simpl; repeat constructor; set_solver).
  assert (Hpos : Forall (fun e => 1 <= snd e) t) by (repeat constructor; simpl; lia).
  split; [exact Hnd|split; [exact Hpos|]]. apply (read_rows_expand t Hnd Hpos).
Defined.

(** Repeated settings are merged even when not adjacent: rows
    [A; B; A] load as [(A, 2); (B, 1)], so the layers are printed as
    [A; A; B] (the spec says adjacent identical rows collapse into one
    group). *)
Theorem read_rows_merges_nonadjacent (A B : LayerSettings) :
  A <> B -> fst (read_rows [A; B; A]) = [(A, 2); (B, 1)] /\ expand (fst (read_rows [A; B; A])) <> [A; B; A].
Proof.
  intros Hne. rewrite read_rows_refines. unfold group_spec, firsts, countZ. simpl.
  rewrite decide_False by set_solver. rewrite decide_True by set_solver.
  simpl. repeat (rewrite filter_cons || rewrite filter_nil || case_decide); try congruence.
  split; [reflexivity|]. intros E. injection E as E. congruence.
Qed.

Lemma read_rows_merges_nonadjacent_witness :
  sample_A <> sample_B /\ fst (read_rows [sample_A; sample_B; sample_A]) = [(sample_A, 2); (sample_B, 1)].
Proof.
  assert (H : sample_A <> sample_B) by discriminate.
  split; [exact H|]. apply (read_rows_merges_nonadjacent sample_A sample_B H).
Defined.

End LayerSettingsTable.
