(* ===== verification/DynamicEngine.v ===== *)
(** * DynamicEngine: the print loop of [RunFullDynamic]

    Models [RunFullDynamic] of [src/src/individualCommands.cpp] (lines
    1299-1645). The function shares its set-up, its loop variables, its
    dark branch and its shutdown with [RunFull] (module [RunFull] of
    SyncEngine.v): these are reused as they are. What differs is
    modelled here:
    - the settings table ([readSettingsOrdered]'s result, module
      [LayerSettingsTable]) is walked group by group (lines 1446-1609);
      each group sets the LED current to [static_cast<U8>(intensity)],
      resets [layercounter] and runs the inner
      [while (layercounter <= layerCount)] loop;
    - the exposure threshold is the group's [exposureTime] and the dark
      time its [darkTime]; there is no initial phase;
    - [layercounter] is incremented by the buffer swap;
    - the window's events are polled once, before the groups;
    - the [break] after the last image leaves only the inner loop: the
      next group starts with the same state.

    The informational first loop over the table (lines 1303-1324) only
    writes to [std::cout] and sleeps; it is not modelled. *)

From Stdlib Require Import String Ascii List ZArith Lia Bool.
From S2P Require Import Prelude SyncEngine LayerSettingsTable.
Import ListNotations.
Local Open Scope Z_scope.

Module RunFullDynamic.
Import RunFull LayerSettingsTable.

Section Group.
Context (len : nat).

(** The light branch (lines 1465-1523), after the abort check: as in
    [RunFull], with the group's [exposureTime] as threshold and no
    initial phase ([inInitialPhase] is never updated). *)
Definition dyn_light_frame (maxImageDisplayCount : Z) (i : TickInput) (st : RunState)
    : RunState * list Event :=
  let cnt := imageDisplayCount st + 1 in
  let reached := maxImageDisplayCount <=? cnt in
  ({| displayImage := negb reached;
      imageDisplayCount := if reached then 0 else cnt;
      currentLayer := if reached then currentLayer st + 1 else currentLayer st;
      inInitialPhase := inInitialPhase st;
      currentImageIndex := currentImageIndex st;
      currentTextureIndex := currentTextureIndex st;
      texture0 := texture0 st; texture1 := texture1 st;
      nextImageLoaded := nextImageLoaded st;
      isNextImageLoading := isNextImageLoading st;
      allImagesShown := allImagesShown st;
      isStageThreadRunning := isStageThreadRunning st;
      darkTimeStart := if reached then now i else darkTimeStart st |},
   PresentImage (currentTextureIndex st) (texture st (currentTextureIndex st))
     :: if reached then [QueryPosition] else []).

(** The dark branch (lines 1525-1599): the launch, preload and poll
    steps of [RunFull], then the swap with the group's [darkTime], which
    also counts the layer ([layercounter++], line 1593). *)
Definition dyn_dark_frame (darkDuration : Z) (i : TickInput) (layercounter : Z)
    (st : RunState) : RunState * Z * list Event :=
  let '(s1, e1) := dark_launch st in
  let '(s2, e2) := dark_preload len i s1 in
  let '(s3, e3) := dark_poll i s2 in
  if swap_ready darkDuration i s3 then
    let '(s4, e4) := swap_buffers s3 in
    (s4, layercounter + 1, PresentBlank :: e1 ++ e2 ++ e3 ++ e4)
  else (s3, layercounter, PresentBlank :: e1 ++ e2 ++ e3).

(** One iteration of the inner loop (lines 1463-1605). *)
Definition dyn_tick (s : LayerSettings) (i : TickInput) (layercounter : Z) (st : RunState)
    : Control * Z * RunState * list Event :=
  if displayImage st && abortFlag i then (Return, layercounter, st, [])
  else
    let '(st', lc', ev) :=
      if displayImage st then
        let '(s', e) := dyn_light_frame (exposureTime s) i st in (s', layercounter, e)
      else dyn_dark_frame (darkTime s) i layercounter st in
    if allImagesShown st' && negb (displayImage st') then
      (Break, lc', st', ev ++ [SetCurrent 0])
    else (Continue, lc', st', ev).

(** How the inner loop of a group ends. [t] is the next frame. *)
Inductive GroupEnd : Type :=
| GAborted (st : RunState)                     (* the [return] of the abort *)
| GDone (t : nat) (lc : Z) (st : RunState)     (* [layercounter > layerCount] *)
| GBreak (t : nat) (lc : Z) (st : RunState)    (* the [break] after the last image *)
| GOutOfFuel (st : RunState).

(** [while (layercounter <= layerCount)] (line 1462), frames [t],
    [t+1], ... of [env], at most [fuel] of them. *)
Fixpoint group_loop (s : LayerSettings) (layerCount : Z) (env : nat -> TickInput)
    (fuel t : nat) (lc : Z) (st : RunState) : GroupEnd * list Event :=
  if lc <=? layerCount then
    match fuel with
    | O => (GOutOfFuel st, [])
    | S f =>
        let '(c, lc', st', ev) := dyn_tick s (env t) lc st in
        match c with
        | Return => (GAborted st', ev)
        | Break => (GBreak (S t) lc' st', ev)
        | Continue =>
            let '(r, ev') := group_loop s layerCount env f (S t) lc' st' in (r, ev ++ ev')
        end
    end
  else (GDone t lc st, []).

Inductive DynEnd : Type :=
| DAborted (st : RunState)
| DExited (st : RunState)
| DOutOfFuel (st : RunState).

(** [for (const auto& setting : orderedSettings)] (lines 1446-1609):
    apply the group's current, reset [layercounter], run the inner
    loop; each group has at most [fuel] frames. *)
Fixpoint run_groups (env : nat -> TickInput) (fuel t : nat) (gs : Table) (st : RunState)
    : DynEnd * list Event :=
  match gs with
  | [] => (DExited st, [])
  | (s, layerCount) :: r =>
      let '(g, ev) := group_loop s layerCount env fuel t 0 st in
      let ev0 := SetCurrent (to_U8 (intensity s)) :: ev in
      match g with
      | GAborted st' => (DAborted st', ev0)
      | GOutOfFuel st' => (DOutOfFuel st', ev0)
      | GDone t' _ st' | GBreak t' _ st' =>
          let '(d, ev') := run_groups env fuel t' r st' in (d, ev0 ++ ev')
      end
  end.

End Group.

(** The code after the groups (lines 1613-1641), written as in
    [RunFull]: join a move in flight, query the position, home, close
    the port and the window. *)
Definition dyn_shutdown (st : RunState) : list Event :=
  (if isStageThreadRunning st then [JoinMove] else [])
    ++ [QueryPosition; HomeStage; CloseStage; CloseWindow].

(** [RunFullDynamic]: listing, preload and controller as in [RunFull];
    one poll of the window's events (a close request closes the window
    but does not stop the groups); the groups; [dyn_shutdown]. On the abort's [return] the
    destructors join the move and close the port. *)
Definition run (orderedSettings : Table) (e : RunEnv) (fuel : nat)
    : RunOutcome * list Event :=
  match listing e with
  | None => (FilesystemError, [])
  | Some [] => (EmptyDirectory, [])
  | Some imgs =>
      match controllerInit e with
      | inl ex => (ControllerThrew ex, [])
      | inr false => (ControllerInitFailed, [])
      | inr true =>
        let ev0 := if closeRequested (frames e 0) then [CloseWindow] else [] in
        let '(r, ev) := run_groups (length imgs) (frames e) fuel 0 orderedSettings
                          (initial_state (firstLoadOk e)) in
        match r with
        | DAborted st =>
            (RunAborted st,
             ev0 ++ ev ++ (if isStageThreadRunning st then [JoinMove] else []) ++ [CloseStage])
        | DExited st => (RunEnded st, ev0 ++ ev ++ dyn_shutdown st)
        | DOutOfFuel st => (RunIncomplete st, ev0 ++ ev)
        end
      end
  end.

(** The state a group ends in. *)
Definition group_state (g : GroupEnd) : RunState :=
  match g with GAborted st | GDone _ _ st | GBreak _ _ st | GOutOfFuel st => st end.

Definition dyn_state (d : DynEnd) : RunState :=
  match d with DAborted st | DExited st | DOutOfFuel st => st end.


(** The LED currents a trace sets, in order. *)
Definition currents (evs : list Event) : list Z :=
  flat_map (fun ev => match ev with SetCurrent v => [v] | _ => [] end) evs.

(** The settings file of the spec's dynamic scenario: a header, three
    rows of (intensity 10, exposure 5, dark 100), two of (20, 8, 150). *)
Definition nl : string := String "010"%char EmptyString.

Definition scenario_file : string :=
  ("Layer,Intensity,ExposureTime,DarkTime" ++ nl ++ "1,10,5,100" ++ nl ++ "2,10,5,100" ++ nl
   ++ "3,10,5,100" ++ nl ++ "4,20,8,150" ++ nl ++ "5,20,8,150" ++ nl)%string.

(** Ten images, a frame every 40 ms, every move ready at its first
    poll, every load successful, no abort. *)
Definition scenario_dyn_env (n : nat) : RunEnv :=
  mkEnv (Some (map (fun k => ("SEC_" ++ string_of_Z (Z.of_nat k) ++ ".PNG")%string) (seq 1 n)))
        true (ret true) (fun t => mkTick false false (40 * Z.of_nat t) true true).


(** A state in the dark phase after the last of two images, the move
    joined: what a group finds when the previous one ended by the
    [break]. *)
Definition exhausted_state : RunState :=
  {| displayImage := false; imageDisplayCount := 0; currentLayer := 2;
     inInitialPhase := true; currentImageIndex := 1; currentTextureIndex := 1;
     texture0 := Some 0%nat; texture1 := Some 1%nat; nextImageLoaded := false;
     isNextImageLoading := false; allImagesShown := true; isStageThreadRunning := false;
     darkTimeStart := 400 |}.

Definition scenario_A : LayerSettings := mkLayerSettings 10 5 100.
Definition scenario_B : LayerSettings := mkLayerSettings 20 8 150.

(** In the light phase no move is in flight. *)
Definition lit_idle (st : RunState) : Prop :=
  displayImage st = true -> isStageThreadRunning st = false.

(** ** Safety of the trace *)

Section Safety.
Context (len : nat).

Lemma dyn_light_frame_safe (m : Z) (i : TickInput) (st : RunState) :
  isStageThreadRunning st = false ->
  step_safe st (dyn_light_frame m i st) /\ lit_idle (fst (dyn_light_frame m i st)).
Proof.
  intros Hr. unfold step_safe, lit_idle, dyn_light_frame; simpl. rewrite Hr.
  destruct (m <=? _); simpl; intuition congruence.
Qed.

Lemma dyn_dark_frame_safe (d : Z) (i : TickInput) (lc : Z) (st : RunState) :
  displayImage st = false ->
  let '(s', _, ev) := dyn_dark_frame len d i lc st in step_safe st (s', ev) /\ lit_idle s'.
Proof.
  intros Hd. unfold dyn_dark_frame.
  pose proof (dark_launch_safe st) as S1. pose proof (dark_launch_keeps st) as K1.
  destruct (dark_launch st) as [s1 e1].
  pose proof (dark_preload_safe len i s1) as S2. pose proof (dark_preload_keeps len i s1) as K2.
  destruct (dark_preload len i s1) as [s2 e2].
  pose proof (dark_poll_safe i s2) as S3. pose proof (dark_poll_keeps i s2) as K3.
  destruct (dark_poll i s2) as [s3 e3]. simpl in K1, K2, K3.
  pose proof (step_safe_seq _ _ _ S1 (step_safe_seq _ _ _ S2 S3)) as S. simpl in S.
  destruct (swap_ready d i s3) eqn:G.
  - pose proof (step_safe_seq _ _ _ S (swap_buffers_safe s3)) as S'.
    unfold swap_ready in G. apply andb_true_iff in G as [_ G]. apply negb_true_iff in G.
    unfold step_safe, lit_idle, swap_buffers in *; simpl in *.
    rewrite <- ?app_assoc in S'. intuition congruence.
  - destruct K1 as [K1 _], K2 as [K2 _], K3 as [K3 _].
    unfold step_safe, lit_idle in *; simpl in *. rewrite <- ?app_assoc in S. intuition congruence.
Qed.

Lemma dyn_tick_safe (s : LayerSettings) (i : TickInput) (lc : Z) (st : RunState) :
  lit_idle st ->
  let '(_, _, st', ev) := dyn_tick len s i lc st in step_safe st (st', ev) /\ lit_idle st'.
Proof.
  intros H. unfold dyn_tick.
  assert (A : let '(st', _, ev) := if displayImage st
                then let '(s', e) := dyn_light_frame (exposureTime s) i st in (s', lc, e)
                else dyn_dark_frame len (darkTime s) i lc st in
              step_safe st (st', ev) /\ lit_idle st').
  { destruct (displayImage st) eqn:D.
    - pose proof (dyn_light_frame_safe (exposureTime s) i st (H D)) as S.
      destruct (dyn_light_frame _ i st); exact S.
    - apply dyn_dark_frame_safe, D. }
  destruct (displayImage st && abortFlag i).
  { unfold step_safe; simpl; tauto. }
  destruct (if displayImage st then _ else _) as [[s' lc'] ev]. destruct A as [A L].
  destruct (allImagesShown s' && negb (displayImage s')); [|tauto].
  split; [|exact L]. apply (step_safe_seq st (s', ev) (s', [SetCurrent 0]) A).
  unfold step_safe; simpl; tauto.
Qed.

Lemma group_loop_safe (s : LayerSettings) (n : Z) (env : nat -> TickInput)
    (fuel t : nat) (lc : Z) (st : RunState) :
  lit_idle st ->
  let '(g, ev) := group_loop len s n env fuel t lc st in
  step_safe st (group_state g, ev) /\ lit_idle (group_state g).
Proof.
  revert t lc st. induction fuel as [|f IH]; intros t lc st H; simpl;
    (case_if; [|unfold step_safe; simpl; tauto]).
  - unfold step_safe; simpl; tauto.
  - pose proof (dyn_tick_safe s (env t) lc st H) as Hs.
    destruct (dyn_tick len s (env t) lc st) as [[[c lc'] st'] ev].
    destruct Hs as [Hs H']. destruct c; [|tauto|tauto].
    specialize (IH (S t) lc' st' H'). destruct (group_loop len s n env f (S t) lc' st') as [g ev'].
    destruct IH as [IH L]. split; [|exact L].
    apply (step_safe_seq st (st', ev) (group_state g, ev') Hs IH).
Qed.

Lemma run_groups_safe (env : nat -> TickInput) (fuel t : nat) (gs : Table) (st : RunState) :
  lit_idle st ->
  let '(d, ev) := run_groups len env fuel t gs st in
  step_safe st (dyn_state d, ev) /\ lit_idle (dyn_state d).
Proof.
  revert t st. induction gs as [|[s n] gs IH]; intros t st H; simpl.
  - unfold step_safe; simpl; tauto.
  - pose proof (group_loop_safe s n env fuel t 0 st H) as Hg.
    destruct (group_loop len s n env fuel t 0 st) as [g ev]. destruct Hg as [Hg L].
    assert (H0 : step_safe st (group_state g, SetCurrent (to_U8 (intensity s)) :: ev))
      by exact (step_safe_seq st (st, [SetCurrent (to_U8 (intensity s))]) _
                  ltac:(unfold step_safe; simpl; tauto) Hg).
    destruct g as [st'|t' lc' st'|t' lc' st'|st']; simpl in *; try tauto;
      specialize (IH t' st' L); destruct (run_groups len env fuel t' gs st') as [d ev'];
      destruct IH as [IH L']; split; try exact L';
      exact (step_safe_seq st (st', _) (dyn_state d, ev') H0 IH).
Qed.

End Safety.

(** C17: safety of the whole run of [RunFullDynamic], for every settings
    table and every environment: at most one stage move is in flight,
    every move is joined before the next is launched, and no image is
    exposed and no command goes to the controller from the main thread
    while a move is in flight. *)
Theorem dyn_run_safe (gs : Table) (e : RunEnv) (fuel : nat) :
  safe_trace false (snd (run gs e fuel)).
Proof.
  unfold run. destruct (listing e) as [[|img imgs]|]; simpl; auto.
  destruct (controllerInit e) as [x|[]]; simpl; auto.
  assert (H0 : lit_idle (initial_state (firstLoadOk e))) by (intros _; reflexivity).
  pose proof (run_groups_safe (S (length imgs)) (frames e) fuel 0 gs _ H0) as Hs.
  destruct (run_groups _ _ _ _ _ _) as [d ev]. destruct Hs as [[Hs R] _]. simpl in R.
  assert (C : forall l, safe_trace false ((if closeRequested (frames e 0) then [CloseWindow] else []) ++ l)
                        <-> safe_trace false l)
    by (intros l; destruct (closeRequested _); simpl; tauto).
  destruct d as [st|st|st]; simpl in *; rewrite C, ?safe_trace_app, ?R; try split; auto;
    unfold dyn_shutdown; destruct (isStageThreadRunning st); simpl; tauto.
Qed.

(** ** Layers per group *)

Lemma dyn_light_frame_index (m : Z) (i : TickInput) (st : RunState) :
  currentImageIndex (fst (dyn_light_frame m i st)) = currentImageIndex st.
Proof. reflexivity. Qed.

(** A frame of a group either leaves [layercounter] and the image index
    alone or advances both by one. *)
Lemma dyn_tick_count (len : nat) (s : LayerSettings) (i : TickInput) (lc : Z) (st : RunState)
    (c : Control) (lc' : Z) (st' : RunState) (ev : list Event) :
  dyn_tick len s i lc st = (c, lc', st', ev) ->
  (lc' = lc /\ currentImageIndex st' = currentImageIndex st) \/
  (lc' = lc + 1 /\ currentImageIndex st' = S (currentImageIndex st)).
Proof.
  unfold dyn_tick. intros E.
  destruct (displayImage st && abortFlag i); [injection E as <- <- <-; auto|].
  assert (A : let '(s', l, _) := if displayImage st
                then let '(s', e) := dyn_light_frame (exposureTime s) i st in (s', lc, e)
                else dyn_dark_frame len (darkTime s) i lc st in
              (l = lc /\ currentImageIndex s' = currentImageIndex st) \/
              (l = lc + 1 /\ currentImageIndex s' = S (currentImageIndex st))).
  { destruct (displayImage st); [left; auto|].
    unfold dyn_dark_frame.
    pose proof (dark_launch_keeps st) as K1. destruct (dark_launch st) as [s1 e1].
    pose proof (dark_preload_keeps len i s1) as K2. destruct (dark_preload len i s1) as [s2 e2].
    pose proof (dark_poll_keeps i s2) as K3. destruct (dark_poll i s2) as [s3 e3].
    simpl in K1, K2, K3. destruct K1 as (_ & K1 & _), K2 as (_ & K2 & _), K3 as (_ & K3 & _).
    destruct (swap_ready _ _ _); simpl; [right|left]; split; congruence. }
  destruct (if displayImage st then _ else _) as [[s' l] e].
  destruct (_ && _); injection E as <- <- <- <-; exact A.
Qed.

Lemma group_loop_done (len : nat) (s : LayerSettings) (n : Z) (env : nat -> TickInput)
    (fuel t : nat) (lc : Z) (st : RunState) (t' : nat) (lc' : Z) (st' : RunState)
    (ev : list Event) :
  group_loop len s n env fuel t lc st = (GDone t' lc' st', ev) -> lc <= n + 1 ->
  lc' = n + 1 /\
  Z.of_nat (currentImageIndex st') = Z.of_nat (currentImageIndex st) + (n + 1 - lc).
Proof.
  revert t lc st ev. induction fuel as [|f IH]; intros t lc st ev E Hlc; simpl in E;
    (destruct (lc <=? n) eqn:G; [|injection E as <- <- <- _; lia]).
  - discriminate.
  - destruct (dyn_tick len s (env t) lc st) as [[[c l] s1] e1] eqn:T.
    destruct c; try discriminate.
    destruct (group_loop len s n env f (S t) l s1) as [g e2] eqn:E2.
    injection E as -> _. apply Z.leb_le in G.
    destruct (dyn_tick_count len s (env t) lc st _ l s1 e1 T) as [[-> I]|[-> I]];
      (edestruct IH as [IH1 IH2]; [exact E2|lia|]); split; [exact IH1| |exact IH1|];
      rewrite IH2, I; lia.
Qed.

(** C18: the inner loop [while (layercounter <= layerCount)] runs one
    layer too many: a group of [layerCount] rows whose loop runs to its
    end (the images do not run out, no abort) advances the image index,
    and so prints, [layerCount + 1] layers. *)
Theorem group_prints_extra_layer (len : nat) (s : LayerSettings) (n : Z)
    (env : nat -> TickInput) (fuel t : nat) (st : RunState) (t' : nat) (lc' : Z)
    (st' : RunState) (ev : list Event) :
  0 <= n -> group_loop len s n env fuel t 0 st = (GDone t' lc' st', ev) ->
  Z.of_nat (currentImageIndex st') = Z.of_nat (currentImageIndex st) + n + 1.
Proof.
  intros Hn E. destruct (group_loop_done len s n env fuel t 0 st t' lc' st' ev E) as [_ I];
    [lia|]. lia.
Qed.

(** One group after the last image: a dark frame that launches a move
    when none is in flight, polls it, and breaks with [SetCurrent(0, 0)]. *)
Lemma group_after_last (len : nat) (s : LayerSettings) (n : Z)
    (env : nat -> TickInput) (f t : nat) (st : RunState) :
  allImagesShown st = true -> displayImage st = false -> nextImageLoaded st = false ->
  (len <= S (currentImageIndex st))%nat -> 0 <= n ->
  exists st', group_loop len s n env (S f) t 0 st =
    (GBreak (S t) 0 st', PresentBlank :: (if isStageThreadRunning st then [] else [LaunchMove]) ++
                         (if moveReady (env t) then [JoinMove] else []) ++ [SetCurrent 0]) /\
    allImagesShown st' = true /\ displayImage st' = false /\
    isStageThreadRunning st' = negb (moveReady (env t)) /\ nextImageLoaded st' = false /\
    currentImageIndex st' = currentImageIndex st.
Proof.
  intros Ha Hd Hn Hl Hz. apply Z.leb_le in Hz.
  assert (Hl1 : (S (currentImageIndex st) <? len)%nat = false) by (apply Nat.ltb_ge; exact Hl).
  apply Nat.leb_le in Hl.
  destruct (isStageThreadRunning st) eqn:Hr, (isNextImageLoading st) eqn:Hil, (moveReady (env t)) eqn:Hm;
  unfold group_loop, dyn_tick, dyn_dark_frame, dark_launch, dark_preload, dark_poll, swap_ready, swap_buffers;
  rewrite Hz, Hd;
  do 4 (rewrite ?Hr, ?Hn, ?Hl, ?Hl1, ?Hil, ?Hm, ?Ha, ?Hd, ?andb_false_r, ?andb_true_r; cbn -[Nat.ltb Nat.leb]);
  eexists; (split; [reflexivity|]); cbn; auto.
Qed.

Lemma group_prints_extra_layer_witness :
  0 <= 3 /\
  match group_loop 10 scenario_A 3 (frames (scenario_dyn_env 10)) 200 0 0 (initial_state true) with
  | (GDone _ _ st', _) => Z.of_nat (currentImageIndex st') = 0 + 3 + 1
  | _ => False
  end.
Proof.
  split; [lia|].
  destruct (group_loop 10 scenario_A 3 (frames (scenario_dyn_env 10)) 200 0 0 (initial_state true))
    as [g ev] eqn:E.
  destruct g as [st'|t' lc' st'|t' lc' st'|st']; try (vm_compute in E; discriminate).
  exact (group_prints_extra_layer 10 scenario_A 3 _ 200 0 (initial_state true) t' lc' st' ev
           ltac:(lia) E).
Defined.

(** What the groups left after the last image do, frame by frame:
    each switches its current on, shows a blank frame, launches a move
    unless one is in flight, joins it when it is ready, and switches
    the current off. *)
Fixpoint after_last_events (env : nat -> TickInput) (t : nat) (running : bool) (gs : Table)
    : list Event :=
  match gs with
  | [] => []
  | (s, _) :: r =>
      SetCurrent (to_U8 (intensity s)) :: PresentBlank ::
      (if running then [] else [LaunchMove]) ++ (if moveReady (env t) then [JoinMove] else []) ++
      [SetCurrent 0] ++ after_last_events env (S t) (negb (moveReady (env t))) r
  end.

(** C19: after the last image the remaining groups of the table still
    run, one frame each: the [break] leaves only the inner loop, and
    the launch guard does not test [allImagesShown]. For every table of
    groups with [layerCount >= 0], each group switches the LED current
    to its intensity and back to 0, and launches a stage move in every
    group whose frame finds no move in flight (a move not yet ready at
    the end of one group is polled, not relaunched, in the next). *)
Theorem group_after_last_image (len : nat) (env : nat -> TickInput) (f t : nat) (gs : Table)
    (st : RunState) :
  allImagesShown st = true -> displayImage st = false -> nextImageLoaded st = false ->
  (len <= S (currentImageIndex st))%nat -> Forall (fun g => 0 <= snd g) gs ->
  exists st', run_groups len env (S f) t gs st =
    (DExited st', after_last_events env t (isStageThreadRunning st) gs).
Proof.
  revert t st. induction gs as [|[s n] r IH]; intros t st Ha Hd Hn Hl Hz; [eexists; reflexivity|].
  inversion Hz as [|? ? Hz0 Hzr]; subst. cbn [snd] in Hz0.
  destruct (group_after_last len s n env f t st Ha Hd Hn Hl Hz0) as (st1 & E & A1 & D1 & R1 & N1 & I1).
  cbn [run_groups]. rewrite E.
  destruct (IH (S t) st1 A1 D1 N1 ltac:(rewrite I1; exact Hl) Hzr) as (st' & E').
  rewrite E', R1. exists st'. cbn [after_last_events app]. rewrite <- !app_assoc. reflexivity.
Qed.

Lemma group_after_last_image_witness :
  exists st', run_groups 2 (frames (scenario_dyn_env 2)) 10 7 [(scenario_A, 3); (scenario_B, 1)] exhausted_state =
    (DExited st', [SetCurrent 10; PresentBlank; LaunchMove; JoinMove; SetCurrent 0;
                   SetCurrent 20; PresentBlank; LaunchMove; JoinMove; SetCurrent 0]).
Proof.
  exact (group_after_last_image 2 (frames (scenario_dyn_env 2)) 9 7 [(scenario_A, 3); (scenario_B, 1)]
           exhausted_state eq_refl eq_refl eq_refl ltac:(simpl; lia)
           ltac:(repeat constructor; cbn; lia)).
Defined.

(** ** The LED current *)

Lemma to_U8_range (v : Z) : 0 <= to_U8 v < 256.
Proof. unfold to_U8. apply Z.mod_pos_bound. lia. Qed.

Lemma currents_app (a b : list Event) : currents (a ++ b) = currents a ++ currents b.
Proof. apply flat_map_app. Qed.

Lemma dyn_dark_frame_currents (len : nat) (d : Z) (i : TickInput) (lc : Z) (st : RunState) :
  currents (snd (dyn_dark_frame len d i lc st)) = [].
Proof.
  unfold dyn_dark_frame.
  assert (C1 : currents (snd (dark_launch st)) = [])
    by (unfold dark_launch; destruct (_ && _); reflexivity).
  destruct (dark_launch st) as [s1 e1].
  assert (C2 : currents (snd (dark_preload len i s1)) = [])
    by (unfold dark_preload; destruct (_ && _); [|destruct (_ && _)]; reflexivity).
  destruct (dark_preload len i s1) as [s2 e2].
  assert (C3 : currents (snd (dark_poll i s2)) = [])
    by (unfold dark_poll; destruct (_ && _); reflexivity).
  destruct (dark_poll i s2) as [s3 e3]. simpl in *.
  destruct (swap_ready d i s3); simpl; rewrite !currents_app, C1, C2, C3; reflexivity.
Qed.

Lemma dyn_tick_currents (len : nat) (s : LayerSettings) (i : TickInput) (lc : Z)
    (st : RunState) :
  incl (currents (snd (dyn_tick len s i lc st))) [0].
Proof.
  unfold dyn_tick. destruct (_ && _); [intros ? []|].
  assert (A : currents (snd (if displayImage st
                then let '(s', e) := dyn_light_frame (exposureTime s) i st in (s', lc, e)
                else dyn_dark_frame len (darkTime s) i lc st)) = []).
  { destruct (displayImage st); [|apply dyn_dark_frame_currents].
    unfold dyn_light_frame; destruct (_ <=? _); reflexivity. }
  destruct (if displayImage st then _ else _) as [[s' l] ev]. simpl in A.
  destruct (_ && _); simpl; rewrite ?currents_app, A; simpl; intros v Hv; simpl in *; intuition.
Qed.

Lemma group_loop_currents (len : nat) (s : LayerSettings) (n : Z) (env : nat -> TickInput)
    (fuel t : nat) (lc : Z) (st : RunState) :
  incl (currents (snd (group_loop len s n env fuel t lc st))) [0].
Proof.
  revert t lc st. induction fuel as [|f IH]; intros t lc st; simpl;
    (case_if; [|intros ? []]); [intros ? []|].
  pose proof (dyn_tick_currents len s (env t) lc st) as C.
  destruct (dyn_tick len s (env t) lc st) as [[[c l] st'] ev]. simpl in C.
  destruct c; [|exact C|exact C].
  specialize (IH (S t) l st'). destruct (group_loop len s n env f (S t) l st') as [g ev'].
  simpl in *. rewrite currents_app. apply incl_app; assumption.
Qed.

Lemma run_groups_currents (len : nat) (env : nat -> TickInput) (fuel t : nat) (gs : Table)
    (st : RunState) :
  incl (currents (snd (run_groups len env fuel t gs st)))
       (0 :: map (fun g => to_U8 (intensity (fst g))) gs).
Proof.
  revert t st. induction gs as [|[s n] gs IH]; intros t st; simpl; [intros ? []|].
  pose proof (group_loop_currents len s n env fuel t 0 st) as G.
  destruct (group_loop len s n env fuel t 0 st) as [g ev]. simpl in G.
  assert (H0 : incl (to_U8 (intensity s) :: currents ev)
                    (0 :: to_U8 (intensity s) :: map (fun g => to_U8 (intensity (fst g))) gs)).
  { intros v [<-|Hv]; [simpl; auto|]. apply G in Hv as [<-|[]]. simpl; auto. }
  assert (K : forall t' st', incl (currents (snd (let '(d, ev') := run_groups len env fuel t' gs st' in
                                   (d, (SetCurrent (to_U8 (intensity s)) :: ev) ++ ev'))))
                  (0 :: to_U8 (intensity s) :: map (fun g => to_U8 (intensity (fst g))) gs)).
  { intros t' st'. specialize (IH t' st').
    destruct (run_groups len env fuel t' gs st') as [d ev']. simpl in *.
    rewrite currents_app, app_comm_cons. intros v Hv.
    apply in_app_or in Hv as [Hv|Hv]; [apply H0, Hv|].
    apply IH in Hv as [<-|Hv]; simpl; auto. }
  destruct g as [st'|t' lc' st'|t' lc' st'|st']; simpl; try exact H0; apply K.
Qed.

(** C20: the LED currents [RunFullDynamic] sets are 0 or the
    [static_cast<U8>] of a group's intensity, hence bytes: an intensity
    outside 0..255 is applied modulo 256 (300 sets 44). *)
Theorem dyn_run_currents (gs : Table) (e : RunEnv) (fuel : nat) :
  incl (currents (snd (run gs e fuel))) (0 :: map (fun g => to_U8 (intensity (fst g))) gs) /\
  Forall (fun v => 0 <= v < 256) (currents (snd (run gs e fuel))).
Proof.
  assert (I : incl (currents (snd (run gs e fuel)))
                   (0 :: map (fun g => to_U8 (intensity (fst g))) gs)).
  { unfold run. destruct (listing e) as [[|img imgs]|]; [intros ? []| |intros ? []].
    destruct (controllerInit e) as [x|[]]; [intros ? []| |intros ? []]. cbv iota.
    pose proof (run_groups_currents (length (img :: imgs)) (frames e) fuel 0 gs
                  (initial_state (firstLoadOk e))) as R.
    destruct (run_groups _ _ _ _ _ _) as [d ev]. simpl in R.
    assert (C0 : currents (if closeRequested (frames e 0) then [CloseWindow] else []) = [])
      by (destruct (closeRequested _); reflexivity).
    destruct d as [st|st|st]; simpl; rewrite !currents_app, C0; simpl;
      try (unfold dyn_shutdown; destruct (isStageThreadRunning st));
      simpl; rewrite ?app_nil_r; exact R. }
  split; [exact I|]. apply Forall_forall. intros v Hv. apply I in Hv as [<-|Hv]; [lia|].
  apply in_map_iff in Hv as (g & <- & _). apply to_U8_range.
Qed.

End RunFullDynamic.
