(* ===== verification/Controller.v ===== *)
(** * Controller: the serial link and the operations of [SMC100C]

    Models the member functions of [class SMC100C]
    ([src/src/SMC100C.cpp], [src/dependencies/include/SMC100C.h]) that
    talk to the port: [SMC100CInit], [Available], [SMC100CClose],
    [SendCurrentCommand], [readString], [SerialRead], and the device
    operations built on them ([Home], [SetVelocity], [RelativeMove],
    [AbsoluteMove], [GetPosition], [GetCurrentStatus], [GetError], ...).

    The port ([serial::Serial] of the external serial library) is the
    record [Port]: whether it is open, the bytes received and not yet
    read, the strings written, and the number of reads made so far. The
    library itself is not part of the repository; its calls are modelled
    by their documented behaviour ([write] on a closed port throws
    [PortNotOpenedException], [available] of a closed port is 0, [open]
    of an open port throws [SerialException], a failed [open] throws
    [IOException]); a write always writes all its bytes.

    The device is an environment: the [n]-th read of the port (a call
    of [readString], or the read of [GetError]) sees [dev n], the bytes
    arriving before each iteration of its polling loop and the delays of
    the clock. Time only matters to [readString]: each iteration sleeps
    5 ms, so the clock at iteration [k] reads at least [5 k] ms.

    The operations are functions of the monad [M]: the controller state
    [Ctl] (the port, [CommandToPrint], [LastError]) is threaded through,
    and an exception is a value that, as in C++, keeps the effects made
    before it was thrown. *)

From Stdlib Require Import String Ascii List ZArith QArith Lia Bool.
From S2P Require Import Prelude Codec.
Import ListNotations.

Module StageLink.

(** What one read observes: the extra delay of the clock at the start
    of each iteration of the polling loop (beyond the [5 k] ms of the
    sleeps) and the bytes arriving on the line before each iteration. *)
Record ReadEnv : Type := mkReadEnv {
  lag : nat -> nat;
  arrivals : nat -> list ascii
}.

(** The clock of [readString] at iteration [k], in ms since its start. *)
Definition elapsed (e : ReadEnv) (k : nat) : Z := Z.of_nat (5 * k + lag e k).

Record Port : Type := mkPort {
  isOpen : bool;
  rx : list ascii;        (* received and not yet read *)
  wire : list string;     (* written, in order *)
  reads : nat             (* reads made so far *)
}.

Definition with_rx (b : list ascii) (p : Port) : Port := mkPort (isOpen p) b (wire p) (reads p).
Definition with_open (o : bool) (p : Port) : Port := mkPort o (rx p) (wire p) (reads p).
Definition next_read (p : Port) : Port := mkPort (isOpen p) (rx p) (wire p) (S (reads p)).

(** [my_serial.write(s)]: the number of bytes written. *)
Definition write (s : string) (p : Port) : cpp nat * Port :=
  if isOpen p then (ret (String.length s), mkPort true (rx p) (wire p ++ [s]) (reads p))
  else (throw PortNotOpened, p).

(** [my_serial.flushInput()]. *)
Definition flushInput (p : Port) : cpp unit * Port :=
  if isOpen p then (ret tt, with_rx [] p) else (throw PortNotOpened, p).

(** [my_serial.available()]. *)
Definition available (p : Port) : nat := if isOpen p then length (rx p) else 0.

(** [my_serial.read(buf, n)]: at most [n] of the received bytes. *)
Definition read (n : nat) (p : Port) : list ascii * Port :=
  (firstn n (rx p), with_rx (skipn n (rx p)) p).

(** Bytes arriving on the line reach an open port only. *)
Definition receive (b : list ascii) (p : Port) : Port :=
  if isOpen p then with_rx (rx p ++ b) p else p.

(** The return value of [readString]: [nbBytes > 0] (the terminator was
    read), [0] (timeout), [-3] (buffer full). *)
Inductive ReadStatus : Type := Received (n : nat) | TimedOut | BufferFull.

(** The prefix of [chunk] up to and including the first [fc]. *)
Fixpoint upto (fc : ascii) (chunk : list ascii) : option (list ascii) :=
  match chunk with
  | [] => None
  | b :: r => if Ascii.eqb b fc then Some [b] else option_map (cons b) (upto fc r)
  end.

(** The [while (nbBytes < maxNbBytes)] loop of [readString]
    ([SMC100C.cpp], lines 652-677), from iteration [k] with [received]
    already copied to the buffer. A chunk is read with one
    [my_serial.read]; its bytes after the terminator are dropped. *)
Fixpoint readString_loop (e : ReadEnv) (finalChar : ascii) (maxNbBytes : nat)
    (timeOut_ms : Z) (fuel k : nat) (received : list ascii) (p : Port)
    : option (ReadStatus * list ascii) * Port :=
  let p := receive (arrivals e k) p in
  if (length received <? maxNbBytes)%nat then
    match fuel with
    | O => (None, p)
    | S f =>
        if (timeOut_ms <? elapsed e k)%Z then (Some (TimedOut, received), p)
        else if (0 <? available p)%nat then
          let '(chunk, p') := read (Nat.min (available p) (maxNbBytes - length received)) p in
          match upto finalChar chunk with
          | Some pre => (Some (Received (length received + length pre), received ++ pre), p')
          | None =>
              readString_loop e finalChar maxNbBytes timeOut_ms f (S k) (received ++ chunk) p'
          end
        else readString_loop e finalChar maxNbBytes timeOut_ms f (S k) received p
    end
  else (Some (BufferFull, received), p).

(** [readString]: the loop, with enough iterations for the clock to pass
    the timeout (each iteration sleeps 5 ms). *)
Definition readString (e : ReadEnv) (finalChar : ascii) (maxNbBytes : nat) (timeOut_ms : nat)
    (p : Port) : option (ReadStatus * list ascii) * Port :=
  readString_loop e finalChar maxNbBytes (Z.of_nat timeOut_ms) (S (S (timeOut_ms / 5))) 0 [] p.

(** A [char*] read as a C string: up to the first NUL. *)
Fixpoint cstr (b : list ascii) : string :=
  match b with
  | [] => EmptyString
  | c :: r => if Ascii.eqb c "000"%char then EmptyString else String c (cstr r)
  end.

Definition NL : ascii := "010"%char.

(** [SerialRead] ([SMC100C.h], lines 143-161): [readString] into a
    64-byte buffer, terminator ['\n'], 63 bytes at most, 20 ms. *)
Definition SerialRead (dev : nat -> ReadEnv) (p : Port) : string * Port :=
  let '(r, p') := readString (dev (reads p)) NL 63 20 p in
  (match r with
   | Some (Received _, buf) => cstr buf
   | Some (TimedOut, _) | None => "Timeout"
   | Some (BufferFull, _) => "Error"
   end%string, next_read p').

(** Whether [b] contains [c] (a decidable test for the hypotheses). *)
Definition has_byte (c : ascii) (b : list ascii) : bool := existsb (Ascii.eqb c) b.

(** ** [readString] *)

Lemma upto_firstn (fc : ascii) (reply rest : list ascii) (n : nat) :
  has_byte fc reply = false -> (S (length reply) <= n)%nat ->
  upto fc (firstn n (reply ++ fc :: rest)) = Some (reply ++ [fc]).
Proof.
  revert n. induction reply as [|b reply IH]; intros n Hn Hlen; destruct n as [|n]; simpl in *;
    try lia.
  - rewrite Ascii.eqb_refl. reflexivity.
  - apply orb_false_iff in Hn as [Hb Hn]. rewrite Ascii.eqb_sym, Hb.
    rewrite (IH n Hn ltac:(lia)). reflexivity.
Qed.

(** One iteration of the loop, the recursive calls left folded. *)
Lemma readString_loop_S (e : ReadEnv) (fc : ascii) (max : nat) (T : Z) (f k : nat)
    (recv : list ascii) (p0 : Port) :
  readString_loop e fc max T (S f) k recv p0 =
  let p := receive (arrivals e k) p0 in
  if (length recv <? max)%nat then
    if (T <? elapsed e k)%Z then (Some (TimedOut, recv), p)
    else if (0 <? available p)%nat then
      let '(chunk, p') := read (Nat.min (available p) (max - length recv)) p in
      match upto fc chunk with
      | Some pre => (Some (Received (length recv + length pre), recv ++ pre), p')
      | None => readString_loop e fc max T f (S k) (recv ++ chunk) p'
      end
    else readString_loop e fc max T f (S k) recv p
  else (Some (BufferFull, recv), p).
Proof. reflexivity. Qed.

Lemma readString_loop_total (e : ReadEnv) (fc : ascii) (max : nat) (T : Z) (f k : nat)
    (recv : list ascii) (p : Port) :
  (T < 5 * Z.of_nat (k + f))%Z -> fst (readString_loop e fc max T (S f) k recv p) <> None.
Proof.
  revert k recv p. induction f as [|f IH]; intros k recv p HT; rewrite readString_loop_S; cbv zeta;
    destruct (length recv <? max)%nat; try discriminate;
    (destruct (T <? elapsed e k)%Z eqn:Ht; [discriminate|]);
    apply Z.ltb_ge in Ht; unfold elapsed in Ht.
  - exfalso. lia.
  - destruct (0 <? available _)%nat; [|apply IH; lia].
    destruct (read _ _) as [chunk p']. destruct (upto fc chunk); [discriminate|]. apply IH; lia.
Qed.

(** C21: [readString] always returns: its polling loop sleeps 5 ms per
    iteration, so the clock passes [timeOut_ms] after at most
    [timeOut_ms / 5 + 2] iterations, whatever the device sends. *)
Theorem readString_terminates (e : ReadEnv) (fc : ascii) (max timeOut_ms : nat) (p : Port) :
  fst (readString e fc max timeOut_ms p) <> None.
Proof.
  unfold readString. apply readString_loop_total.
  pose proof (Nat.div_mod timeOut_ms 5 ltac:(lia)). pose proof (Nat.mod_upper_bound timeOut_ms 5).
  lia.
Qed.

(** C22: a reply that arrives in one piece before the timeout, with its
    terminator among the first [maxNbBytes] bytes, is returned up to and
    including the terminator, and the bytes after it that were read in
    the same chunk are lost: only what lies beyond [maxNbBytes] stays in
    the port. *)
Theorem readString_reply (e : ReadEnv) (fc : ascii) (max T : nat) (p : Port)
    (reply rest : list ascii) :
  isOpen p = true -> rx p = [] -> arrivals e 0 = reply ++ fc :: rest ->
  has_byte fc reply = false -> (S (length reply) <= max)%nat -> (elapsed e 0 <= Z.of_nat T)%Z ->
  fst (readString e fc max T p) = Some (Received (S (length reply)), reply ++ [fc]) /\
  rx (snd (readString e fc max T p)) = skipn max (reply ++ fc :: rest).
Proof.
  intros Ho Hrx Ha Hfc Hlen HT. unfold readString. rewrite readString_loop_S. cbv zeta.
  assert (Hm : (0 <? max)%nat = true) by (apply Nat.ltb_lt; lia). simpl length. rewrite Hm.
  assert (Ht : (Z.of_nat T <? elapsed e 0)%Z = false) by (apply Z.ltb_ge; lia). rewrite Ht.
  unfold available, receive, with_rx. rewrite Ho, Hrx, Ha. simpl isOpen; simpl rx. simpl app.
  rewrite length_app; simpl length.
  assert (Hav : (0 <? length reply + S (length rest))%nat = true) by (apply Nat.ltb_lt; lia).
  rewrite Hav. unfold read; simpl rx.
  rewrite (upto_firstn fc reply rest) by (auto; lia). simpl. rewrite length_app; simpl.
  split; [repeat f_equal; lia|].
  rewrite Nat.sub_0_r.
  destruct (Nat.le_ge_cases max (length reply + S (length rest))) as [H|H].
  - rewrite Nat.min_r by exact H. reflexivity.
  - rewrite Nat.min_l by exact H. rewrite !skipn_all2 by (rewrite length_app; simpl; lia).
    reflexivity.
Qed.

Lemma readString_reply_witness :
  let e := mkReadEnv (fun _ => 0%nat) (fun _ => ["1"; "T"; "S"; NL; "x"]%char) in
  let p := mkPort true [] [] 0 in
  fst (readString e NL 63 20 p) = Some (Received 4, ["1"; "T"; "S"; NL]%char) /\
  rx (snd (readString e NL 63 20 p)) = [].
Proof.
  exact (readString_reply (mkReadEnv (fun _ => 0%nat) (fun _ => ["1"; "T"; "S"; NL; "x"]%char))
           NL 63 20 (mkPort true [] [] 0) ["1"; "T"; "S"]%char ["x"%char]
           eq_refl eq_refl eq_refl eq_refl ltac:(simpl; lia) ltac:(vm_compute; discriminate)).
Defined.

(** The polling loop only reads: it leaves what was written, the read
    count and the open flag alone. *)
Lemma readString_loop_port (e : ReadEnv) (fc : ascii) (max : nat) (T : Z) (f k : nat)
    (recv : list ascii) (p : Port) :
  let p' := snd (readString_loop e fc max T f k recv p) in
  wire p' = wire p /\ reads p' = reads p /\ isOpen p' = isOpen p.
Proof.
  revert k recv p. induction f as [|f IH]; intros k recv p;
    [simpl; unfold receive; destruct (isOpen p) eqn:Ho; destruct (_ <? _)%nat; simpl; auto|].
  rewrite readString_loop_S. cbv zeta.
  assert (R : forall q, wire (receive (arrivals e k) q) = wire q /\
                        reads (receive (arrivals e k) q) = reads q /\
                        isOpen (receive (arrivals e k) q) = isOpen q)
    by (intros q; unfold receive; destruct (isOpen q) eqn:Q; simpl; auto).
  destruct (R p) as (R1 & R2 & R3).
  destruct (_ <? max)%nat; [|simpl; auto].
  destruct (_ <? _)%Z; [simpl; auto|].
  destruct (0 <? _)%nat; [unfold read; destruct (upto fc _); [simpl; unfold with_rx; simpl; auto|]|];
    match goal with
    | |- context [readString_loop e fc max T f (S k) ?r ?q] =>
        destruct (IH (S k) r q) as (A & B & C); simpl in A, B, C; rewrite A, B, C
    end; unfold with_rx; simpl; auto.
Qed.

Lemma cstr_no_nul (b : list ascii) : has_byte "000"%char b = false -> cstr b = string_of_list_ascii b.
Proof.
  induction b as [|c b IH]; [reflexivity|]. intros H. unfold has_byte in *.
  cbn [existsb] in H. apply orb_false_iff in H as [Hc H]. cbn [cstr string_of_list_ascii].
  rewrite Ascii.eqb_sym, Hc, IH by exact H. reflexivity.
Qed.

(** [SerialRead] of a reply that arrives in one piece: the line, and the
    port with the bytes beyond the buffer left over. *)
Lemma SerialRead_reply (dev : nat -> ReadEnv) (p : Port) (reply rest : list ascii) :
  isOpen p = true -> rx p = [] -> arrivals (dev (reads p)) 0 = reply ++ NL :: rest ->
  has_byte NL reply = false -> has_byte "000"%char reply = false ->
  (S (length reply) <= 63)%nat -> (elapsed (dev (reads p)) 0 <= 20)%Z ->
  SerialRead dev p =
    (string_of_list_ascii (reply ++ [NL]),
     mkPort true (skipn 63 (reply ++ NL :: rest)) (wire p) (S (reads p))).
Proof.
  intros Ho Hrx Ha Hnl Hnul Hlen HT. unfold SerialRead.
  destruct (readString_reply (dev (reads p)) NL 63 20 p reply rest Ho Hrx Ha Hnl Hlen HT)
    as [R1 R2].
  pose proof (readString_loop_port (dev (reads p)) NL 63 20 (S (S (20 / 5))) 0 [] p)
    as (P1 & P2 & P3).
  unfold readString in *.
  destruct (readString_loop _ _ _ _ _ _ _ _) as [res p'] eqn:E.
  cbn [fst snd] in R1, R2, P1, P2, P3. subst res.
  rewrite cstr_no_nul.
  - unfold next_read. rewrite R2, P1, P2, P3, Ho. reflexivity.
  - unfold has_byte in *. rewrite existsb_app, Hnul. reflexivity.
Qed.

End StageLink.

Module Controller.
Import StageLink SMC100C.

(** The state the operations use: the members [my_serial] and
    [CommandToPrint] of [class SMC100C], and [LastError], a file-static
    [char] of SMC100C.cpp (line 44) that every instance shares (one
    controller exists at a time in the program). *)
Record Ctl : Type := mkCtl {
  port : Port;
  CommandToPrint : CommandEntry;
  LastError : ascii
}.

Definition with_port (p : Port) (c : Ctl) : Ctl := mkCtl p (CommandToPrint c) (LastError c).

(** A member function: the state is threaded through, an exception
    keeps the effects made before it. *)
Definition M (A : Type) : Type := Ctl -> cpp A * Ctl.

Definition Mret {A : Type} (x : A) : M A := fun c => (ret x, c).

Definition Mbind {A B : Type} (m : M A) (k : A -> M B) : M B :=
  fun c => match m c with
           | (inl e, c') => (inl e, c')
           | (inr x, c') => k x c'
           end.

Definition Mthrow {A : Type} (e : cpp_exn) : M A := fun c => (inl e, c).

Declare Scope ctl_scope.
Delimit Scope ctl_scope with ctl.
Notation "x <-- m ;; k" := (Mbind m (fun x => k))
  (at level 100, m at next level, right associativity) : ctl_scope.
Notation "m ;;; k" := (Mbind m (fun _ => k))
  (at level 100, right associativity) : ctl_scope.
Local Open Scope ctl_scope.

(** A call on [my_serial]. *)
Definition on_port {A : Type} (f : Port -> cpp A * Port) : M A :=
  fun c => let '(r, p') := f (port c) in (r, with_port p' c).

(** A call on [my_serial] that does not throw. *)
Definition on_port_pure {A : Type} (f : Port -> A * Port) : M A :=
  fun c => let '(r, p') := f (port c) in (ret r, with_port p' c).

(** Catch an exception: [try { m } catch (...) { h }]. *)
Definition Mcatch {A : Type} (m : M A) (h : cpp_exn -> M A) : M A :=
  fun c => match m c with
           | (inl e, c') => h e c'
           | r => r
           end.

Section Operations.
Context (dev : nat -> ReadEnv).

(** [SetCommand] (lines 589-593). *)
Definition setCommand (T : CommandType.t) (v : float) (g : CommandGetSetType.t) : M unit :=
  fun c => (ret tt, mkCtl (port c) (SetCommand T v g) (LastError c)).

(** [SendCurrentCommand] (lines 610-641). *)
Definition SendCurrentCommand : M bool :=
  n <-- on_port (write ControllerAdress) ;;
  if negb (n =? String.length ControllerAdress)%nat then Mret false
  else
    fun c =>
      let e := CommandToPrint c in
      (on_port (write (CommandChar (EntryCommand e))) ;;;
       on_port (write (match GetOrSet e with
                       | CommandGetSetType.Get => "?"%string
                       | _ => param_string e
                       end)) ;;;
       on_port (write CRLF) ;;;
       Mret true) c.

(** A "set" operation: [SetCommand] then [SendCurrentCommand]. *)
Definition send_set (T : CommandType.t) (v : float) (g : CommandGetSetType.t) : M unit :=
  setCommand T v g ;;; SendCurrentCommand ;;; Mret tt.

(** [Home] (lines 262-267). *)
Definition Home : M bool :=
  setCommand CommandType.HomeSearch 0%Q CommandGetSetType.None ;;; SendCurrentCommand.

(** [SetVelocity], [SetAcceleration], [RelativeMove], [StopMotion],
    [AbsoluteMove], [SetPositiveLimit], [SetNegativeLimit],
    [SetJerkTime] (lines 282-568). *)
Definition SetVelocity (v : float) : M unit := send_set CommandType.Velocity v CommandGetSetType.Set_.
Definition SetAcceleration (a : float) : M unit :=
  send_set CommandType.Acceleration a CommandGetSetType.Set_.
Definition RelativeMove (d : float) : M unit := send_set CommandType.MoveRel d CommandGetSetType.Set_.
Definition StopMotion : M unit := send_set CommandType.StopMotion 0%Q CommandGetSetType.None.
Definition AbsoluteMove (x : float) : M unit := send_set CommandType.MoveAbs x CommandGetSetType.Set_.
Definition SetPositiveLimit (l : float) : M unit :=
  send_set CommandType.PositiveSoftwareLim l CommandGetSetType.Set_.
Definition SetNegativeLimit (l : float) : M unit :=
  send_set CommandType.NegativeSoftwareLim l CommandGetSetType.Set_.
Definition SetJerkTime (j : float) : M unit := send_set CommandType.JerkTime j CommandGetSetType.Set_.

(** [SerialRead] on [my_serial]. *)
Definition serial_read : M string := on_port_pure (SerialRead dev).

(** A query (lines 472-514): flush, send the [Get], wait, read a line. *)
Definition query (T : CommandType.t) : M string :=
  on_port flushInput ;;; setCommand T 0%Q CommandGetSetType.Get ;;; SendCurrentCommand ;;;
  serial_read.

Definition GetPosition : M string := query CommandType.PositionReal.
Definition GetVelocity : M string := query CommandType.Velocity.
Definition GetAcceleration : M string := query CommandType.Acceleration.
Definition GetPositiveLimit : M string := query CommandType.PositiveSoftwareLim.
Definition GetNegativeLimit : M string := query CommandType.NegativeSoftwareLim.

(** [GetCustom] (lines 517-523). *)
Definition GetCustom (Command : string) : M string :=
  on_port flushInput ;;; on_port (write Command) ;;; serial_read.

(** [GetCurrentStatus] (lines 418-454): the query, then [decode_status]
    of the reply (which throws [out_of_range] on a short reply). *)
Definition GetCurrentStatus : M string :=
  response <-- query CommandType.ErrorStatus ;;
  fun c => (decode_status response, c).

(** The read of [GetError] (lines 387-393): the bytes arrived during its
    10 ms wait, at most 64 of them, in a [std::string] of 64 NULs when
    nothing is available. *)
Definition error_buffer (p : Port) : list ascii * Port :=
  let p1 := receive (arrivals (dev (reads p)) 0) p in
  if (0 <? available p1)%nat then
    let '(b, p2) := read (Nat.min (available p1) 64) p1 in (b, next_read p2)
  else (repeat "000"%char 64, next_read p1).

(** [GetError] (lines 380-399): [LastError = buffer[3]] (a NUL when the
    buffer has exactly 3 bytes; fewer is undefined behaviour, modelled
    as a NUL too), then [ConvertToErrorString]. *)
Definition GetError : M string :=
  on_port flushInput ;;; setCommand CommandType.LastCommandErr 0%Q CommandGetSetType.Get ;;;
  SendCurrentCommand ;;;
  buffer <-- on_port_pure error_buffer ;;
  fun c => let err := nth 3 buffer "000"%char in
           (ret (ConvertToErrorString err), mkCtl (port c) (CommandToPrint c) err).

(** [Available] (lines 237-239). *)
Definition Available : M nat := fun c => (ret (available (port c)), c).

(** [SMC100CClose] (lines 242-246). *)
Definition SMC100CClose : M unit := fun c => (ret tt, with_port (with_open false (port c)) c).

(** [my_serial.setPort(COMPORT); my_serial.open()] of the serial
    library: an empty port name is rejected with [std::invalid_argument]
    before anything else, an open port with a [SerialException];
    otherwise [openOk] says whether the device named [COMPORT] can be
    opened, and a device that cannot raises an [IOException]. *)
Definition serial_open (COMPORT : string) (openOk : bool) (p : Port) : cpp unit * Port :=
  if String.eqb COMPORT EmptyString then (throw InvalidArgument, p)
  else if isOpen p then (throw SerialError, p)
  else if openOk then (ret tt, with_open true p) else (throw SerialIOError, p).

(** [SMC100CInit] (lines 218-235): open the port; an [IOException] is
    caught and reported as [false]; any other exception propagates (the
    [catch] names only [serial::IOException]). *)
Definition SMC100CInit (COMPORT : string) (openOk : bool) : M bool :=
  Mcatch (on_port (serial_open COMPORT openOk) ;;; fun c => (ret (isOpen (port c)), c))
         (fun e => match e with SerialIOError => Mret false | _ => Mthrow e end).

End Operations.

(** A device whose every read sees [reply], ['\n'] and [rest] arrive in
    one piece before the first poll. *)
Definition line_dev (reply rest : list ascii) : nat -> ReadEnv :=
  fun _ => mkReadEnv (fun _ => 0%nat) (fun k => if (k =? 0)%nat then reply ++ NL :: rest else []).

Definition ctl0 : Ctl :=
  mkCtl (mkPort true [] [] 0) (SetCommand CommandType.None 0 CommandGetSetType.None) "000"%char.

Definition pos_reply : list ascii := list_ascii_of_string "1TP1.5".
Definition next_line : list ascii := list_ascii_of_string "1TP2.0".

(** ** Effects of the operations *)

Lemma send_current_open (c : Ctl) :
  isOpen (port c) = true ->
  SendCurrentCommand c =
    (ret true, with_port (mkPort true (rx (port c)) (wire (port c) ++ command_pieces (CommandToPrint c))
                                 (reads (port c))) c).
Proof.
  intros Ho. destruct c as [[o r w n] e le]; simpl in Ho; subst o.
  unfold SendCurrentCommand, Mbind, on_port, write, command_pieces; simpl.
  rewrite <- !app_assoc. reflexivity.
Qed.

Lemma send_current_closed (c : Ctl) :
  isOpen (port c) = false -> SendCurrentCommand c = (throw PortNotOpened, c).
Proof.
  intros Ho. destruct c as [[o r w n] e le]; simpl in Ho; subst o. reflexivity.
Qed.

Lemma send_set_open (T : CommandType.t) (v : float) (g : CommandGetSetType.t) (c : Ctl) :
  isOpen (port c) = true ->
  send_set T v g c =
    (ret tt, mkCtl (mkPort true (rx (port c)) (wire (port c) ++ command_pieces (SetCommand T v g))
                           (reads (port c)))
                   (SetCommand T v g) (LastError c)).
Proof.
  intros Ho. unfold send_set, Mbind at 1, setCommand. cbv beta iota.
  unfold Mbind. rewrite send_current_open by exact Ho. reflexivity.
Qed.

Lemma send_set_closed (T : CommandType.t) (v : float) (g : CommandGetSetType.t) (c : Ctl) :
  isOpen (port c) = false ->
  send_set T v g c = (throw PortNotOpened, mkCtl (port c) (SetCommand T v g) (LastError c)).
Proof.
  intros Ho. unfold send_set, Mbind at 1, setCommand. cbv beta iota.
  unfold Mbind. rewrite send_current_closed by exact Ho. reflexivity.
Qed.

(** C23: every "set" operation ([SetVelocity], [RelativeMove],
    [AbsoluteMove], [StopMotion], the limits, ...) on an open port
    writes exactly the pieces of its command line and changes nothing
    else of the port; on a closed port it throws
    [PortNotOpenedException] before writing anything. It never waits for
    an answer. *)
Theorem send_set_effect (T : CommandType.t) (v : float) (g : CommandGetSetType.t) (c : Ctl) :
  send_set T v g c =
    if isOpen (port c) then
      (ret tt, mkCtl (mkPort true (rx (port c)) (wire (port c) ++ command_pieces (SetCommand T v g))
                             (reads (port c)))
                     (SetCommand T v g) (LastError c))
    else (throw PortNotOpened, mkCtl (port c) (SetCommand T v g) (LastError c)).
Proof.
  destruct (isOpen (port c)) eqn:Ho; [apply send_set_open | apply send_set_closed]; exact Ho.
Qed.

Lemma query_line (dev : nat -> ReadEnv) (T : CommandType.t) (c : Ctl) (reply rest : list ascii) :
  isOpen (port c) = true -> arrivals (dev (reads (port c))) 0 = reply ++ NL :: rest ->
  has_byte NL reply = false -> has_byte "000"%char reply = false ->
  (S (length reply) <= 63)%nat -> (elapsed (dev (reads (port c))) 0 <= 20)%Z ->
  query dev T c =
    (ret (string_of_list_ascii (reply ++ [NL])),
     mkCtl (mkPort true (skipn 63 (reply ++ NL :: rest))
                   (wire (port c) ++ command_pieces (SetCommand T 0 CommandGetSetType.Get))
                   (S (reads (port c))))
           (SetCommand T 0 CommandGetSetType.Get) (LastError c)).
Proof.
  intros Ho Ha Hnl Hnul Hlen HT.
  destruct c as [[o r w n] e le]; cbn [port isOpen reads] in *; subst o.
  remember (SetCommand T 0 CommandGetSetType.Get) as cmd eqn:Ecmd.
  unfold query, Mbind, on_port, flushInput, setCommand. cbn [port isOpen].
  rewrite <- Ecmd.
  rewrite send_current_open by reflexivity. cbn [port CommandToPrint rx wire reads with_port with_rx].
  unfold serial_read, on_port_pure. cbn [port with_port].
  rewrite (SerialRead_reply dev (mkPort true [] (w ++ command_pieces cmd) n) reply rest)
    by assumption || reflexivity.
  reflexivity.
Qed.

(** Every query ([GetPosition], [GetVelocity], [GetAcceleration],
    the limits, and the read of [GetCurrentStatus]) on an open port whose
    device answers in one piece: flushes the input, writes its [Get]
    line, and returns the reply up to and including ['\n']; what came
    after the line in the same chunk is gone. *)
Theorem query_reply (dev : nat -> ReadEnv) (T : CommandType.t) (c : Ctl) (reply rest : list ascii) :
  isOpen (port c) = true -> arrivals (dev (reads (port c))) 0 = reply ++ NL :: rest ->
  has_byte NL reply = false -> has_byte "000"%char reply = false ->
  (S (length reply) <= 63)%nat -> (elapsed (dev (reads (port c))) 0 <= 20)%Z ->
  query dev T c =
    (ret (string_of_list_ascii (reply ++ [NL])),
     mkCtl (mkPort true (skipn 63 (reply ++ NL :: rest))
                   (wire (port c) ++ command_pieces (SetCommand T 0 CommandGetSetType.Get))
                   (S (reads (port c))))
           (SetCommand T 0 CommandGetSetType.Get) (LastError c)).
Proof. exact (query_line dev T c reply rest). Qed.




Lemma query_reply_witness :
  query (line_dev pos_reply next_line) CommandType.PositionReal ctl0 =
    (ret (string_of_list_ascii (pos_reply ++ [NL])),
     mkCtl (mkPort true (skipn 63 (pos_reply ++ NL :: next_line))
                   (wire (port ctl0) ++
                    command_pieces (SetCommand CommandType.PositionReal 0 CommandGetSetType.Get))
                   (S (reads (port ctl0))))
           (SetCommand CommandType.PositionReal 0 CommandGetSetType.Get) (LastError ctl0)).
Proof.
  exact (query_reply (line_dev pos_reply next_line) CommandType.PositionReal ctl0 pos_reply
           next_line eq_refl eq_refl eq_refl eq_refl ltac:(simpl; lia)
           ltac:(unfold elapsed; simpl; lia)).
Defined.

End Controller.
