(* ===== verification/StageHelpers.v ===== *)
(** * StageHelpers: [moveStage], [checkTimeout], [waitForPosition], [waitForVelocity]

    Models the stage helpers of [src/src/individualCommands.cpp]
    (lines 448-619) on top of the controller operations of Controller.v.

    [moveStage] runs one, two or three sub-moves ([moveAndCheckReady]):
    each sends a relative move and polls [GetCurrentStatus] until it
    reads ["Ready"]; any exception (a write on a closed port, a status
    reply too short for [substr(7, 2)]) is caught and the whole sub-move,
    the relative move included, is retried. Both loops are [while (true)]:
    the model runs them for at most [fuel] status polls or retries.

    [waitForPosition] and [waitForVelocity] share one loop, [wait_loop],
    parameterised by the query, the length check and the slice of the
    reply, and the corrective command: query, parse the value, compare it
    with the target ([abs] of a [float] is the absolute value), send the
    corrective command, stop on a match or when [checkTimeout] says the
    timeout has passed. The clock at the [k]-th timeout check reads at
    least [100 (k + 1)] ms, the sleeps of the [k + 1] iterations so far;
    this bounds the number of iterations, so the loop's fuel is computed
    from the timeout and never runs out. *)

From Stdlib Require Import String Ascii List ZArith QArith Qabs Lia Bool.
From S2P Require Import Prelude Codec Controller.
Import ListNotations.

Module StageHelpers.
Import StageLink Controller SMC100C.
Local Open Scope ctl_scope.

Section Helpers.
Context (dev : nat -> ReadEnv).

(** The inner [while (true)] of [moveAndCheckReady] (lines 458-463):
    poll the status until it is ["Ready"]; [false] when the polls run
    out. An exception leaves the loop. *)
Fixpoint poll_ready (fuel : nat) : M bool :=
  match fuel with
  | O => Mret false
  | S f =>
      st <-- GetCurrentStatus dev ;;
      if String.eqb st "Ready" then Mret true else poll_ready f
  end.

(** [moveAndCheckReady] (lines 451-471): send the relative move, poll
    until ready; on an exception, retry from the move. [true] when it
    returns, [false] when [fuel] ran out first. *)
Fixpoint moveAndCheckReady (fuel : nat) (moveStep : float) (c : Ctl) : bool * Ctl :=
  match fuel with
  | O => (false, c)
  | S f =>
      match (RelativeMove moveStep ;;; poll_ready f) c with
      | (inr b, c') => (b, c')
      | (inl _, c') => moveAndCheckReady f moveStep c'
      end
  end.

(** [moveStage] (lines 448-484): pump up by [dlpPumpingAction] (unless
    [isClip]), step by [stepSize], pump down (unless [isClip]); each
    sub-move starts when the previous one has returned. *)
Definition moveStage (fuel : nat) (stepSize : float) (isClip : bool) (dlpPumpingAction : float)
    (c : Ctl) : bool * Ctl :=
  let '(ok1, c1) := if isClip then (true, c)
                    else moveAndCheckReady fuel (-1 * dlpPumpingAction) c in
  if negb ok1 then (false, c1) else
  let '(ok2, c2) := moveAndCheckReady fuel stepSize c1 in
  if negb ok2 then (false, c2) else
  if isClip then (true, c2) else moveAndCheckReady fuel dlpPumpingAction c2.

(** [checkTimeout] (lines 504-511): whole seconds elapsed
    ([duration_cast<seconds>] truncates) against the timeout. *)
Definition checkTimeout (elapsed_ms timeout_s : Z) : bool :=
  (timeout_s <=? elapsed_ms / 1000)%Z.

(** The clock of a wait loop: at the [k]-th timeout check, [100 (k + 1)]
    ms of sleeps plus the time the queries took. *)
Record WaitEnv : Type := mkWaitEnv { wlag : nat -> nat }.

Definition wait_clock (w : WaitEnv) (k : nat) : Z := Z.of_nat (100 * S k + wlag w k).

Inductive WaitOutcome : Type := Matched | TimeoutReached | WaitOutOfFuel.

(** The body of the [try] (lines 538-552 and 592-606): query, strip the
    terminators, and when the reply has [minLen] characters parse the
    slice [substr(off, cnt)] with [std::stof] and compare. *)
Definition read_matches (query_ : M string) (minLen off cnt : nat) (target tolerance : float)
    : M bool :=
  r <-- query_ ;;
  let r' := strip_crlf r in
  if (minLen <=? String.length r')%nat then
    fun c => (v <- (s <- substr r' off cnt ;; stof s) ;;
              ret (negb (Qle_bool tolerance (Qabs (v - target)))), c)
  else Mret false.

(** [while (!matched)] of [waitForPosition]/[waitForVelocity]: the
    [try] with its [catch] of every [std::exception], the corrective
    command (outside the [try]), the timeout check. *)
Fixpoint wait_loop (w : WaitEnv) (query_ : M string) (minLen off cnt : nat)
    (target tolerance : float) (correct : M unit) (timeout_s : Z) (fuel k : nat)
    : M WaitOutcome :=
  match fuel with
  | O => Mret WaitOutOfFuel
  | S f =>
      matched <-- Mcatch (read_matches query_ minLen off cnt target tolerance)
                         (fun _ => Mret false) ;;
      correct ;;;
      if checkTimeout (wait_clock w k) timeout_s then Mret TimeoutReached
      else if matched then Mret Matched
      else wait_loop w query_ minLen off cnt target tolerance correct timeout_s f (S k)
  end.

(** Enough iterations for the clock to reach the timeout. *)
Definition wait_fuel (timeout_s : Z) : nat := S (10 * Z.to_nat timeout_s).

(** [waitForPosition] (lines 532-565). *)
Definition waitForPosition (w : WaitEnv) (targetPosition tolerance : float) (timeout_s : Z)
    : M WaitOutcome :=
  wait_loop w (GetPosition dev) 9 3 6 targetPosition tolerance (AbsoluteMove targetPosition)
            timeout_s (wait_fuel timeout_s) 0.

(** [waitForVelocity] (lines 586-619): the same loop, with a length
    check of 2 before [substr(3, 2)]. *)
Definition waitForVelocity (w : WaitEnv) (targetVelocity tolerance : float) (timeout_s : Z)
    : M WaitOutcome :=
  wait_loop w (GetVelocity dev) 2 3 2 targetVelocity tolerance (SetVelocity targetVelocity)
            timeout_s (wait_fuel timeout_s) 0.

End Helpers.

(** The status reply of a controller in state READY ("33"). *)
Definition ready_reply : list ascii := list_ascii_of_string "1TS000033".

(** The lines one sub-move writes when the first status poll reads
    "Ready": the relative move, then the status query. *)
Definition sub_move (d : float) : list string :=
  command_pieces (SetCommand CommandType.MoveRel d CommandGetSetType.Set_) ++
  command_pieces (SetCommand CommandType.ErrorStatus 0 CommandGetSetType.Get).

(** A device that answers every read with the READY status line, in
    one piece, before the timeout. *)
Definition always_ready (dev : nat -> ReadEnv) (from : nat) : Prop :=
  forall n, (from <= n)%nat ->
    arrivals (dev n) 0 = ready_reply ++ [NL] /\ (elapsed (dev n) 0 <= 20)%Z.

(** An operation that leaves an open port open. *)
Definition keeps_open {A : Type} (m : M A) : Prop :=
  forall c, isOpen (port c) = true -> isOpen (port (snd (m c))) = true.

(** An operation that does not throw on an open port. *)
Definition no_throw {A : Type} (m : M A) : Prop :=
  forall c, isOpen (port c) = true -> exists x, fst (m c) = ret x.


(** The state after a status query answered by a line [r] in one piece. *)
Definition after_status (c : Ctl) : Ctl :=
  mkCtl (mkPort true [] (wire (port c) ++
                         command_pieces (SetCommand CommandType.ErrorStatus 0 CommandGetSetType.Get))
                (S (reads (port c))))
        (SetCommand CommandType.ErrorStatus 0 CommandGetSetType.Get) (LastError c).

Definition short_reply : list ascii := list_ascii_of_string "1TS".

(** Read [0] answers a truncated status line, every later read READY. *)
Definition glitch_dev : nat -> ReadEnv :=
  fun n => if (n =? 0)%nat then line_dev short_reply [] n else line_dev ready_reply [] n.

Definition count_line (l : string) (ws : list string) : nat :=
  length (filter (String.eqb l) ws).

(** ** [moveStage] *)

(** The lines one iteration of a wait writes: the query, then the
    corrective command. *)
Definition wait_iteration (T : CommandType.t) (T' : CommandType.t) (x : float)
    (g : CommandGetSetType.t) : list string :=
  command_pieces (SetCommand T 0 CommandGetSetType.Get) ++ command_pieces (SetCommand T' x g).

Lemma ready_decodes : decode_status (string_of_list_ascii (ready_reply ++ [NL])) = ret "Ready"%string.
Proof. reflexivity. Qed.


Lemma status_line (dev : nat -> ReadEnv) (c : Ctl) (r : list ascii) :
  isOpen (port c) = true -> arrivals (dev (reads (port c))) 0 = r ++ [NL] ->
  has_byte NL r = false -> has_byte "000"%char r = false -> (S (length r) <= 63)%nat ->
  (elapsed (dev (reads (port c))) 0 <= 20)%Z ->
  GetCurrentStatus dev c = (decode_status (string_of_list_ascii (r ++ [NL])), after_status c).
Proof.
  intros Ho Ha H1 H2 H3 H4. unfold GetCurrentStatus, Mbind.
  rewrite (query_line dev CommandType.ErrorStatus c r []) by assumption.
  rewrite skipn_all2 by (rewrite length_app; simpl; lia). reflexivity.
Qed.

Lemma relmove_open (d : float) (c : Ctl) :
  isOpen (port c) = true ->
  RelativeMove d c =
    (ret tt, mkCtl (mkPort true (rx (port c))
                     (wire (port c) ++ command_pieces (SetCommand CommandType.MoveRel d CommandGetSetType.Set_))
                     (reads (port c)))
                   (SetCommand CommandType.MoveRel d CommandGetSetType.Set_) (LastError c)).
Proof. apply send_set_open. Qed.

Lemma moveAndCheckReady_S (dev : nat -> ReadEnv) (f : nat) (d : float) (c : Ctl) :
  moveAndCheckReady dev (S f) d c =
    match (RelativeMove d ;;; poll_ready dev f) c with
    | (inr b, c') => (b, c')
    | (inl _, c') => moveAndCheckReady dev f d c'
    end.
Proof. reflexivity. Qed.

(** A sub-move whose first status poll reads "Ready" returns at once. *)
Lemma mcr_ready (dev : nat -> ReadEnv) (f : nat) (d : float) (c : Ctl) :
  always_ready dev (reads (port c)) -> isOpen (port c) = true ->
  moveAndCheckReady dev (S (S f)) d c =
    (true, mkCtl (mkPort true [] (wire (port c) ++ sub_move d) (S (reads (port c))))
                 (SetCommand CommandType.ErrorStatus 0 CommandGetSetType.Get) (LastError c)).
Proof.
  intros Hr Ho. destruct (Hr (reads (port c)) (le_n _)) as [Ha He].
  cbn [moveAndCheckReady]. unfold Mbind at 1. rewrite relmove_open by exact Ho.
  cbn [poll_ready]. unfold Mbind.
  rewrite (status_line dev _ ready_reply)
    by (cbn [port isOpen reads]; first [reflexivity | assumption | simpl; lia]).
  rewrite ready_decodes. cbn [String.eqb]. unfold after_status, sub_move.
  cbn [port wire reads LastError]. rewrite app_assoc. reflexivity.
Qed.

(** C24: with a device that reports READY at every status poll, each
    sub-move of [moveStage] sends its relative move and one status query
    and returns; the sub-moves run strictly in sequence: pump up by
    [-dlpPumpingAction], step by [stepSize], pump down by
    [dlpPumpingAction] (the pump moves only when [isClip] is false). *)
Theorem moveStage_ready (dev : nat -> ReadEnv) (fuel : nat) (stepSize : float) (isClip : bool)
    (dlp : float) (c : Ctl) :
  always_ready dev (reads (port c)) -> isOpen (port c) = true -> (2 <= fuel)%nat ->
  moveStage dev fuel stepSize isClip dlp c =
    (true, mkCtl (mkPort true []
                   (wire (port c) ++ (if isClip then [] else sub_move (-1 * dlp)) ++
                    sub_move stepSize ++ (if isClip then [] else sub_move dlp))
                   (reads (port c) + if isClip then 1 else 3))
                 (SetCommand CommandType.ErrorStatus 0 CommandGetSetType.Get) (LastError c)).
Proof.
  intros Hr Ho Hf. destruct fuel as [|[|f]]; [lia|lia|]. unfold moveStage.
  assert (Hr' : forall k, always_ready dev (k + reads (port c)))
    by (intros k n Hn; apply Hr; lia).
  destruct isClip.
  - rewrite mcr_ready by assumption. cbn [negb port wire reads LastError].
    rewrite app_nil_r, Nat.add_1_r. reflexivity.
  - rewrite mcr_ready by assumption. cbn [negb].
    rewrite mcr_ready by (cbn [port reads isOpen]; first [apply (Hr' 1%nat) | reflexivity]).
    cbn [negb port wire reads LastError].
    rewrite mcr_ready by (cbn [port reads isOpen]; first [apply (Hr' 2%nat) | reflexivity]).
    cbn [port wire reads LastError]. rewrite <- !app_assoc. do 3 f_equal; lia.
Qed.

Lemma line_dev_ready (k : nat) : always_ready (line_dev ready_reply []) k.
Proof. intros n _. split; [reflexivity|]. unfold elapsed. simpl. lia. Qed.

Lemma moveStage_ready_witness :
  moveStage (line_dev ready_reply []) 2 (1 # 10)%Q false (1 # 2)%Q ctl0 =
    (true, mkCtl (mkPort true []
                   (wire (port ctl0) ++ sub_move (-1 * (1 # 2))%Q ++
                    sub_move (1 # 10)%Q ++ sub_move (1 # 2)%Q)
                   (reads (port ctl0) + 3))
                 (SetCommand CommandType.ErrorStatus 0 CommandGetSetType.Get) (LastError ctl0)).
Proof.
  exact (moveStage_ready (line_dev ready_reply []) 2 (1 # 10)%Q false (1 # 2)%Q ctl0
           (line_dev_ready 0) eq_refl ltac:(lia)).
Defined.

(** C25: the retry of [moveAndCheckReady] repeats the move: when the
    first status poll after a relative move reads a line too short for
    [substr(7, 2)] (a garbled or truncated reply), [GetCurrentStatus]
    throws [out_of_range], the [catch] retries, and the relative move is
    sent a second time, so the stage travels the step twice. *)
Theorem moveAndCheckReady_retry (dev : nat -> ReadEnv) (f : nat) (d : float) (c : Ctl)
    (short : list ascii) :
  isOpen (port c) = true ->
  arrivals (dev (reads (port c))) 0 = short ++ [NL] -> (elapsed (dev (reads (port c))) 0 <= 20)%Z ->
  has_byte NL short = false -> has_byte "000"%char short = false -> (length short < 6)%nat ->
  always_ready dev (S (reads (port c))) ->
  moveAndCheckReady dev (S (S (S f))) d c =
    (true, mkCtl (mkPort true [] (wire (port c) ++ sub_move d ++ sub_move d) (S (S (reads (port c)))))
                 (SetCommand CommandType.ErrorStatus 0 CommandGetSetType.Get) (LastError c)).
Proof.
  intros Ho Ha He H1 H2 Hl Hr.
  rewrite moveAndCheckReady_S. unfold Mbind at 1. rewrite relmove_open by exact Ho.
  cbn [poll_ready]. unfold Mbind at 1 2.
  rewrite (status_line dev _ short) by (cbn [port isOpen reads]; first [reflexivity | assumption | lia]).
  unfold decode_status. rewrite substr_out_of_range
    by (rewrite length_string_of_list_ascii, length_app; simpl; lia).
  unfold after_status. cbn [port wire reads LastError].
  rewrite mcr_ready by (cbn [port reads isOpen]; first [exact Hr | reflexivity]).
  cbn [port wire reads LastError]. unfold sub_move. rewrite <- !app_assoc. reflexivity.
Qed.



Lemma glitch_ready : always_ready glitch_dev 1.
Proof.
  intros [|n] Hn; [lia|]. unfold glitch_dev. simpl. split; [reflexivity|].
  unfold elapsed. simpl. lia.
Qed.

Lemma moveAndCheckReady_retry_witness :
  moveAndCheckReady glitch_dev 3 (1 # 10)%Q ctl0 =
    (true, mkCtl (mkPort true [] (wire (port ctl0) ++ sub_move (1 # 10)%Q ++ sub_move (1 # 10)%Q)
                         (S (S (reads (port ctl0)))))
                 (SetCommand CommandType.ErrorStatus 0 CommandGetSetType.Get) (LastError ctl0)).
Proof.
  exact (moveAndCheckReady_retry glitch_dev 0 (1 # 10)%Q ctl0 short_reply eq_refl eq_refl
           ltac:(unfold elapsed; simpl; lia) eq_refl eq_refl ltac:(simpl; lia)
           glitch_ready).
Defined.

(** C26: on a closed port [moveAndCheckReady] never returns: every
    [RelativeMove] throws [PortNotOpenedException], the [catch] retries,
    and no number of iterations reaches the status poll. *)
Theorem moveAndCheckReady_closed (dev : nat -> ReadEnv) (fuel : nat) (d : float) (c : Ctl) :
  isOpen (port c) = false -> fst (moveAndCheckReady dev fuel d c) = false.
Proof.
  revert c. induction fuel as [|f IH]; intros c Ho; [reflexivity|].
  rewrite moveAndCheckReady_S. unfold Mbind at 1, RelativeMove. rewrite send_set_closed by exact Ho.
  apply IH. exact Ho.
Qed.

Lemma moveAndCheckReady_closed_witness :
  isOpen (port (mkCtl (mkPort false [] [] 0) (CommandToPrint ctl0) "000"%char)) = false /\
  fst (moveAndCheckReady (line_dev ready_reply []) 100 (1 # 10)%Q
         (mkCtl (mkPort false [] [] 0) (CommandToPrint ctl0) "000"%char)) = false.
Proof.
  split; [reflexivity|].
  exact (moveAndCheckReady_closed (line_dev ready_reply []) 100 (1 # 10)%Q
           (mkCtl (mkPort false [] [] 0) (CommandToPrint ctl0) "000"%char) eq_refl).
Defined.

(** ** The convergence waits *)

Lemma checkTimeout_reached (w : WaitEnv) (k : nat) (T : Z) :
  (10 * T <= Z.of_nat (S k))%Z -> checkTimeout (wait_clock w k) T = true.
Proof.
  intros H. unfold checkTimeout, wait_clock. apply Z.leb_le.
  destruct (Z.le_gt_cases T 0) as [HT|HT].
  - pose proof (Z.div_pos (Z.of_nat (100 * S k + wlag w k)) 1000 ltac:(lia) ltac:(lia)). lia.
  - apply Z.div_le_lower_bound; lia.
Qed.

Lemma wait_loop_S (w : WaitEnv) (q : M string) (minLen off cnt : nat) (tg tol : float)
    (corr : M unit) (T : Z) (f k : nat) :
  wait_loop w q minLen off cnt tg tol corr T (S f) k =
    (matched <-- Mcatch (read_matches q minLen off cnt tg tol) (fun _ => Mret false) ;;
     corr ;;;
     if checkTimeout (wait_clock w k) T then Mret TimeoutReached
     else if matched then Mret Matched
     else wait_loop w q minLen off cnt tg tol corr T f (S k)).
Proof. reflexivity. Qed.

Lemma wait_loop_total (w : WaitEnv) (q : M string) (minLen off cnt : nat) (tg tol : float)
    (corr : M unit) (T : Z) (f k : nat) (c : Ctl) :
  (10 * T <= Z.of_nat (k + S f))%Z ->
  fst (wait_loop w q minLen off cnt tg tol corr T (S f) k c) <> ret WaitOutOfFuel.
Proof.
  revert k c. induction f as [|f IH]; intros k c H; rewrite wait_loop_S; unfold Mbind;
    destruct (Mcatch _ _ c) as [[e|m] c1]; try discriminate;
    destruct (corr c1) as [[e|[]] c2]; try discriminate.
  - rewrite checkTimeout_reached by lia. discriminate.
  - destruct (checkTimeout _ _); [discriminate|]. destruct m; [discriminate|].
    apply IH. lia.
Qed.

(** C27: [waitForPosition] and [waitForVelocity] always return: every
    iteration sleeps at least 100 ms, so [checkTimeout] fires after at
    most [10 * timeout] iterations, whatever the controller answers. *)
Theorem wait_terminates (dev : nat -> ReadEnv) (w : WaitEnv) (target tolerance : float)
    (timeout_s : Z) (c : Ctl) :
  fst (waitForPosition dev w target tolerance timeout_s c) <> ret WaitOutOfFuel /\
  fst (waitForVelocity dev w target tolerance timeout_s c) <> ret WaitOutOfFuel.
Proof.
  unfold waitForPosition, waitForVelocity, wait_fuel.
  split; apply wait_loop_total; lia.
Qed.

Lemma wait_loop_more_fuel (w : WaitEnv) (q : M string) (minLen off cnt : nat) (tg tol : float)
    (corr : M unit) (T : Z) (f k m : nat) (c : Ctl) :
  (10 * T <= Z.of_nat (k + S f))%Z ->
  wait_loop w q minLen off cnt tg tol corr T (S f + m) k c = wait_loop w q minLen off cnt tg tol corr T (S f) k c.
Proof.
  revert k c. induction f as [|f IH]; intros k c H.
  - cbn [Nat.add]. rewrite !wait_loop_S, checkTimeout_reached by lia. reflexivity.
  - change (S (S f) + m)%nat with (S (S f + m)). rewrite !wait_loop_S. unfold Mbind.
    destruct (Mcatch _ _ c) as [[e|b] c1]; [reflexivity|].
    destruct (corr c1) as [[e|u] c2]; [reflexivity|].
    destruct (checkTimeout _ _); [reflexivity|]. destruct b; [reflexivity|].
    apply IH. lia.
Qed.

(** The fuel of the waits loses nothing: with [wait_fuel timeout]
    iterations the loop behaves exactly as with any larger number, the
    same result and the same state, so the fuel-bounded [wait_loop] is
    the unbounded [while (!matched)] of the code. *)
Theorem wait_fuel_sufficient (w : WaitEnv) (q : M string) (minLen off cnt : nat) (tg tol : float)
    (corr : M unit) (T : Z) (m : nat) (c : Ctl) :
  wait_loop w q minLen off cnt tg tol corr T (wait_fuel T + m) 0 c =
    wait_loop w q minLen off cnt tg tol corr T (wait_fuel T) 0 c.
Proof. unfold wait_fuel. apply wait_loop_more_fuel. lia. Qed.

Lemma keeps_open_bind {A B : Type} (m : M A) (k : A -> M B) :
  keeps_open m -> (forall x, keeps_open (k x)) -> keeps_open (Mbind m k).
Proof.
  intros Hm Hk c Ho. unfold Mbind. specialize (Hm c Ho).
  destruct (m c) as [[e|x] c']; [exact Hm|]. apply Hk, Hm.
Qed.

Lemma keeps_open_catch {A : Type} (m : M A) (h : cpp_exn -> M A) :
  keeps_open m -> (forall e, keeps_open (h e)) -> keeps_open (Mcatch m h).
Proof.
  intros Hm Hh c Ho. unfold Mcatch. specialize (Hm c Ho).
  destruct (m c) as [[e|x] c']; [apply Hh, Hm|exact Hm].
Qed.

Lemma keeps_open_same {A : Type} (f : Ctl -> cpp A) : keeps_open (fun c => (f c, c)).
Proof. intros c Ho. exact Ho. Qed.

Lemma query_keeps_open (dev : nat -> ReadEnv) (T : CommandType.t) : keeps_open (query dev T).
Proof.
  intros [[o r wr n] e le] Ho. cbn [port isOpen] in Ho. subst o.
  unfold query, Mbind, on_port, flushInput, setCommand. cbn [port isOpen].
  rewrite send_current_open by reflexivity.
  unfold serial_read, on_port_pure, SerialRead. cbn [port with_port CommandToPrint].
  match goal with |- context [readString ?e ?a ?b ?d ?p] =>
    pose proof (readString_loop_port e a b (Z.of_nat d) (S (S (d / 5))) 0 [] p) as (_ & _ & P);
    unfold readString; destruct (readString_loop _ _ _ _ _ _ _ _) as [res p']
  end.
  cbn [snd port with_port isOpen next_read] in *. exact P.
Qed.

Lemma send_set_keeps_open (T : CommandType.t) (v : float) (g : CommandGetSetType.t) :
  keeps_open (send_set T v g) /\ no_throw (send_set T v g).
Proof.
  split; intros c Ho; rewrite send_set_open by exact Ho; [reflexivity|eexists; reflexivity].
Qed.

Lemma read_matches_keeps_open (q : M string) (minLen off cnt : nat) (tg tol : float) :
  keeps_open q -> keeps_open (Mcatch (read_matches q minLen off cnt tg tol) (fun _ => Mret false)).
Proof.
  intros Hq. apply keeps_open_catch; [|intros e; apply keeps_open_same].
  unfold read_matches. apply keeps_open_bind; [exact Hq|]. intros r.
  destruct (_ <=? _)%nat; apply keeps_open_same.
Qed.

Lemma wait_loop_open (w : WaitEnv) (q : M string) (minLen off cnt : nat) (tg tol : float)
    (corr : M unit) (T : Z) (f k : nat) (c : Ctl) :
  keeps_open q -> keeps_open corr -> no_throw corr -> isOpen (port c) = true ->
  exists o, fst (wait_loop w q minLen off cnt tg tol corr T f k c) = ret o.
Proof.
  intros Hq Hk Hn. revert k c. induction f as [|f IH]; intros k c Ho; [eexists; reflexivity|].
  rewrite wait_loop_S. unfold Mbind.
  pose proof (read_matches_keeps_open q minLen off cnt tg tol Hq c Ho) as O1.
  assert (C : forall c0, exists b, fst (Mcatch (read_matches q minLen off cnt tg tol)
                                           (fun _ => Mret false) c0) = ret b).
  { intros c0. unfold Mcatch. destruct (read_matches _ _ _ _ _ _ c0) as [[e|b] c1];
      eexists; reflexivity. }
  destruct (C c) as [m Hm].
  destruct (Mcatch _ _ c) as [r1 c1]. cbn [fst snd] in Hm, O1. subst r1.
  destruct (Hn c1 O1) as [u Hu]. pose proof (Hk c1 O1) as O2.
  destruct (corr c1) as [r2 c2]. cbn [fst snd] in Hu, O2. subst r2.
  destruct (checkTimeout _ _); [eexists; reflexivity|].
  destruct m; [eexists; reflexivity|]. apply IH, O2.
Qed.

(** C28: on an open port the waits never throw: each ends having
    matched or at the timeout (the position or velocity read is in a
    [try]; the corrective [AbsoluteMove]/[SetVelocity], outside it,
    cannot fail on an open port). *)
Theorem wait_open_outcome (dev : nat -> ReadEnv) (w : WaitEnv) (target tolerance : float)
    (timeout_s : Z) (c : Ctl) :
  isOpen (port c) = true ->
  (fst (waitForPosition dev w target tolerance timeout_s c) = ret Matched \/
   fst (waitForPosition dev w target tolerance timeout_s c) = ret TimeoutReached) /\
  (fst (waitForVelocity dev w target tolerance timeout_s c) = ret Matched \/
   fst (waitForVelocity dev w target tolerance timeout_s c) = ret TimeoutReached).
Proof.
  intros Ho. unfold waitForPosition, waitForVelocity, wait_fuel.
  split; match goal with
         | |- context [wait_loop ?w' ?q ?a ?b ?d ?e ?g ?h ?i ?f ?k] =>
             pose proof (wait_loop_total w' q a b d e g h i (10 * Z.to_nat timeout_s) k c
                           ltac:(lia)) as T;
             edestruct (wait_loop_open w' q a b d e g h i f k c) as [[] E];
             [apply query_keeps_open|apply send_set_keeps_open|apply send_set_keeps_open|exact Ho|..];
             rewrite E in *; auto; congruence
         end.
Qed.

Lemma wait_open_outcome_witness :
  isOpen (port ctl0) = true /\
  (fst (waitForPosition (line_dev ready_reply []) (mkWaitEnv (fun _ => 0%nat)) 1 (1 # 100)%Q 2 ctl0)
     = ret Matched \/
   fst (waitForPosition (line_dev ready_reply []) (mkWaitEnv (fun _ => 0%nat)) 1 (1 # 100)%Q 2 ctl0)
     = ret TimeoutReached).
Proof.
  split; [reflexivity|].
  exact (proj1 (wait_open_outcome (line_dev ready_reply []) (mkWaitEnv (fun _ => 0%nat)) 1
                  (1 # 100)%Q 2 ctl0 eq_refl)).
Defined.

(** C29: on a closed port the waits throw [PortNotOpenedException]: the
    failed query is caught, but the corrective command after the [try]
    is not, so the exception leaves the helper in its first iteration. *)
Theorem wait_closed_throws (dev : nat -> ReadEnv) (w : WaitEnv) (target tolerance : float)
    (timeout_s : Z) (c : Ctl) :
  isOpen (port c) = false ->
  fst (waitForPosition dev w target tolerance timeout_s c) = throw PortNotOpened /\
  fst (waitForVelocity dev w target tolerance timeout_s c) = throw PortNotOpened.
Proof.
  intros Ho. destruct c as [[o r wr n] e le]. cbn [port isOpen] in Ho. subst o.
  unfold waitForPosition, waitForVelocity, wait_fuel. rewrite !wait_loop_S.
  split; reflexivity.
Qed.

Lemma wait_closed_throws_witness :
  isOpen (port (mkCtl (mkPort false [] [] 0) (CommandToPrint ctl0) "000"%char)) = false /\
  fst (waitForPosition (line_dev ready_reply []) (mkWaitEnv (fun _ => 0%nat)) 1 (1 # 100)%Q 2
         (mkCtl (mkPort false [] [] 0) (CommandToPrint ctl0) "000"%char)) = throw PortNotOpened.
Proof.
  split; [reflexivity|].
  exact (proj1 (wait_closed_throws (line_dev ready_reply []) (mkWaitEnv (fun _ => 0%nat)) 1
                  (1 # 100)%Q 2 (mkCtl (mkPort false [] [] 0) (CommandToPrint ctl0) "000"%char)
                  eq_refl)).
Defined.


(** The spec's convergence scenarios for [waitForPosition]
    (target 1.5 mm, tolerance 0.01 mm, timeout 2 s, 100 ms per
    iteration): a controller reporting 1.5 is matched in the first
    iteration, yet one [AbsoluteMove] is still sent after the match; a
    controller stuck at 0 is given up after exactly 20 iterations (2 s),
    each sending its query and an [AbsoluteMove], without throwing. *)
Theorem waitForPosition_scenarios :
  let w := mkWaitEnv (fun _ => 0%nat) in
  let r1 := waitForPosition (line_dev (list_ascii_of_string "1TP1.5000") []) w (3 # 2) (1 # 100) 2
              ctl0 in
  let r2 := waitForPosition (line_dev (list_ascii_of_string "1TP0.0000") []) w (3 # 2) (1 # 100) 2
              ctl0 in
  fst r1 = ret Matched /\
  wire (port (snd r1)) =
    command_pieces (SetCommand CommandType.PositionReal 0 CommandGetSetType.Get) ++
    command_pieces (SetCommand CommandType.MoveAbs (3 # 2) CommandGetSetType.Set_) /\
  fst r2 = ret TimeoutReached /\ count_line "PA"%string (wire (port (snd r2))) = 20%nat /\
  count_line "TP"%string (wire (port (snd r2))) = 20%nat.
Proof. vm_compute. repeat split. Qed.

(** ** What a wait writes *)

(** The read of an iteration leaves the state its query left, whether
    the parse threw or not. *)
Lemma Mbind_ret {A B : Type} (m : M A) (k : A -> M B) (c c' : Ctl) (x : A) :
  m c = (ret x, c') -> Mbind m k c = k x c'.
Proof. intros E. unfold Mbind. rewrite E. reflexivity. Qed.

Lemma catch_read_step (q : M string) (minLen off cnt : nat) (tg tol : float) (c : Ctl) :
  exists b, Mcatch (read_matches q minLen off cnt tg tol) (fun _ => Mret false) c = (ret b, snd (q c)).
Proof.
  unfold Mcatch, read_matches, Mbind. destruct (q c) as [[e|r] c1]; [eexists; reflexivity|].
  destruct (_ <=? _)%nat; [|eexists; reflexivity].
  destruct (_ <- _ ;; _); eexists; reflexivity.
Qed.

Lemma query_writes (dev : nat -> ReadEnv) (T : CommandType.t) (c : Ctl) :
  isOpen (port c) = true ->
  wire (port (snd (query dev T c))) = wire (port c) ++ command_pieces (SetCommand T 0 CommandGetSetType.Get).
Proof.
  destruct c as [[o r wr n] e le]. intros Ho. cbn [port isOpen] in Ho. subst o.
  unfold query, Mbind, on_port, flushInput, setCommand. cbn [port isOpen].
  rewrite send_current_open by reflexivity.
  unfold serial_read, on_port_pure, SerialRead. cbn [port with_port CommandToPrint].
  match goal with |- context [readString ?e ?a ?b ?d ?p] =>
    pose proof (readString_loop_port e a b (Z.of_nat d) (S (S (d / 5))) 0 [] p) as (P & _ & _);
    unfold readString; destruct (readString_loop _ _ _ _ _ _ _ _) as [res p']
  end.
  cbn [snd port with_port wire next_read] in *. exact P.
Qed.


Lemma query_ret (dev : nat -> ReadEnv) (T : CommandType.t) (c : Ctl) :
  isOpen (port c) = true -> exists r, fst (query dev T c) = ret r.
Proof.
  destruct c as [[o r wr n] e le]. intros Ho. cbn [port isOpen] in Ho. subst o.
  unfold query, Mbind, on_port, flushInput, setCommand. cbn [port isOpen].
  rewrite send_current_open by reflexivity.
  unfold serial_read, on_port_pure. destruct (SerialRead _ _). eexists; reflexivity.
Qed.

Lemma wait_loop_wire (w : WaitEnv) (dev : nat -> ReadEnv) (T T' : CommandType.t) (x : float)
    (g : CommandGetSetType.t) (minLen off cnt : nat) (tg tol : float) (Tm : Z) (f k : nat) (c : Ctl) :
  isOpen (port c) = true ->
  exists n, (n <= f)%nat /\
    isOpen (port (snd (wait_loop w (query dev T) minLen off cnt tg tol (send_set T' x g) Tm (S f) k c)))
      = true /\
    wire (port (snd (wait_loop w (query dev T) minLen off cnt tg tol (send_set T' x g) Tm (S f) k c)))
      = wire (port c) ++ concat (repeat (wait_iteration T T' x g) (S n)).
Proof.
  revert k c. induction f as [|f IH]; intros k c Ho; rewrite wait_loop_S;
    destruct (catch_read_step (query dev T) minLen off cnt tg tol c) as [m E];
    rewrite (Mbind_ret _ _ _ _ _ E);
    pose proof (query_keeps_open dev T c Ho) as O1; pose proof (query_writes dev T c Ho) as W1;
    set (c1 := snd (query dev T c)) in *;
    rewrite (Mbind_ret _ _ _ _ _ (send_set_open T' x g c1 O1));
    assert (L : wire (port c1) ++ command_pieces (SetCommand T' x g)
                = wire (port c) ++ concat (repeat (wait_iteration T T' x g) 1))
      by (rewrite W1; unfold wait_iteration; cbn [repeat concat];
          rewrite app_nil_r, <- !app_assoc; reflexivity).
  - destruct (checkTimeout _ _); [|destruct m];
      (exists 0%nat; split; [lia|]; split; [reflexivity|exact L]).
  - destruct (checkTimeout _ _); [|destruct m];
      [(exists 0%nat; split; [lia|]; split; [reflexivity|exact L]) ..|].
    match goal with |- context [wait_loop w _ _ _ _ _ _ _ _ (S f) (S k) ?c2] =>
      destruct (IH (S k) c2 eq_refl) as (n & Hn & O & W) end.
    exists (S n). split; [lia|]. split; [exact O|]. rewrite W. cbn [port wire]. rewrite L.
    cbn [repeat concat]. rewrite app_nil_r, <- !app_assoc. reflexivity.
Qed.

End StageHelpers.
