(* ===== verification/ImageOrder.v ===== *)
(** * ImageOrder: the comparator [customSort]

    Models [customSort] ([src/src/individualCommands.cpp], lines
    416-424), the comparator [RunFull] and [RunFullDynamic] pass to
    [std::sort] for the image paths: when both paths contain a match of
    the regular expression [SEC_(\d+)\.PNG] ([std::regex_search], the
    leftmost match), the numbers of the group, read by [std::stoi], are
    compared; otherwise the paths are compared as [std::string]s.

    The regular expression is translated to a matcher of its own: at a
    position, ["SEC_"], the longest run of digits (the greedy [\d+]; a
    shorter run cannot be followed by ['.']), then [".PNG"].
    [std::string]'s [operator<] is [String.ltb]: lexicographic on the
    character codes as unsigned values, a proper prefix first. *)

From Stdlib Require Import String Ascii List ZArith Lia Bool.
From S2P Require Import Prelude.
Import ListNotations.

Module ImageOrder.

(** The match of [SEC_(\d+)\.PNG] that starts at the first character of
    [s], if any: the text of the group. *)
Definition match_here (s : string) : option string :=
  if prefix "SEC_" s then
    let (d, r) := span_digits (substring 4 (String.length s - 4) s) in
    match d with
    | EmptyString => None
    | _ => if prefix ".PNG" r then Some d else None
    end
  else None.

(** [std::regex_search]: the leftmost match. *)
Fixpoint regex_search (s : string) : option string :=
  match s with
  | EmptyString => None
  | String _ r =>
      match match_here s with
      | Some d => Some d
      | None => regex_search r
      end
  end.

(** [customSort(a, b)]: [std::stoi] of a group may throw
    [out_of_range]. *)
Definition customSort (a b : string) : cpp bool :=
  match regex_search a, regex_search b with
  | Some da, Some db => x <- stoi da ;; y <- stoi db ;; ret (x <? y)%Z
  | _, _ => ret (String.ltb a b)
  end.

(** A nonempty string of decimal digits. *)
Definition digit_string (d : string) : bool :=
  negb (String.eqb d "") && forallb is_digit (list_ascii_of_string d).

(** The name of the image of layer [d]. *)
Definition image_name (d : string) : string := ("SEC_" ++ d ++ ".PNG")%string.

(** Whether [p] contains the character ['S']: a path without one cannot
    hold the start of a match. *)
Definition has_S (p : string) : bool := existsb (Ascii.eqb "S") (list_ascii_of_string p).

(** ** Lemmas *)

Lemma substring_all (s : string) : substring 0 (String.length s) s = s.
Proof. induction s as [|c s IH]; simpl; [reflexivity|now rewrite IH]. Qed.

Lemma span_digits_app (d r : string) :
  forallb is_digit (list_ascii_of_string d) = true ->
  match r with String c _ => is_digit c = false | EmptyString => True end ->
  span_digits (d ++ r) = (d, r).
Proof.
  intros Hd Hr. induction d as [|c d IH]; simpl in *.
  - destruct r as [|c r]; [reflexivity|]. simpl. now rewrite Hr.
  - apply andb_true_iff in Hd as [Hc Hd]. rewrite Hc, IH by exact Hd. reflexivity.
Qed.

Lemma fold_digits_nonneg (l : list ascii) (acc : Z) :
  (0 <= acc)%Z -> forallb is_digit l = true ->
  (0 <= fold_left (fun acc c => acc * 10 + digit_val c)%Z l acc)%Z.
Proof.
  revert acc. induction l as [|c l IH]; intros acc Ha Hl; simpl in *; [exact Ha|].
  apply andb_true_iff in Hl as [Hc Hl]. apply IH; [|exact Hl].
  unfold is_digit in Hc. apply andb_true_iff in Hc as [Hc _]. apply Nat.leb_le in Hc.
  unfold digit_val. lia.
Qed.

(** A digit is neither blank nor a sign. *)
Lemma digit_not_sign (c : ascii) (s : string) :
  is_digit c = true -> is_space c = false /\ take_sign (String c s) = (false, String c s).
Proof.
  destruct c as [[] [] [] [] [] [] [] []]; vm_compute; intros H;
    first [discriminate H | split; reflexivity].
Qed.

(** [std::stoi] of a nonempty string of digits: its value, or
    [out_of_range] when the value does not fit an [int]. *)
Lemma stoi_digits_range (d : string) :
  digit_string d = true ->
  stoi d = if (digits_value d <=? INT_MAX)%Z then ret (digits_value d) else throw OutOfRange.
Proof.
  intros Hd. destruct d as [|c d']; [discriminate|].
  unfold digit_string in Hd. apply andb_true_iff in Hd as [_ Hd].
  pose proof Hd as Hc. simpl in Hc. apply andb_true_iff in Hc as [Hc _].
  destruct (digit_not_sign c d' Hc) as [Hs Ht].
  unfold stoi. cbn [skip_space]. rewrite Hs, Ht.
  rewrite <- (string_app_nil_r (String c d')), span_digits_app by (exact Hd || exact I).
  rewrite string_app_nil_r.
  pose proof (fold_digits_nonneg (list_ascii_of_string (String c d')) 0 ltac:(lia) Hd) as Hn.
  fold (digits_value (String c d')) in Hn.
  assert (R : (INT_MIN <=? digits_value (String c d'))%Z = true) by (apply Z.leb_le; unfold INT_MIN; lia).
  cbv beta iota. rewrite R. reflexivity.
Qed.

Lemma stoi_digits (d : string) :
  digit_string d = true -> (digits_value d <= INT_MAX)%Z -> stoi d = ret (digits_value d).
Proof.
  intros Hd Hmax. rewrite (stoi_digits_range d Hd). apply Z.leb_le in Hmax. rewrite Hmax. reflexivity.
Qed.

Lemma stoi_digits_overflow (d : string) :
  digit_string d = true -> (INT_MAX < digits_value d)%Z -> stoi d = throw OutOfRange.
Proof.
  intros Hd Hmax. rewrite (stoi_digits_range d Hd).
  replace (digits_value d <=? INT_MAX)%Z with false by (symmetry; apply Z.leb_gt; exact Hmax). reflexivity.
Qed.

Lemma span_digits_digits (s : string) : forallb is_digit (list_ascii_of_string (fst (span_digits s))) = true.
Proof.
  induction s as [|c s IH]; cbn; [reflexivity|].
  destruct (is_digit c) eqn:Hc; [|reflexivity].
  destruct (span_digits s) as [d r]. cbn in *. rewrite Hc. exact IH.
Qed.

(** The group of a match is a nonempty string of digits. *)
Lemma regex_search_digits (s d : string) : regex_search s = Some d -> digit_string d = true.
Proof.
  induction s as [|c s IH]; cbn; [discriminate|].
  destruct (match_here (String c s)) as [d'|] eqn:Em; [|exact IH].
  intros E. injection E as <-. unfold match_here in Em.
  destruct (prefix "SEC_" (String c s)); [|discriminate].
  pose proof (span_digits_digits (substring 4 (String.length (String c s) - 4) (String c s))) as Hd.
  destruct (span_digits _) as [d r]. cbn in Hd.
  destruct d as [|a d]; [discriminate|]. destruct (prefix ".PNG" r); [|discriminate].
  injection Em as <-. exact Hd.
Qed.

(** [std::stoi] of a matched group returns or throws [out_of_range]. *)
Lemma stoi_group (s d : string) :
  regex_search s = Some d -> stoi d = ret (digits_value d) \/ stoi d = throw OutOfRange.
Proof.
  intros E. rewrite (stoi_digits_range d (regex_search_digits s d E)).
  destruct (_ <=? _)%Z; [left|right]; reflexivity.
Qed.

Lemma match_here_image (d : string) : digit_string d = true -> match_here (image_name d) = Some d.
Proof.
  intros Hd. unfold match_here, image_name. cbn [prefix ascii_dec].
  change (String.length ("SEC_" ++ d ++ ".PNG")%string - 4)%nat
    with (String.length (d ++ ".PNG")%string - 0)%nat.
  rewrite Nat.sub_0_r. cbn [append]. rewrite !substring_shift, substring_all.
  unfold digit_string in Hd. apply andb_true_iff in Hd as [Hne Hd].
  rewrite span_digits_app by (exact Hd || reflexivity).
  destruct d; [discriminate|reflexivity].
Qed.

Lemma match_here_not_S (c : ascii) (s : string) : c <> "S"%char -> match_here (String c s) = None.
Proof.
  intros Hc. unfold match_here. cbn [prefix].
  destruct (ascii_dec "S" c); [congruence|reflexivity].
Qed.

Lemma regex_search_image (p d : string) :
  has_S p = false -> digit_string d = true -> regex_search (p ++ image_name d) = Some d.
Proof.
  intros Hp Hd. induction p as [|c p IH].
  - assert (E : image_name d = String "S" ("EC_" ++ d ++ ".PNG")%string) by reflexivity.
    cbn [append]. rewrite E. cbn [regex_search]. rewrite <- E.
    rewrite match_here_image by exact Hd. reflexivity.
  - unfold has_S in Hp. cbn [list_ascii_of_string existsb] in Hp.
    apply orb_false_iff in Hp as [Hc Hp]. cbn [append regex_search].
    rewrite match_here_not_S by (intros ->; discriminate Hc). apply IH, Hp.
Qed.

(** ** The order of the images *)

(** C31: for paths in one directory (a path without ['S']) whose names
    are [SEC_<n>.PNG] with [n] a decimal number that fits an [int]
    (leading zeros allowed), [customSort] orders by the number, not by
    the text: ["SEC_9.PNG"] before ["SEC_10.PNG"]. *)
Theorem customSort_numeric (p d1 d2 : string) :
  has_S p = false -> digit_string d1 = true -> digit_string d2 = true ->
  (digits_value d1 <= INT_MAX)%Z -> (digits_value d2 <= INT_MAX)%Z ->
  customSort (p ++ image_name d1) (p ++ image_name d2) =
    ret (digits_value d1 <? digits_value d2)%Z.
Proof.
  intros Hp H1 H2 M1 M2. unfold customSort.
  rewrite !regex_search_image by assumption.
  rewrite (stoi_digits d1 H1 M1), (stoi_digits d2 H2 M2). reflexivity.
Qed.

Lemma customSort_numeric_witness :
  customSort ("img/" ++ image_name "9") ("img/" ++ image_name "10") =
    ret (digits_value "9" <? digits_value "10")%Z /\
  String.ltb ("img/" ++ image_name "9") ("img/" ++ image_name "10") = false.
Proof.
  split; [|reflexivity].
  exact (customSort_numeric "img/" "9" "10" eq_refl eq_refl eq_refl
           ltac:(vm_compute; discriminate) ltac:(vm_compute; discriminate)).
Defined.

(** C32: a numbered name whose number does not fit an [int] makes
    [std::stoi] throw [out_of_range] from inside the comparator, in
    either argument position, against every path that holds a numbered
    name, whatever its number; [std::sort] in [RunFull] is outside any
    [try], so the exception ends the run. *)
Theorem customSort_overflow (p d b : string) :
  has_S p = false -> digit_string d = true -> (INT_MAX < digits_value d)%Z -> regex_search b <> None ->
  customSort (p ++ image_name d) b = throw OutOfRange /\
  customSort b (p ++ image_name d) = throw OutOfRange.
Proof.
  intros Hp Hd Hmax Hb. unfold customSort.
  rewrite (regex_search_image p d Hp Hd), (stoi_digits_overflow d Hd Hmax).
  destruct (regex_search b) as [db|] eqn:Eb; [|congruence].
  split; [reflexivity|]. destruct (stoi_group b db Eb) as [E|E]; rewrite E; reflexivity.
Qed.

(** [customSort] is not a strict weak ordering once a path without a
    numbered name is among numbered ones: ["SEC_9.PNG"] <
    ["SEC_10.PNG"] (by number) < ["SEC_1A"] (by text) < ["SEC_9.PNG"]
    (by text), a cycle, which [std::sort] does not allow. *)
Lemma customSort_cycle :
  customSort "SEC_9.PNG" "SEC_10.PNG" = ret true /\
  customSort "SEC_10.PNG" "SEC_1A" = ret true /\
  customSort "SEC_1A" "SEC_9.PNG" = ret true.
Proof. vm_compute. repeat split. Qed.



Lemma customSort_overflow_witness :
  customSort ("img/" ++ image_name "3000000000") "out/SEC_1.PNG" = throw OutOfRange /\
  customSort "out/SEC_1.PNG" ("img/" ++ image_name "3000000000") = throw OutOfRange.
Proof.
  exact (customSort_overflow "img/" "3000000000" "out/SEC_1.PNG" eq_refl eq_refl
           ltac:(vm_compute; reflexivity) ltac:(discriminate)).
Defined.

End ImageOrder.
