(* ===== verification/LightEngine.v ===== *)
(** * LightEngine: [TurnLightEngineOn], [TurnLightEngineOff], [getLightEngineStatus]

    Models the light-engine functions of [src/src/individualCommands.cpp]
    (lines 218-238 and 289-395). They call the vendor library
    [LibUSB3DPrinter] (not part of the repository), which is an
    environment here: what each call answers. The calls the code makes,
    in order, form a trace of [LECall]s.

    [TurnLightEngineOn] enumerates the USB devices, selects device 0,
    checks that it is online, powers it on, then polls [GetSysStatus]
    every 100 ms until it reads 1; if more than 600 s (whole seconds,
    [duration_cast<seconds>]) have passed, it powers the engine off and
    calls [exit(1)]. The clock at the [k]-th poll reads at least
    [100 (k + 1)] ms, so the loop runs at most 6010 times: its fuel. *)

From Stdlib Require Import List ZArith Lia Bool.
From S2P Require Import Prelude.
Import ListNotations.
Local Open Scope Z_scope.

Module LightEngine.

(** What the library answers. *)
Record LibEnv : Type := mkLibEnv {
  numDevices : Z;               (* EnumUsbDevice() *)
  online : Z;                   (* CheckUSBOnline() *)
  powerResult : bool -> Z;      (* PowerOnOff(on) *)
  sysStatus : nat -> Z;         (* the k-th GetSysStatus() *)
  pollLag : nat -> nat;         (* ms beyond the sleeps at the k-th poll *)
  statusByte : Z;               (* GetStatus() *)
  currentByte : Z;              (* GetCurrent(0, &c) *)
  ledDefault : option Z;        (* GetLedDefaultStatus(&flag): the flag on success *)
  temperature : option Z        (* GetTemperature(&temp): the value on success *)
}.

(** The library calls, in the order the code makes them. *)
Inductive LECall : Type :=
| EnumUsbDevice | SetUsbDeviceIndex (i : Z) | CheckUSBOnline | PowerOnOff (on : bool)
| GetSysStatus | GetStatus | GetCurrent | GetLedDefaultStatus | GetTemperature
| SetCurrent (v : Z) | SetLedDefaultStatus (flag : Z).

Inductive OnOutcome : Type :=
| EngineReady            (* the loop saw status 1 and returned *)
| ExitProgram (code : Z) (* exit(code) *)
| WarmupOutOfFuel.

(** The clock of the warm-up loop at poll [k], in ms since [inittime]. *)
Definition warm_clock (e : LibEnv) (k : nat) : Z := Z.of_nat (100 * S k + pollLag e k).

Definition maxDuration : Z := 600.

(** [while (stat != 1)] (lines 339-363), from poll [k]. *)
Fixpoint warmup (e : LibEnv) (fuel k : nat) : OnOutcome * list LECall :=
  match fuel with
  | O => (WarmupOutOfFuel, [])
  | S f =>
      let stat := sysStatus e k in
      if maxDuration <? warm_clock e k / 1000 then (ExitProgram 1, [GetSysStatus; PowerOnOff false])
      else if stat =? 1 then (EngineReady, [GetSysStatus])
      else let '(o, cs) := warmup e f (S k) in (o, GetSysStatus :: cs)
  end.

(** Enough polls for the clock to pass [maxDuration]. *)
Definition warmup_fuel : nat := S (10 * Z.to_nat (maxDuration + 1)).

(** [TurnLightEngineOn] (lines 289-365). The answers of
    [EnumUsbDevice], [CheckUSBOnline] and [PowerOnOff(1)] are only
    logged. *)
Definition TurnLightEngineOn (e : LibEnv) : OnOutcome * list LECall :=
  let '(o, cs) := warmup e warmup_fuel 0 in
  (o, [EnumUsbDevice; SetUsbDeviceIndex 0; CheckUSBOnline; PowerOnOff true] ++ cs).

(** [TurnLightEngineOff] (lines 385-395). *)
Definition TurnLightEngineOff : list LECall := [PowerOnOff false].

(** [struct LightEngineStatus]; [None] for a field left uninitialised. *)
Record LightEngineStatus : Type := mkLEStatus {
  status : Z;
  current : Z;
  sysStatus_ : Z;
  ledDefaultStatus : option bool;
  temperature_ : option Z
}.

(** [getLightEngineStatus] (lines 218-238): the flag and the temperature
    are set only when their calls succeed. *)
Definition getLightEngineStatus (e : LibEnv) : LightEngineStatus * list LECall :=
  (mkLEStatus (statusByte e) (currentByte e) (sysStatus e 0)
              (option_map (fun f => negb (f =? 0)) (ledDefault e)) (temperature e),
   [GetStatus; GetCurrent; GetSysStatus; GetLedDefaultStatus; GetTemperature]).

(** A warm-up of three polls: status 4, 4, then 1, 100 ms apart. *)
Definition warm_env : LibEnv :=
  mkLibEnv 1 1 (fun _ => 1) (fun k => if (k <? 2)%nat then 4 else 1) (fun _ => 0%nat)
           0 5 (Some 1) (Some 25).

(** An engine stuck in warm-up (status 4). *)
Definition stuck_env : LibEnv :=
  mkLibEnv 1 1 (fun _ => 1) (fun _ => 4) (fun _ => 0%nat) 0 5 None None.

(** ** The warm-up loop *)

Lemma warm_timeout (e : LibEnv) (k : nat) :
  6010 <= Z.of_nat (S k) -> (maxDuration <? warm_clock e k / 1000) = true.
Proof.
  intros H. apply Z.ltb_lt. unfold maxDuration, warm_clock.
  apply Z.lt_le_trans with 601; [lia|]. apply Z.div_le_lower_bound; lia.
Qed.

Lemma warmup_S (e : LibEnv) (f k : nat) :
  warmup e (S f) k =
    if maxDuration <? warm_clock e k / 1000 then (ExitProgram 1, [GetSysStatus; PowerOnOff false])
    else if sysStatus e k =? 1 then (EngineReady, [GetSysStatus])
    else let '(o, cs) := warmup e f (S k) in (o, GetSysStatus :: cs).
Proof. reflexivity. Qed.

Lemma warmup_total (e : LibEnv) (f k : nat) :
  6010 <= Z.of_nat (k + S f) -> fst (warmup e (S f) k) <> WarmupOutOfFuel.
Proof.
  revert k. induction f as [|f IH]; intros k H; rewrite warmup_S.
  - rewrite warm_timeout by lia. discriminate.
  - destruct (_ <? _); [discriminate|]. destruct (_ =? 1); [discriminate|].
    specialize (IH (S k) ltac:(lia)). destruct (warmup e (S f) (S k)). exact IH.
Qed.

(** C33: [TurnLightEngineOn] always ends, whatever the engine reports:
    either the engine is ready, or after more than 600 s it is powered
    off and the program exits with code 1. *)
Theorem TurnLightEngineOn_terminates (e : LibEnv) :
  fst (TurnLightEngineOn e) = EngineReady \/ fst (TurnLightEngineOn e) = ExitProgram 1.
Proof.
  unfold TurnLightEngineOn, warmup_fuel.
  pose proof (warmup_total e (10 * Z.to_nat (maxDuration + 1)) 0 ltac:(unfold maxDuration; lia))
    as T.
  assert (G : forall f k, fst (warmup e f k) = EngineReady \/ fst (warmup e f k) = ExitProgram 1 \/
                          fst (warmup e f k) = WarmupOutOfFuel).
  { induction f as [|f IH]; intros k; [right; right; reflexivity|]. rewrite warmup_S.
    destruct (_ <? _); [right; left; reflexivity|]. destruct (_ =? 1); [left; reflexivity|].
    specialize (IH (S k)). destruct (warmup e f (S k)). exact IH. }
  destruct (warmup e _ 0) as [o cs] eqn:E. simpl in T |- *.
  specialize (G (S (10 * Z.to_nat (maxDuration + 1))) 0%nat). rewrite E in G. simpl in G.
  destruct G as [G|[G|G]]; [left|right|contradiction]; exact G.
Qed.

Lemma warmup_ready (e : LibEnv) (j f k : nat) :
  (forall i, (i < j)%nat -> sysStatus e (k + i) <> 1) -> sysStatus e (k + j) = 1 ->
  (forall i, (i <= j)%nat -> warm_clock e (k + i) / 1000 <= maxDuration) -> (j < S f)%nat ->
  warmup e (S f) k = (EngineReady, repeat GetSysStatus (S j)).
Proof.
  revert k f. induction j as [|j IH]; intros k f Hn Hy Hc Hf; rewrite warmup_S.
  - rewrite Nat.add_0_r in *. specialize (Hc 0%nat (le_n _)). rewrite Nat.add_0_r in Hc.
    assert (Ht : (maxDuration <? warm_clock e k / 1000) = false) by (apply Z.ltb_ge; lia).
    rewrite Ht, Hy. reflexivity.
  - specialize (Hc 0%nat ltac:(lia)) as Hc0. rewrite Nat.add_0_r in Hc0.
    assert (Ht : (maxDuration <? warm_clock e k / 1000) = false) by (apply Z.ltb_ge; lia).
    specialize (Hn 0%nat ltac:(lia)) as Hn0. rewrite Nat.add_0_r in Hn0.
    rewrite Ht. destruct (Z.eqb_spec (sysStatus e k) 1); [contradiction|].
    destruct f as [|f]; [lia|].
    rewrite (IH (S k) f); [reflexivity| | | |lia].
    + intros i Hi. replace (S k + i)%nat with (k + S i)%nat by lia. apply Hn. lia.
    + replace (S k + j)%nat with (k + S j)%nat by lia. exact Hy.
    + intros i Hi. replace (S k + i)%nat with (k + S i)%nat by lia. apply Hc. lia.
Qed.

(** C34: when the engine first reports status 1 at poll [j], within the
    600 s, [TurnLightEngineOn] powers it on and returns after exactly
    [j + 1] status polls, without powering it off. *)
Theorem TurnLightEngineOn_ready (e : LibEnv) (j : nat) :
  (forall i, (i < j)%nat -> sysStatus e i <> 1) -> sysStatus e j = 1 ->
  (forall i, (i <= j)%nat -> warm_clock e i / 1000 <= maxDuration) ->
  TurnLightEngineOn e =
    (EngineReady, [EnumUsbDevice; SetUsbDeviceIndex 0; CheckUSBOnline; PowerOnOff true] ++
                  repeat GetSysStatus (S j)).
Proof.
  intros Hn Hy Hc. unfold TurnLightEngineOn.
  assert (Hj : Z.of_nat j < 6010).
  { destruct (Z.lt_ge_cases (Z.of_nat j) 6010) as [H|H]; [exact H|].
    specialize (Hc (Z.to_nat 6009) ltac:(lia)).
    pose proof (warm_timeout e (Z.to_nat 6009) ltac:(lia)) as T. apply Z.ltb_lt in T. lia. }
  unfold warmup_fuel.
  rewrite (warmup_ready e j (10 * Z.to_nat (maxDuration + 1)) 0);
    [reflexivity|exact Hn|exact Hy|exact Hc|unfold maxDuration; lia].
Qed.


Lemma TurnLightEngineOn_ready_witness :
  TurnLightEngineOn warm_env =
    (EngineReady, [EnumUsbDevice; SetUsbDeviceIndex 0; CheckUSBOnline; PowerOnOff true] ++
                  repeat GetSysStatus 3).
Proof.
  apply (TurnLightEngineOn_ready warm_env 2).
  - intros i Hi. destruct i as [|[|]]; [discriminate|discriminate|lia].
  - reflexivity.
  - intros i Hi. destruct i as [|[|[|]]]; [vm_compute; discriminate..|lia].
Defined.

Lemma warmup_never (e : LibEnv) (f k : nat) :
  (forall i, sysStatus e i <> 1) -> 6010 <= Z.of_nat (k + S f) -> Z.of_nat k < 6010 ->
  exists n, warmup e (S f) k = (ExitProgram 1, repeat GetSysStatus (S n) ++ [PowerOnOff false]) /\
            Z.of_nat (k + n) < 6010.
Proof.
  intros Hn. revert k. induction f as [|f IH]; intros k H Hk; rewrite warmup_S.
  - rewrite warm_timeout by lia. exists 0%nat. split; [reflexivity|lia].
  - destruct (maxDuration <? warm_clock e k / 1000) eqn:T.
    + exists 0%nat. split; [reflexivity|lia].
    + destruct (Z.eqb_spec (sysStatus e k) 1) as [E|_]; [exfalso; exact (Hn k E)|].
      assert (Hk' : Z.of_nat (S k) < 6010).
      { destruct (Z.lt_ge_cases (Z.of_nat (S k)) 6010) as [L|L]; [exact L|].
        rewrite warm_timeout in T by exact L. discriminate. }
      destruct (IH (S k) ltac:(lia) Hk') as (n & E & B). rewrite E.
      exists (S n). split; [reflexivity|lia].
Qed.

(** C35: an engine that never reports status 1 is powered off and the
    program exits with code 1 once more than 600 s have passed, after at
    most 6010 status polls; power-off is the last library call. *)
Theorem TurnLightEngineOn_timeout (e : LibEnv) :
  (forall i, sysStatus e i <> 1) ->
  exists n, TurnLightEngineOn e =
    (ExitProgram 1, [EnumUsbDevice; SetUsbDeviceIndex 0; CheckUSBOnline; PowerOnOff true] ++
                    repeat GetSysStatus (S n) ++ [PowerOnOff false]) /\ Z.of_nat n < 6010.
Proof.
  intros Hn. unfold TurnLightEngineOn, warmup_fuel.
  destruct (warmup_never e (10 * Z.to_nat (maxDuration + 1)) 0 Hn
              ltac:(unfold maxDuration; lia) ltac:(lia)) as (n & E & B).
  rewrite E. exists n. split; [reflexivity|lia].
Qed.


Lemma TurnLightEngineOn_timeout_witness :
  (forall i, sysStatus stuck_env i <> 1) /\
  exists n, TurnLightEngineOn stuck_env =
    (ExitProgram 1, [EnumUsbDevice; SetUsbDeviceIndex 0; CheckUSBOnline; PowerOnOff true] ++
                    repeat GetSysStatus (S n) ++ [PowerOnOff false]) /\ Z.of_nat n < 6010.
Proof.
  assert (H : forall i, sysStatus stuck_env i <> 1) by (intros i; discriminate).
  split; [exact H|]. exact (TurnLightEngineOn_timeout stuck_env H).
Defined.

End LightEngine.
