(* ===== verification/Bringup.v ===== *)
(** * Bringup: [initializeController], [checkStage], [InitializeSystem], [DeinitializeSystem]

    Models the bring-up and tear-down functions of
    [src/src/individualCommands.cpp] (lines 46-179 and 641-822). Each
    constructs its own [SMC100C] object: a closed port that has read and
    written nothing ([new_controller]); the file-static [LastError] of
    [SMC100C.cpp] outlives it. [initializeController] opens the port
    [globalComPort] names ([comPort], [SMC100CInit]); when that fails the
    program calls [exit(0)] ([Exit0]); an empty name makes the serial
    library throw [std::invalid_argument], which no caller catches. The stage commands then run in the controller monad of
    Controller.v with the waits of StageHelpers.v; the [i]-th wait of a
    function reads its clock from [ws i]. The light-engine calls that
    follow ([SetCurrent], [GetCurrent]) are appended as a trace of
    [LECall]s (LightEngine.v), made only when the stage part returned.

    The SFML window calls, the console output and the sleeps are not
    modelled: they change neither the controller nor the light engine. *)

From Stdlib Require Import String Ascii List ZArith QArith Lia Bool.
From S2P Require Import Prelude Codec Controller StageHelpers LightEngine.
Import ListNotations.

Module Bringup.
Import StageLink Controller SMC100C StageHelpers LightEngine.
Local Open Scope ctl_scope.

(** [SMC100C controller;]: the port is closed; [CommandToPrint] is
    overwritten by the first command before it is read. *)
Definition new_controller (LastError_ : ascii) : Ctl :=
  mkCtl (mkPort false [] [] 0) (SetCommand CommandType.None 0 CommandGetSetType.None) LastError_.

(** How a bring-up function ends. *)
Inductive Outcome : Type :=
| Exit0          (* initializeController failed: exit(0) *)
| Completed.     (* the function returned *)

Definition positionTolerance : float := 1 # 100.
Definition velocityTolerance : float := 1 # 2.
Definition timeoutSeconds : Z := 60.

(** [pos.substr(3, count)] after removing ['\n'] and ['\r'], then
    [std::stof]. *)
Definition parse_reply (r : string) (count : nat) : cpp float :=
  s <- substr (strip_crlf r) 3 count ;; stof s.

(** [struct StageStatus] (individualCommands.h, lines 17-24); [None]
    for a field left uninitialised. *)
Record StageStatus : Type := mkStageStatus {
  position : option float;
  velocity : option float;
  acceleration : option float;
  positiveLimit : option float;
  negativeLimit : option float
}.

Definition unset_status : StageStatus := mkStageStatus None None None None None.

(** The five assignments [status.x = std::stof(r.substr(3, n))] in
    order: an exception stops them, the fields already assigned keep
    their values. *)
Fixpoint parse_fields (rs : list (string * nat)) : list (option float) :=
  match rs with
  | [] => []
  | (r, n) :: t =>
      match (s <- substr r 3 n ;; stof s) with
      | inr v => Some v :: parse_fields t
      | inl _ => repeat None (length rs)
      end
  end.

Definition status_of (fs : list (option float)) : StageStatus :=
  match fs with
  | [p; v; a; pl; nl] => mkStageStatus p v a pl nl
  | _ => unset_status
  end.

(** How [checkStage] ends. *)
Inductive CheckOutcome : Type :=
| CheckExit0
| CheckStatus (s : StageStatus).

Section Operations.
Context (dev : nat -> ReadEnv) (comPort : string) (openOk : bool).

(** [initializeController] (lines 46-67): [SMC100CInit] on the port
    named by [globalComPort], read under its mutex ([comPort]). *)
Definition initializeController : M bool := SMC100CInit comPort openOk.

(** A query of [checkStage], its reply stripped of ['\n'] and ['\r'],
    and the [substr(3, count)] of the console line (which throws on a
    reply shorter than 3 characters). *)
Definition shown (q : M string) (count : nat) : M string :=
  r <-- q ;;
  let r' := strip_crlf r in
  fun c => (_ <- substr r' 3 count ;; ret r', c).

(** The [try] block of [checkStage] (lines 127-171). *)
Definition checkStage_try : M (list (option float)) :=
  pos <-- shown (GetPosition dev) 6 ;;
  vel <-- shown (GetVelocity dev) 2 ;;
  acc <-- shown (GetAcceleration dev) 2 ;;
  pL <-- shown (GetPositiveLimit dev) 2 ;;
  nL <-- shown (GetNegativeLimit dev) 2 ;;
  Mret (parse_fields [(pos, 6%nat); (vel, 2%nat); (acc, 2%nat); (pL, 2%nat); (nL, 2%nat)]).

(** [checkStage] (lines 94-179): initialise, home (its result is only
    logged), then read the five values; any [std::exception] leaves the
    fields not yet assigned uninitialised. *)
Definition checkStage_stage : M CheckOutcome :=
  ok <-- initializeController ;;
  if negb ok then Mret CheckExit0 else
  _ <-- Home ;;
  fs <-- Mcatch checkStage_try (fun _ => Mret (repeat None 5)) ;;
  Mret (CheckStatus (status_of fs)).

Definition checkStage (LastError_ : ascii) : cpp CheckOutcome * Ctl :=
  checkStage_stage (new_controller LastError_).

(** The stage part of [InitializeSystem] (lines 650-697). *)
Definition InitializeSystem_stage (ws : nat -> WaitEnv) (initialPosition velocity initialVelocity : float)
    : M Outcome :=
  ok <-- initializeController ;;
  if negb ok then Mret Exit0 else
  _ <-- Home ;;
  let intermediatePosition := (initialPosition - 10)%Q in
  SetVelocity initialVelocity ;;;
  _ <-- waitForVelocity dev (ws 0%nat) initialVelocity velocityTolerance timeoutSeconds ;;
  AbsoluteMove intermediatePosition ;;;
  _ <-- waitForPosition dev (ws 1%nat) intermediatePosition positionTolerance timeoutSeconds ;;
  SetVelocity velocity ;;;
  _ <-- waitForVelocity dev (ws 2%nat) velocity velocityTolerance timeoutSeconds ;;
  AbsoluteMove initialPosition ;;;
  _ <-- waitForPosition dev (ws 3%nat) initialPosition positionTolerance timeoutSeconds ;;
  Mret Completed.

(** The light-engine calls that end both functions (lines 707-710 and
    816-819). *)
Definition led_calls (inputCurrent : Z) : list LECall :=
  [SetCurrent (to_U8 inputCurrent); GetCurrent].

(** The result of a stage part followed by the light-engine calls, made
    only when the stage part returned [Completed]. *)
Definition with_led (inputCurrent : Z) (r : cpp Outcome * Ctl) : cpp Outcome * Ctl * list LECall :=
  let '(o, c) := r in
  (o, c, match o with inr Completed => led_calls inputCurrent | _ => [] end).

(** [InitializeSystem] (lines 641-712). *)
Definition InitializeSystem (ws : nat -> WaitEnv) (inputCurrent : Z)
    (initialPosition velocity initialVelocity : float) (LastError_ : ascii)
    : cpp Outcome * Ctl * list LECall :=
  with_led inputCurrent
    (InitializeSystem_stage ws initialPosition velocity initialVelocity (new_controller LastError_)).

(** The [try] block of [DeinitializeSystem] (lines 753-761): the
    position, [0.0f] when the reply does not parse. *)
Definition read_position : M float :=
  Mcatch (r <-- GetPosition dev ;; fun c => (parse_reply r 6, c)) (fun _ => Mret 0%Q).

(** The stage part of [DeinitializeSystem] (lines 735-785). *)
Definition DeinitializeSystem_stage (ws : nat -> WaitEnv) (initialVelocity : float) : M Outcome :=
  ok <-- initializeController ;;
  if negb ok then Mret Exit0 else
  _ <-- Home ;;
  position_ <-- read_position ;;
  let intermediatePosition := (position_ - 10)%Q in
  AbsoluteMove intermediatePosition ;;;
  _ <-- waitForPosition dev (ws 0%nat) intermediatePosition positionTolerance timeoutSeconds ;;
  SetVelocity initialVelocity ;;;
  _ <-- waitForVelocity dev (ws 1%nat) initialVelocity velocityTolerance timeoutSeconds ;;
  AbsoluteMove 0%Q ;;;
  _ <-- waitForPosition dev (ws 2%nat) 0%Q positionTolerance timeoutSeconds ;;
  Mret Completed.

(** [DeinitializeSystem] (lines 733-822). *)
Definition DeinitializeSystem (ws : nat -> WaitEnv) (inputCurrent : Z) (initialVelocity : float)
    (LastError_ : ascii) : cpp Outcome * Ctl * list LECall :=
  with_led inputCurrent (DeinitializeSystem_stage ws initialVelocity (new_controller LastError_)).

End Operations.

(** The state [c'] is [c] with the lines [l] written after those of [c],
    on a port still open. *)
Definition appended (c c' : Ctl) (l : list string) : Prop :=
  isOpen (port c') = true /\ wire (port c') = wire (port c) ++ l.

(** The lines of a set command, and of [S n] iterations of a wait. *)
Definition set_line (T : CommandType.t) (v : float) : list string :=
  command_pieces (SetCommand T v CommandGetSetType.Set_).
Definition velocity_iterations (v : float) (n : nat) : list string :=
  concat (repeat (wait_iteration CommandType.Velocity CommandType.Velocity v CommandGetSetType.Set_) (S n)).
Definition position_iterations (x : float) (n : nat) : list string :=
  concat (repeat (wait_iteration CommandType.PositionReal CommandType.MoveAbs x CommandGetSetType.Set_) (S n)).
Definition home_line : list string :=
  command_pieces (SetCommand CommandType.HomeSearch 0 CommandGetSetType.None).

(** A device that never answers: every read times out. *)
Definition silent_dev : nat -> ReadEnv := fun _ => mkReadEnv (fun _ => 0%nat) (fun _ => []).

(** The port once [SMC100CInit] has opened it. *)
Definition opened (LastError_ : ascii) : Ctl :=
  mkCtl (mkPort true [] [] 0) (SetCommand CommandType.None 0 CommandGetSetType.None) LastError_.

(** ** Steps of a bring-up sequence *)

Lemma appended_trans (c c' c'' : Ctl) (l l' : list string) :
  appended c c' l -> appended c' c'' l' -> appended c c'' (l ++ l').
Proof. intros [_ W] [O W']. split; [exact O|]. rewrite W', W, app_assoc. reflexivity. Qed.

Lemma init_ok (comPort : string) (le : ascii) :
  comPort <> EmptyString -> initializeController comPort true (new_controller le) = (ret true, opened le).
Proof.
  intros Hn. unfold initializeController, SMC100CInit, Mcatch, Mbind, on_port, serial_open.
  destruct (String.eqb_spec comPort EmptyString); [contradiction|reflexivity].
Qed.

Lemma init_failed (comPort : string) (le : ascii) :
  comPort <> EmptyString -> initializeController comPort false (new_controller le) = (ret false, new_controller le).
Proof.
  intros Hn. unfold initializeController, SMC100CInit, Mcatch, Mbind, on_port, serial_open.
  destruct (String.eqb_spec comPort EmptyString); [contradiction|reflexivity].
Qed.

(** An empty port name: [Serial::open] throws [std::invalid_argument],
    which the [catch] of [SMC100CInit] does not catch. *)
Lemma init_empty (openOk : bool) (le : ascii) :
  initializeController EmptyString openOk (new_controller le) = (throw InvalidArgument, new_controller le).
Proof. reflexivity. Qed.

Lemma home_step {B : Type} (K : M B) (c : Ctl) :
  isOpen (port c) = true -> appended c (snd (Home c)) home_line /\ (Home ;;; K) c = K (snd (Home c)).
Proof.
  intros Ho. assert (E : Home c = (ret true, snd (Home c)))
    by (unfold Home, Mbind, setCommand; cbv beta iota; rewrite send_current_open by exact Ho; reflexivity).
  split; [|exact (Mbind_ret Home (fun _ => K) c _ true E)].
  unfold Home, Mbind, setCommand; cbv beta iota; rewrite send_current_open by exact Ho. split; reflexivity.
Qed.

Lemma set_step {B : Type} (T : CommandType.t) (v : float) (g : CommandGetSetType.t) (K : M B) (c : Ctl) :
  isOpen (port c) = true ->
  exists c', appended c c' (command_pieces (SetCommand T v g)) /\ (send_set T v g ;;; K) c = K c'.
Proof.
  intros Ho. eexists; split; [|apply (Mbind_ret (send_set T v g) (fun _ => K) c _ tt), send_set_open, Ho]. split; reflexivity.
Qed.

Lemma query_step {B : Type} (dev : nat -> ReadEnv) (T : CommandType.t) (K : string -> M B) (c : Ctl) :
  isOpen (port c) = true ->
  exists r c', appended c c' (command_pieces (SetCommand T 0 CommandGetSetType.Get)) /\
               fst (query dev T c) = ret r /\ Mbind (query dev T) K c = K r c'.
Proof.
  intros Ho. destruct (query_ret dev T c Ho) as [r E].
  exists r, (snd (query dev T c)). split; [split; [exact (query_keeps_open dev T c Ho)|
    exact (query_writes dev T c Ho)]|]. split; [exact E|].
  apply Mbind_ret. destruct (query dev T c); cbn in E |- *; subst; reflexivity.
Qed.

Lemma wait_step {B : Type} (dev : nat -> ReadEnv) (w : WaitEnv) (T T' : CommandType.t) (x : float)
    (g : CommandGetSetType.t) (minLen off cnt : nat) (tg tol : float) (Tm : Z) (f k : nat)
    (K : M B) (c : Ctl) :
  isOpen (port c) = true ->
  exists n c', (n <= f)%nat /\ appended c c' (concat (repeat (wait_iteration T T' x g) (S n))) /\
    (wait_loop w (query dev T) minLen off cnt tg tol (send_set T' x g) Tm (S f) k ;;; K) c = K c'.
Proof.
  intros Ho. destruct (wait_loop_wire w dev T T' x g minLen off cnt tg tol Tm f k c Ho) as (n & Hn & O & W).
  destruct (wait_loop_open w (query dev T) minLen off cnt tg tol (send_set T' x g) Tm (S f) k c
              (query_keeps_open dev T) (proj1 (send_set_keeps_open T' x g))
              (proj2 (send_set_keeps_open T' x g)) Ho) as [o E].
  exists n, (snd (wait_loop w (query dev T) minLen off cnt tg tol (send_set T' x g) Tm (S f) k c)).
  split; [exact Hn|]. split; [split; assumption|].
  apply (Mbind_ret _ (fun _ => K) c _ o).
  destruct (wait_loop _ _ _ _ _ _ _ _ _ _ _ c); cbn in E |- *; subst; reflexivity.
Qed.

Lemma velocity_step {B : Type} (dev : nat -> ReadEnv) (w : WaitEnv) (v : float) (K : M B) (c : Ctl) :
  isOpen (port c) = true ->
  exists n c', (n <= 600)%nat /\ appended c c' (velocity_iterations v n) /\
    (waitForVelocity dev w v velocityTolerance timeoutSeconds ;;; K) c = K c'.
Proof.
  exact (wait_step dev w CommandType.Velocity CommandType.Velocity v CommandGetSetType.Set_ 2 3 2 v
           velocityTolerance timeoutSeconds 600 0 K c).
Qed.

Lemma position_step {B : Type} (dev : nat -> ReadEnv) (w : WaitEnv) (x : float) (K : M B) (c : Ctl) :
  isOpen (port c) = true ->
  exists n c', (n <= 600)%nat /\ appended c c' (position_iterations x n) /\
    (waitForPosition dev w x positionTolerance timeoutSeconds ;;; K) c = K c'.
Proof.
  exact (wait_step dev w CommandType.PositionReal CommandType.MoveAbs x CommandGetSetType.Set_ 9 3 6 x
           positionTolerance timeoutSeconds 600 0 K c).
Qed.


Lemma read_position_step {B : Type} (dev : nat -> ReadEnv) (K : float -> M B) (c : Ctl) :
  isOpen (port c) = true ->
  exists r c', fst (GetPosition dev c) = ret r /\
    appended c c' (command_pieces (SetCommand CommandType.PositionReal 0 CommandGetSetType.Get)) /\
    Mbind (read_position dev) K c = K (match parse_reply r 6 with inr v => v | inl _ => 0%Q end) c'.
Proof.
  intros Ho. destruct (query_ret dev CommandType.PositionReal c Ho) as [r E].
  exists r, (snd (query dev CommandType.PositionReal c)). split; [exact E|].
  split; [split; [exact (query_keeps_open _ _ c Ho)|exact (query_writes _ _ c Ho)]|].
  apply (Mbind_ret _ K c _ (match parse_reply r 6 with inr v => v | inl _ => 0%Q end)).
  unfold read_position, Mcatch, Mbind, GetPosition.
  destruct (query dev CommandType.PositionReal c) as [r0 c0]; cbn in E |- *; subst r0.
  destruct (parse_reply r 6); reflexivity.
Qed.

(** One step of a bring-up sequence on an open port: a home command, a
    set command, a query or a wait. *)
Ltac open_of c :=
  first [reflexivity | match goal with H : appended _ c _ |- _ => exact (proj1 H) end].

Ltac bringup_step dev :=
  match goal with
  | |- context [Mbind Home (fun _ => ?K) ?c] =>
      let A := fresh "A" in let E := fresh "E" in
      destruct (home_step K c ltac:(open_of c)) as (A & E); rewrite E; clear E
  | |- context [Mbind (send_set ?T ?v ?g) (fun _ => ?K) ?c] =>
      let c' := fresh "c" in let A := fresh "A" in let E := fresh "E" in
      destruct (set_step T v g K c ltac:(open_of c)) as (c' & A & E); rewrite E; clear E
  | |- context [Mbind (waitForVelocity dev ?w ?v velocityTolerance timeoutSeconds) (fun _ => ?K) ?c] =>
      let c' := fresh "c" in let A := fresh "A" in let E := fresh "E" in let n := fresh "n" in
      let Hn := fresh "Hn" in
      destruct (velocity_step dev w v K c ltac:(open_of c)) as (n & c' & Hn & A & E); rewrite E; clear E
  | |- context [Mbind (waitForPosition dev ?w ?x positionTolerance timeoutSeconds) (fun _ => ?K) ?c] =>
      let c' := fresh "c" in let A := fresh "A" in let E := fresh "E" in let n := fresh "n" in
      let Hn := fresh "Hn" in
      destruct (position_step dev w x K c ltac:(open_of c)) as (n & c' & Hn & A & E); rewrite E; clear E
  | |- context [Mbind (read_position dev) ?K ?c] =>
      let c' := fresh "c" in let A := fresh "A" in let E := fresh "E" in let r := fresh "r" in
      let Er := fresh "Er" in
      destruct (read_position_step dev K c ltac:(open_of c)) as (r & c' & Er & A & E); rewrite E; clear E
  end.

(** Open the port of a bring-up function (its [initializeController]
    succeeds). *)
Ltac start_bringup comPort le Hn :=
  rewrite (Mbind_ret _ _ _ _ _ (init_ok comPort le Hn)); cbv beta iota zeta delta [negb].

Ltac chain_appended :=
  repeat match goal with
         | A : appended ?c0 ?c1 ?l, B : appended ?c1 ?c2 ?l' |- _ =>
             pose proof (appended_trans c0 c1 c2 l l' A B); clear A B
         end.

(** ** checkStage *)

(** A stage that never answers: every reply is ["Timeout"], whose
    [substr(3, n)] is printable but does not parse, so [checkStage]
    returns a status whose fields were never assigned. *)
Lemma checkStage_silent :
  fst (checkStage silent_dev "COM3" true "000"%char) = ret (CheckStatus unset_status).
Proof. vm_compute. reflexivity. Qed.

(** A stage answering ["1TP1.5"] to every query: the position is read
    from six characters, the other fields from two (["1."]). *)
Lemma checkStage_answers :
  fst (checkStage (line_dev pos_reply []) "COM3" true "000"%char) =
    ret (CheckStatus (mkStageStatus (Some (15 # 10)) (Some 1) (Some 1) (Some 1) (Some 1))).
Proof. vm_compute. reflexivity. Qed.

(** ** Bring-up *)

Lemma InitializeSystem_completes (dev : nat -> ReadEnv) (comPort : string) (ws : nat -> WaitEnv) (inputCurrent : Z)
    (initialPosition velocity initialVelocity : float) (le : ascii) :
  comPort <> EmptyString ->
  exists c, InitializeSystem dev comPort true ws inputCurrent initialPosition velocity initialVelocity le =
              (ret Completed, c, led_calls inputCurrent) /\ isOpen (port c) = true.
Proof.
  unfold InitializeSystem, InitializeSystem_stage, SetVelocity, AbsoluteMove.
  intros Hn. start_bringup comPort le Hn. do 9 bringup_step dev. chain_appended.
  match goal with A : appended _ ?c _ |- _ => exists c; split; [reflexivity|exact (proj1 A)] end.
Qed.

Lemma DeinitializeSystem_completes (dev : nat -> ReadEnv) (comPort : string) (ws : nat -> WaitEnv)
    (inputCurrent : Z) (initialVelocity : float) (le : ascii) :
  comPort <> EmptyString ->
  exists c l, DeinitializeSystem dev comPort true ws inputCurrent initialVelocity le =
                (ret Completed, c, led_calls inputCurrent) /\ wire (port c) = home_line ++ l.
Proof.
  unfold DeinitializeSystem, DeinitializeSystem_stage, SetVelocity, AbsoluteMove.
  intros Hn. start_bringup comPort le Hn. do 8 bringup_step dev. chain_appended.
  match goal with A : appended _ ?c _ |- _ => destruct A as [_ W]; exists c; eexists end.
  split; [reflexivity|]. rewrite W. cbn [opened port wire app]. repeat rewrite <- app_assoc.
  reflexivity.
Qed.

(** C36: [InitializeSystem] with a port whose name is not empty and
    that opens sends, on a port that
    stays open: home; the initial velocity and its wait; the move to
    [initialPosition - 10] and its wait; the final velocity and its wait;
    the move to [initialPosition] and its wait (each wait one to 601
    query-and-resend iterations); then sets the LED current to
    [static_cast<U8>(inputCurrent)] and reads it back. *)
Theorem InitializeSystem_sequence (dev : nat -> ReadEnv) (comPort : string) (ws : nat -> WaitEnv)
    (inputCurrent : Z) (initialPosition velocity initialVelocity : float) (le : ascii) :
  comPort <> EmptyString ->
  exists n1 n2 n3 n4 c,
    InitializeSystem dev comPort true ws inputCurrent initialPosition velocity initialVelocity le =
      (ret Completed, c, [SetCurrent (to_U8 inputCurrent); GetCurrent]) /\
    isOpen (port c) = true /\ (n1 <= 600 /\ n2 <= 600 /\ n3 <= 600 /\ n4 <= 600)%nat /\
    wire (port c) =
      home_line ++
      set_line CommandType.Velocity initialVelocity ++ velocity_iterations initialVelocity n1 ++
      set_line CommandType.MoveAbs (initialPosition - 10) ++ position_iterations (initialPosition - 10) n2 ++
      set_line CommandType.Velocity velocity ++ velocity_iterations velocity n3 ++
      set_line CommandType.MoveAbs initialPosition ++ position_iterations initialPosition n4.
Proof.
  unfold InitializeSystem, InitializeSystem_stage, SetVelocity, AbsoluteMove.
  intros Hn. start_bringup comPort le Hn. do 9 bringup_step dev. chain_appended.
  match goal with A : appended _ ?c _ |- _ => destruct A as [O W]; exists n, n0, n1, n2, c end.
  split; [reflexivity|]. split; [exact O|]. split; [lia|].
  rewrite W. cbn [opened port wire app]. unfold set_line. repeat rewrite <- app_assoc. reflexivity.
Qed.

(** C7: [DeinitializeSystem] with a port whose name is not empty and
    that opens sends: home; a position query; the move to [p - 10],
    where [p] is the position in the reply the device gives to that
    query after the home command, or [0] when the reply does not parse
    (a timeout reply sends the stage to -10); its wait; the initial
    velocity and its wait; the move to 0 and its wait. It then sets the
    LED current to [static_cast<U8>(inputCurrent)], the printing
    current, not to 0. *)
Theorem DeinitializeSystem_sequence (dev : nat -> ReadEnv) (comPort : string) (ws : nat -> WaitEnv)
    (inputCurrent : Z) (initialVelocity : float) (le : ascii) :
  comPort <> EmptyString ->
  let p := match fst (GetPosition dev (snd (Home (opened le)))) with
           | inr r => match parse_reply r 6 with inr v => v | inl _ => 0%Q end
           | inl _ => 0%Q
           end in
  exists n1 n2 n3 c,
    DeinitializeSystem dev comPort true ws inputCurrent initialVelocity le =
      (ret Completed, c, [SetCurrent (to_U8 inputCurrent); GetCurrent]) /\
    isOpen (port c) = true /\ (n1 <= 600 /\ n2 <= 600 /\ n3 <= 600)%nat /\
    wire (port c) =
      home_line ++ command_pieces (SetCommand CommandType.PositionReal 0 CommandGetSetType.Get) ++
      set_line CommandType.MoveAbs (p - 10) ++ position_iterations (p - 10) n1 ++
      set_line CommandType.Velocity initialVelocity ++ velocity_iterations initialVelocity n2 ++
      set_line CommandType.MoveAbs 0 ++ position_iterations 0 n3.
Proof.
  intros Hn p. unfold DeinitializeSystem, DeinitializeSystem_stage, SetVelocity, AbsoluteMove.
  start_bringup comPort le Hn. do 8 bringup_step dev. chain_appended.
  match goal with Er : fst (GetPosition dev _) = ret ?r |- _ => subst p; rewrite Er end.
  match goal with A : appended _ ?c _ |- _ => destruct A as [O W]; exists n, n0, n1, c end.
  split; [reflexivity|]. split; [exact O|]. split; [lia|].
  rewrite W. cbn [opened port wire app]. unfold set_line. repeat rewrite <- app_assoc. reflexivity.
Qed.

Lemma InitializeSystem_sequence_witness :
  fst (fst (InitializeSystem silent_dev "COM3" true (fun _ => mkWaitEnv (fun _ => 0%nat)) 100
              (41 # 2) (3 # 2) 2 "000"%char)) = ret Completed.
Proof.
  destruct (InitializeSystem_sequence silent_dev "COM3" (fun _ => mkWaitEnv (fun _ => 0%nat)) 100
              (41 # 2) (3 # 2) 2 "000"%char ltac:(discriminate)) as (n1 & n2 & n3 & n4 & c & E & _).
  rewrite E. reflexivity.
Defined.

Lemma DeinitializeSystem_sequence_witness :
  fst (fst (DeinitializeSystem (line_dev pos_reply []) "COM3" true (fun _ => mkWaitEnv (fun _ => 0%nat)) 100
              2 "000"%char)) = ret Completed.
Proof.
  destruct (DeinitializeSystem_sequence (line_dev pos_reply []) "COM3" (fun _ => mkWaitEnv (fun _ => 0%nat)) 100
              2 "000"%char ltac:(discriminate)) as (n1 & n2 & n3 & c & E & _).
  rewrite E. reflexivity.
Defined.

End Bringup.
