(* ===== verification/Dummies.v ===== *)
(** * Dummies: the test doubles of [individualCommands.cpp]

    [checkStageDummy] and [getLightEngineStatusDummy] (lines 184-195 and
    257-268) return constant records; [InitializeSystemDummy] (lines
    1146-1200) lists the directory, sorts it and shows the first image;
    [RunFullDummy] (lines 1220-1278) shows the images one per second
    until the window closes or the list is exhausted.

    The directory listing is the list of paths after [std::sort] with
    [customSort], or [None] when [directory_iterator] throws
    [filesystem_error]. The window and the texture loads are an
    environment: [closeAt k] says whether the [k]-th event poll sees a
    close request, [loadOk i k] whether loading image [i] at iteration
    [k] succeeds. The loop of [RunFullDummy] has no bound of its own: the
    model runs it for at most [fuel] iterations. *)

From Stdlib Require Import String List ZArith QArith Lia Bool.
From S2P Require Import Prelude Bringup LightEngine.
Import ListNotations.

Module Dummies.
Import Bringup LightEngine.

(** [checkStageDummy] (lines 184-195); the [float] literals as the
    decimals they are written as. *)
Definition checkStageDummy : StageStatus :=
  mkStageStatus (Some (12345 # 100)) (Some (6789 # 100)) (Some (1011 # 100)) (Some 200) (Some (-10)).

(** [getLightEngineStatusDummy] (lines 257-268). *)
Definition getLightEngineStatusDummy : LightEngineStatus :=
  mkLEStatus 1%Z 5%Z 2%Z (Some true) (Some 25%Z).

(** What the window shows. *)
Inductive DummyEvent : Type :=
| ShowImage (path : string)   (* texture loaded, sprite drawn, window displayed *)
| CloseWindow.

(** [InitializeSystemDummy] (lines 1146-1200): the first image is
    loaded (a failed load is only logged) and the window is cleared and
    displayed; [imagePaths[0]] on an empty listing is undefined
    behaviour, reported as [InitDummyEmpty]. *)
Inductive InitDummyOutcome : Type :=
| InitDummyReturned (firstLoaded : bool)
| InitDummyFsError
| InitDummyEmpty.

Definition InitializeSystemDummy (listing : option (list string)) (loadFirst : bool) : InitDummyOutcome :=
  match listing with
  | None => InitDummyFsError
  | Some [] => InitDummyEmpty
  | Some (_ :: _) => InitDummyReturned loadFirst
  end.

(** The window and the texture loads of [RunFullDummy]. *)
Record DummyEnv : Type := mkDummyEnv {
  closeAt : nat -> bool;
  loadOk : nat -> nat -> bool
}.

Inductive DummyOutcome : Type := DummyDone | DummyFsError | DummyOutOfFuel.

(** The main loop of [RunFullDummy] (lines 1252-1274) from iteration
    [k], with the window open flag and the index [currentImageIndex].
    A close request closes the window, but the body still loads and
    shows the current image; a failed load leaves the index unchanged. *)
Fixpoint dummy_loop (e : DummyEnv) (paths : list string) (fuel k : nat) (isOpen : bool) (idx : nat)
    : DummyOutcome * list DummyEvent :=
  if isOpen && (idx <? length paths)%nat then
    match fuel with
    | O => (DummyOutOfFuel, [])
    | S f =>
        let isOpen' := if closeAt e k then false else isOpen in
        let ev := if closeAt e k then [CloseWindow] else [] in
        if loadOk e idx k then
          let '(o, evs) := dummy_loop e paths f (S k) isOpen' (S idx) in
          (o, ev ++ ShowImage (nth idx paths EmptyString) :: evs)
        else
          let '(o, evs) := dummy_loop e paths f (S k) isOpen' idx in (o, ev ++ evs)
    end
  else (DummyDone, [CloseWindow]).

(** [RunFullDummy] (lines 1220-1278). *)
Definition RunFullDummy (e : DummyEnv) (listing : option (list string)) (fuel : nat)
    : DummyOutcome * list DummyEvent :=
  match listing with
  | None => (DummyFsError, [])
  | Some paths => dummy_loop e paths fuel 0 true 0
  end.

(** Every load succeeds, the window is never closed. *)
Definition smooth_env : DummyEnv := mkDummyEnv (fun _ => false) (fun _ _ => true).

(** Image [bad] never loads, the window is never closed. *)
Definition broken_env (bad : nat) : DummyEnv :=
  mkDummyEnv (fun _ => false) (fun i _ => negb (i =? bad)%nat).

(** ** Lemmas *)

Lemma dummy_loop_S (e : DummyEnv) (paths : list string) (f k : nat) (isOpen : bool) (idx : nat) :
  dummy_loop e paths (S f) k isOpen idx =
    if isOpen && (idx <? length paths)%nat then
      let isOpen' := if closeAt e k then false else isOpen in
      let ev := if closeAt e k then [CloseWindow] else [] in
      if loadOk e idx k then
        let '(o, evs) := dummy_loop e paths f (S k) isOpen' (S idx) in
        (o, ev ++ ShowImage (nth idx paths EmptyString) :: evs)
      else
        let '(o, evs) := dummy_loop e paths f (S k) isOpen' idx in (o, ev ++ evs)
    else (DummyDone, [CloseWindow]).
Proof. reflexivity. Qed.

(** With every load succeeding and no close request, the loop shows the
    images from [idx] on, in order, and closes the window. *)
Lemma dummy_loop_smooth (paths : list string) (f k idx : nat) :
  (length paths <= idx + f)%nat ->
  dummy_loop smooth_env paths f k true idx =
    (DummyDone, map (fun i => ShowImage (nth i paths EmptyString)) (seq idx (length paths - idx))
                ++ [CloseWindow]).
Proof.
  revert k idx. induction f as [|f IH]; intros k idx H.
  - cbn [dummy_loop]. replace (length paths - idx)%nat with 0%nat by lia.
    destruct (Nat.ltb_spec idx (length paths)); [lia|reflexivity].
  - rewrite dummy_loop_S. cbn [andb closeAt loadOk smooth_env].
    destruct (Nat.ltb_spec idx (length paths)) as [Hl|Hl].
    + rewrite IH by lia. cbn zeta. rewrite app_nil_l.
      replace (length paths - idx)%nat with (S (length paths - S idx)) by lia. reflexivity.
    + replace (length paths - idx)%nat with 0%nat by lia. reflexivity.
Qed.

(** An image that never loads stops the loop at its index: however
    many iterations are run, no later image is shown and the loop has not
    ended. *)
Lemma dummy_loop_stuck (paths : list string) (bad f k : nat) :
  (bad < length paths)%nat ->
  dummy_loop (broken_env bad) paths f k true bad = (DummyOutOfFuel, []).
Proof.
  intros Hb. revert k. induction f as [|f IH]; intros k.
  - cbn [dummy_loop]. destruct (Nat.ltb_spec bad (length paths)); [reflexivity|lia].
  - rewrite dummy_loop_S. cbn [andb closeAt loadOk broken_env].
    destruct (Nat.ltb_spec bad (length paths)); [|lia].
    rewrite Nat.eqb_refl. cbn [negb]. rewrite IH. reflexivity.
Qed.

End Dummies.
