(* ===== verification/Gui.v ===== *)
(** * Gui: the worker thread, the main window's handlers, the advanced settings dialog

    Models the Qt glue of [src/demoqt/Worker.cpp] (the [Worker] object
    and its [process] slot), of the main window [demoqt]
    ([src/unnamed/part_001]: the handlers that read the parameters and
    start the worker) and of [AdvancedSettingsDialog] (the handlers of
    [src/demoqt/Worker.h], lines 106-242, which drive the controller and
    the light engine directly).

    [QString::toInt] and [QString::toFloat] are [qt_toInt] and
    [qt_toFloat]: the whole text, blanks around it allowed, must be a
    number; otherwise the result is 0 and the flag [ok] is false. The
    decimal forms are modelled ([toFloat]'s exponents, [inf] and [nan]
    are not). A text field is a string; a check box or radio button a
    boolean.

    [Worker::process] composes the models of the other files: the
    bring-up ([Bringup.InitializeSystem]), the wait for the start flag,
    [RunFull] or [RunFullDynamic] (event traces of SyncEngine.v and
    DynamicEngine.v), and the tear-down ([Bringup.DeinitializeSystem]).
    Their environments are gathered in [ProcessEnv]. *)

From Stdlib Require Import String Ascii List ZArith QArith Lia Bool.
From S2P Require Import Prelude Codec SyncEngine LayerSettingsTable DynamicEngine.
From S2P Require Import Controller StageHelpers LightEngine Bringup Dummies.
Import ListNotations.

Module Gui.
Import StageLink Controller SMC100C StageHelpers LightEngine Bringup LayerSettingsTable.
Local Open Scope ctl_scope.

(** ** Qt's number parsing *)

Definition drop_spaces (l : list ascii) : list ascii :=
  let fix go l := match l with c :: r => if is_space c then go r else l | [] => [] end in go l.

(** [QString::trimmed]. *)
Definition trimmed (s : string) : string :=
  string_of_list_ascii (rev (drop_spaces (rev (drop_spaces (list_ascii_of_string s))))).

(** [QString::toInt(&ok)] (base 10). *)
Definition qt_toInt (s : string) : Z * bool :=
  let (neg, r) := take_sign (trimmed s) in
  let (d, rest) := span_digits r in
  match d, rest with
  | EmptyString, _ => (0%Z, false)
  | _, EmptyString =>
      let v := if neg then (- digits_value d)%Z else digits_value d in
      if (INT_MIN <=? v)%Z && (v <=? INT_MAX)%Z then (v, true) else (0%Z, false)
  | _, _ => (0%Z, false)
  end.

(** [QString::toFloat(&ok)] on decimal text. *)
Definition qt_toFloat (s : string) : float * bool :=
  let (neg, r) := take_sign (trimmed s) in
  let (ip, r') := span_digits r in
  let (fp, rest) := match r' with
                    | String "." r'' => span_digits r''
                    | _ => (EmptyString, r')
                    end in
  if (String.length ip + String.length fp =? 0)%nat then (0%Q, false)
  else match rest with
       | EmptyString =>
           let num := digits_value (ip ++ fp)%string in
           (Qmake (if neg then - num else num)%Z (Pos.of_nat (Nat.pow 10 (String.length fp))), true)
       | _ => (0%Q, false)
       end.

(** ** The worker object (Worker.h, lines 15-62) *)

Record Worker : Type := mkWorker {
  readyToRunFull : bool;
  directoryPath : string;
  maxImageDisplayCount : Z;
  stepSize : float;
  mindarktime : Z;
  inputCurrent : Z;
  initialPosition : float;
  inputVelocity : float;
  isCLIP : bool;
  dlpPumpingAction : float;
  abortFlag : bool;
  initialVelocity : float;
  initialExposureCounter : Z;
  initialLayers : Z;
  orderedSettings : Table;
  dynamicFlag : bool
}.

(** [new Worker()]: the members with an initialiser get it; the others
    hold whatever [w] holds. *)
Definition Worker_new (w : Worker) : Worker :=
  mkWorker false EmptyString (maxImageDisplayCount w) (stepSize w) (mindarktime w) (inputCurrent w)
           (initialPosition w) (inputVelocity w) (isCLIP w) (dlpPumpingAction w) false
           (initialVelocity w) (initialExposureCounter w) (initialLayers w) [] false.

(** [Worker::setParameters] (Worker.cpp, lines 53-68). *)
Definition setParameters (w : Worker) (directoryPath_ : string) (maxImageDisplayCount_ : Z)
    (stepSize_ : float) (mindarktime_ inputCurrent_ : Z) (initialPosition_ inputVelocity_ : float)
    (isCLIP_ : bool) (dlpPumpingAction_ initialVelocity_ : float)
    (initialExposureCounter_ initialLayers_ : Z) : Worker :=
  mkWorker (readyToRunFull w) directoryPath_ maxImageDisplayCount_ stepSize_ mindarktime_ inputCurrent_
           initialPosition_ inputVelocity_ isCLIP_ dlpPumpingAction_ (abortFlag w) initialVelocity_
           initialExposureCounter_ initialLayers_ (orderedSettings w) (dynamicFlag w).

(** [Worker::setDynamicParameters] (lines 69-73). *)
Definition setDynamicParameters (w : Worker) (t : Table) : Worker :=
  mkWorker (readyToRunFull w) (directoryPath w) (maxImageDisplayCount w) (stepSize w) (mindarktime w)
           (inputCurrent w) (initialPosition w) (inputVelocity w) (isCLIP w) (dlpPumpingAction w)
           (abortFlag w) (initialVelocity w) (initialExposureCounter w) (initialLayers w) t true.

(** [Worker::setReadyToRunFull] (lines 174-177); the slot
    [setReadyToRunFullSlot] (Worker.h, line 37) is [ready = true]. *)
Definition setReadyToRunFull (w : Worker) (ready : bool) : Worker :=
  mkWorker ready (directoryPath w) (maxImageDisplayCount w) (stepSize w) (mindarktime w)
           (inputCurrent w) (initialPosition w) (inputVelocity w) (isCLIP w) (dlpPumpingAction w)
           (abortFlag w) (initialVelocity w) (initialExposureCounter w) (initialLayers w)
           (orderedSettings w) (dynamicFlag w).

(** [Worker::setAbortFlag] / [getAbortFlag] (lines 194-200). *)
Definition setAbortFlag (w : Worker) (shouldAbort : bool) : Worker :=
  mkWorker (readyToRunFull w) (directoryPath w) (maxImageDisplayCount w) (stepSize w) (mindarktime w)
           (inputCurrent w) (initialPosition w) (inputVelocity w) (isCLIP w) (dlpPumpingAction w)
           shouldAbort (initialVelocity w) (initialExposureCounter w) (initialLayers w)
           (orderedSettings w) (dynamicFlag w).

Definition getAbortFlag (w : Worker) : bool := abortFlag w.

(** ** The main window's handlers (part_001) *)

(** The widgets the handlers read. *)
Record MainUi : Type := mkMainUi {
  ui_inputCurrent : string;
  ui_exposureTime : string;
  ui_minimumDarktime : string;
  ui_initialPosition : string;
  ui_inputVelocity : string;
  ui_inputStepSize : string;
  ui_initialLayerNumber : string;
  ui_initialExposureTime : string;
  ui_initialVelocity : string;
  ui_pumpingLineEdit : string;
  ui_label_selectFolder : string;
  ui_label_selectDynamicFolder : string;
  ui_radioButtonCLIP : bool;
  ui_DynamicCheckBox : bool
}.

(** [demoqt::on_initializeSystemButton_clicked] (lines 209-296): the
    parameters as read (an invalid field gives 0 and is only logged),
    [initialVelocity] through [toInt], [dlpPumpingAction] kept in an
    [int]; the dynamic table read from its file ([files]) when the box
    is checked and a file is selected; the thread started unless it
    runs. The result: the worker and whether the thread was started. *)
Definition on_initializeSystemButton_clicked (ui : MainUi) (w : Worker)
    (files : string -> option string) (garbage : string -> LayerSettings) (running : bool)
    : Worker * bool :=
  let inputCurrent_ := fst (qt_toInt (ui_inputCurrent ui)) in
  let exposureTime := fst (qt_toInt (ui_exposureTime ui)) in
  let minimumDarktime := fst (qt_toInt (ui_minimumDarktime ui)) in
  let initialPosition_ := fst (qt_toFloat (ui_initialPosition ui)) in
  let inputVelocity_ := fst (qt_toFloat (ui_inputVelocity ui)) in
  let inputStepSize := fst (qt_toFloat (ui_inputStepSize ui)) in
  let initialLayers_ := fst (qt_toInt (ui_initialLayerNumber ui)) in
  let initialExposureCounter_ := fst (qt_toInt (ui_initialExposureTime ui)) in
  let initialVelocity_ := inject_Z (fst (qt_toInt (ui_initialVelocity ui))) in
  let directoryPath_ := ui_label_selectFolder ui in
  let isCLIP_ := ui_radioButtonCLIP ui in
  let dlpPumpingAction_ : Z :=
    if negb isCLIP_ then float_to_int (fst (qt_toFloat (ui_pumpingLineEdit ui))) else 0%Z in
  let w1 := setParameters w directoryPath_ exposureTime inputStepSize minimumDarktime inputCurrent_
              initialPosition_ inputVelocity_ isCLIP_ (inject_Z dlpPumpingAction_) initialVelocity_
              initialExposureCounter_ initialLayers_ in
  let filePath := ui_label_selectDynamicFolder ui in
  let w2 := if ui_DynamicCheckBox ui && negb (String.eqb filePath EmptyString)
            then setDynamicParameters w1 (readSettingsOrdered garbage (files filePath))
            else w1 in
  (w2, negb running).

(** [demoqt::on_startPrintButton_clicked] (lines 138-197): the fields
    are parsed and only logged; with a folder selected the start flag is
    set and the thread started unless it runs. *)
Definition on_startPrintButton_clicked (ui : MainUi) (w : Worker) (running : bool) : Worker * bool :=
  if String.eqb (ui_label_selectFolder ui) EmptyString then (w, false)
  else (setReadyToRunFull w true, negb running).

(** [demoqt::on_abortButton_clicked] (lines 200-204). *)
Definition on_abortButton_clicked (w : Worker) : Worker := setAbortFlag w true.

(** [demoqt::on_checkStageButton_clicked] (lines 298-315): [checkStage]
    on its own controller, opened on [globalComPort] as [comPort] holds
    it; the label shows the status. *)
Definition on_checkStageButton_clicked (dev : nat -> ReadEnv) (comPort : string) (openOk : bool)
    (LastError_ : ascii) : cpp CheckOutcome * Ctl :=
  checkStage dev comPort openOk LastError_.

(** [demoqt::on_checkLightEngineButton_clicked] (lines 347-362). *)
Definition on_checkLightEngineButton_clicked (e : LibEnv) : LightEngineStatus * list LECall :=
  getLightEngineStatus e.

(** [demoqt::on_SM12onButton_clicked] (lines 364-391): [TurnLightEngineOn],
    then, if it returned, the status of the engine. *)
Definition on_SM12onButton_clicked (e : LibEnv) : OnOutcome * option LightEngineStatus * list LECall :=
  let '(o, cs) := TurnLightEngineOn e in
  match o with
  | EngineReady => let '(st, cs') := getLightEngineStatus e in (o, Some st, cs ++ cs')
  | _ => (o, None, cs)
  end.

(** [demoqt::on_SM12offButton_clicked] (lines 393-414): the engine is
    powered off, then the label says it was turned on and shows the
    status of [getLightEngineStatusDummy], not the engine's. *)
Definition on_SM12offButton_clicked : list LECall * string * LightEngineStatus :=
  (TurnLightEngineOff, "Light Engine successfully turned on."%string, Dummies.getLightEngineStatusDummy).

(** ** [Worker::process] (Worker.cpp, lines 76-170) *)

(** The environments of the phases of a process. *)
Record ProcessEnv : Type := mkProcessEnv {
  initDev : nat -> ReadEnv;          (* the controller during InitializeSystem *)
  initPort : string;                 (* globalComPort when InitializeSystem reads it *)
  initOpen : bool;                   (* its port opens *)
  initWaits : nat -> WaitEnv;
  startLastError : ascii;            (* the file-static LastError *)
  readyAt : nat -> bool;             (* readyToRunFull as read at the k-th check *)
  readyFuel : nat;
  runEnv : RunFull.RunEnv;           (* RunFull / RunFullDynamic *)
  runFuel : nat;
  deinitDev : nat -> ReadEnv;        (* the controller during DeinitializeSystem *)
  deinitPort : string;               (* globalComPort when DeinitializeSystem reads it *)
  deinitOpen : bool;
  deinitWaits : nat -> WaitEnv
}.

(** [while (!readyToRunFull)] (lines 113-121): the index of the first
    check that sees the flag set. *)
Fixpoint wait_ready (ready : nat -> bool) (fuel k : nat) : option nat :=
  match fuel with
  | O => None
  | S f => if ready k then Some k else wait_ready ready f (S k)
  end.

(** The phases of a process, in order. *)
Inductive Phase : Type :=
| PInit (r : cpp Outcome * Ctl * list LECall)
| PRun (o : RunFull.RunOutcome) (ev : list RunFull.Event)
| PDeinit (r : cpp Outcome * Ctl * list LECall).

(** The parameters [RunFull] receives. *)
Definition run_params (w : Worker) : RunFull.RunParams :=
  RunFull.mkParams (maxImageDisplayCount w) (mindarktime w) (initialExposureCounter w) (initialLayers w).

(** The run outcomes after which [process] does not go on: the run's
    [initializeController] failed and called [exit(0)], or the empty
    listing made [imagePaths[0]] undefined. *)
Definition run_exits (o : RunFull.RunOutcome) : bool :=
  match o with RunFull.ControllerInitFailed | RunFull.EmptyDirectory => true | _ => false end.

(** What [process] needs of a print function ([RunFull],
    [RunFullDynamic]): given its parameters, a window environment and a
    number of frames, an outcome and the trace of what it did; it ends
    the program only when its controller does not open or the listing
    is empty. *)
Class PrintEngine (Params : Type) := {
  engine_run : Params -> RunFull.RunEnv -> nat -> RunFull.RunOutcome * list RunFull.Event;
  engine_continues : forall p env fuel,
    RunFull.controllerInit env = ret true -> RunFull.listing env <> Some [] ->
    run_exits (fst (engine_run p env fuel)) = false
}.

Lemma RunFull_continues (p : RunFull.RunParams) (env : RunFull.RunEnv) (fuel : nat) :
  RunFull.controllerInit env = ret true -> RunFull.listing env <> Some [] ->
  run_exits (fst (RunFull.run p env fuel)) = false.
Proof.
  intros Hc Hl. unfold RunFull.run.
  destruct (RunFull.listing env) as [[|i r]|]; try congruence; try reflexivity.
  rewrite Hc. destruct (RunFull.loop _ _ _ _ _ _) as [[]]; reflexivity.
Qed.

Lemma RunFullDynamic_continues (t : Table) (env : RunFull.RunEnv) (fuel : nat) :
  RunFull.controllerInit env = ret true -> RunFull.listing env <> Some [] ->
  run_exits (fst (RunFullDynamic.run t env fuel)) = false.
Proof.
  intros Hc Hl. unfold RunFullDynamic.run.
  destruct (RunFull.listing env) as [[|i r]|]; try congruence; try reflexivity.
  rewrite Hc. destruct (RunFullDynamic.run_groups _ _ _ _ _ _) as [[]]; reflexivity.
Qed.

#[export] Instance RunFull_engine : PrintEngine RunFull.RunParams :=
  { engine_run := RunFull.run; engine_continues := RunFull_continues }.

#[export] Instance RunFullDynamic_engine : PrintEngine Table :=
  { engine_run := RunFullDynamic.run; engine_continues := RunFullDynamic_continues }.

(** The call of [RunFull] or [RunFullDynamic] in [process] (lines
    132-163): the dynamic table when [dynamicFlag] is set. *)
Definition run_phase (env : RunFull.RunEnv) (fuel : nat) (w : Worker) : RunFull.RunOutcome * list RunFull.Event :=
  if dynamicFlag w then engine_run (orderedSettings w) env fuel
  else engine_run (run_params w) env fuel.

(** [Worker::process]: the phases run and whether [finished] is
    emitted. [InitializeSystem] throwing or calling [exit(0)] ends the
    process there (nothing in [process] or the thread catches the
    exception, so [std::terminate] ends the program), as does a start flag never seen or a run that ends
    the program; the exceptions of [RunFull]/[RunFullDynamic] are
    caught; otherwise [DeinitializeSystem] follows the run. *)
Definition process (e : ProcessEnv) (w : Worker) : list Phase * bool :=
  let ri := InitializeSystem (initDev e) (initPort e) (initOpen e) (initWaits e) (inputCurrent w)
              (initialPosition w) (inputVelocity w) (initialVelocity w) (startLastError e) in
  match ri with
  | (inr Completed, c, _) =>
      match wait_ready (fun k => readyToRunFull w || readyAt e k) (readyFuel e) 0 with
      | None => ([PInit ri], false)
      | Some _ =>
          let '(o, ev) := run_phase (runEnv e) (runFuel e) w in
          if run_exits o then ([PInit ri; PRun o ev], false) else
          let rd := DeinitializeSystem (deinitDev e) (deinitPort e) (deinitOpen e) (deinitWaits e) (inputCurrent w)
                      (initialVelocity w) (LastError c) in
          ([PInit ri; PRun o ev; PDeinit rd],
           match rd with (inr Completed, _, _) => true | _ => false end)
      end
  | _ => ([PInit ri], false)
  end.

(** ** [AdvancedSettingsDialog] (Worker.h, lines 106-242) *)

(** The widgets of the dialog. *)
Inductive Field : Type :=
| LedDefaultLabel | IntensityLineEdit | PositionLineEdit | AccelerationLineEdit
| VelocityLineEdit | PosLimitLineEdit | NegLimitLineEdit.

Definition Field_eqb (f g : Field) : bool :=
  match f, g with
  | LedDefaultLabel, LedDefaultLabel | IntensityLineEdit, IntensityLineEdit
  | PositionLineEdit, PositionLineEdit | AccelerationLineEdit, AccelerationLineEdit
  | VelocityLineEdit, VelocityLineEdit | PosLimitLineEdit, PosLimitLineEdit
  | NegLimitLineEdit, NegLimitLineEdit => true
  | _, _ => false
  end.

(** The texts of the widgets. *)
Definition DialogUi : Type := Field -> string.

(** [ui->f->setText(v)]. *)
Definition setText (ui : DialogUi) (f : Field) (v : string) : DialogUi :=
  fun g => if Field_eqb f g then v else ui g.

(** The dialog's constructor (lines 106-131): its [controller] member is
    a fresh controller, opened by [initializeController] on the port
    [globalComPort] names; [false] means [exit(0)], an exception
    (the empty name) leaves the constructor. *)
Definition AdvancedSettingsDialog_new (comPort : string) (openOk : bool) (LastError_ : ascii) : cpp bool * Ctl :=
  initializeController comPort openOk (new_controller LastError_).

(** A handler: the widgets before, the widgets after and the light-engine
    calls it makes, on the dialog's controller. *)
Definition Handler : Type := DialogUi -> M (DialogUi * list LECall).

(** [on_getLedStatus_clicked] (lines 139-145): [led] is the flag
    [GetLedDefaultStatus] gives, [None] when it fails. *)
Definition on_getLedStatus_clicked (led : option Z) : Handler :=
  fun ui => Mret (match led with
                  | Some f => setText ui LedDefaultLabel (if (f =? 0)%Z then "Off" else "On")
                  | None => ui
                  end, [GetLedDefaultStatus]).

(** [on_setLedStatus_clicked] (lines 147-164): [U8 newStatus =
    !currentStatus]; [setOk] is what [SetLedDefaultStatus] returns. *)
Definition on_setLedStatus_clicked (led : option Z) (setOk : bool) : Handler :=
  fun ui => Mret (match led with
                  | Some f =>
                      let newStatus := if (f =? 0)%Z then 1%Z else 0%Z in
                      (if setOk then setText ui LedDefaultLabel (if (newStatus =? 0)%Z then "Off" else "On")
                       else ui, [GetLedDefaultStatus; SetLedDefaultStatus newStatus])
                  | None => (ui, [GetLedDefaultStatus])
                  end).

(** [on_setIntensity_clicked] (lines 166-169):
    [static_cast<uint8_t>(text().toInt())]. *)
Definition on_setIntensity_clicked : Handler :=
  fun ui => Mret (ui, [SetCurrent (to_U8 (fst (qt_toInt (ui IntensityLineEdit))))]).

(** [on_getIntensity_clicked] (lines 171-176): [cur] is the value
    [GetCurrent] gives, [None] when it fails. *)
Definition on_getIntensity_clicked (cur : option Z) : Handler :=
  fun ui => Mret (match cur with
                  | Some v => setText ui IntensityLineEdit (string_of_Z v)
                  | None => ui
                  end, [GetCurrent]).

Section Stage.
Context (dev : nat -> ReadEnv).

(** The [get] handlers of the stage (lines 178-232): query, strip
    ['\n'] and ['\r'], show [substr(3, count)] (which throws on a reply
    shorter than 3 characters). *)
Definition show_reply (q : M string) (count : nat) (f : Field) : Handler :=
  fun ui => (r <-- q ;;
             fun c => (s <- substr (strip_crlf r) 3 count ;; ret (setText ui f s, []), c)).

(** The [set] handlers of the stage (lines 185-238): the text of a field
    through [toFloat] (0 when it is not a number), then the command. *)
Definition set_from (f : Field) (cmd : float -> M unit) : Handler :=
  fun ui => (cmd (fst (qt_toFloat (ui f))) ;;; Mret (ui, [])).

Definition on_getPosition_clicked : Handler := show_reply (GetPosition dev) 6 PositionLineEdit.
Definition on_setPosition_clicked : Handler := set_from PositionLineEdit AbsoluteMove.
Definition on_getAcceleration_clicked : Handler := show_reply (GetAcceleration dev) 2 AccelerationLineEdit.
Definition on_setAcceleration_clicked : Handler := set_from AccelerationLineEdit SetAcceleration.
Definition on_getVelocity_clicked : Handler := show_reply (GetVelocity dev) 4 VelocityLineEdit.
Definition on_setVelocity_clicked : Handler := set_from VelocityLineEdit SetVelocity.
Definition on_getPosLimit_clicked : Handler := show_reply (GetPositiveLimit dev) 2 PosLimitLineEdit.
(** [on_setPosLimit_clicked] (lines 222-225) reads [VelocityLineEdit]. *)
Definition on_setPosLimit_clicked : Handler := set_from VelocityLineEdit SetPositiveLimit.
Definition on_getNegLimit_clicked : Handler := show_reply (GetNegativeLimit dev) 2 NegLimitLineEdit.
(** [on_setNegLimit_clicked] (lines 235-238) reads [VelocityLineEdit]. *)
Definition on_setNegLimit_clicked : Handler := set_from VelocityLineEdit SetNegativeLimit.

(** [on_stopStage_clicked] (lines 240-242). *)
Definition on_stopStage_clicked : Handler := fun ui => (StopMotion ;;; Mret (ui, [])).

End Stage.

(** A main window with a fractional initial velocity and pumping
    action, DLP mode, no dynamic table. *)
Definition sample_ui : MainUi :=
  mkMainUi "100" "5" "1000" "20.5" "1.5" "0.05" "2" "8" "2.5" "0.5" "C:/print" "" false false.

(** ** Lemmas *)

(** [initialVelocity] is read with [toInt] and [dlpPumpingAction] kept
    in an [int]: the worker receives 0 for both from the texts ["2.5"]
    and ["0.5"], while the other fields keep their fractions. *)
Lemma initializeSystem_button_truncates (w : Worker) (files : string -> option string)
    (garbage : string -> LayerSettings) :
  let w' := fst (on_initializeSystemButton_clicked sample_ui w files garbage false) in
  initialVelocity w' = 0%Q /\ dlpPumpingAction w' = 0%Q /\ inputVelocity w' = (15 # 10)%Q /\
  stepSize w' = (5 # 100)%Q /\ snd (on_initializeSystemButton_clicked sample_ui w files garbage false) = true.
Proof. vm_compute. repeat split. Qed.

(** A run whose controller opens and whose listing is not empty does
    not end the program. *)
Lemma run_phase_continues (env : RunFull.RunEnv) (fuel : nat) (w : Worker) :
  RunFull.controllerInit env = ret true -> RunFull.listing env <> Some [] ->
  run_exits (fst (run_phase env fuel w)) = false.
Proof.
  intros Hc Hl. unfold run_phase. destruct (dynamicFlag w); apply engine_continues; assumption.
Qed.

(** Once [InitializeSystem] has opened its port and the start flag is
    seen, a run that does not end the program is always followed by
    [DeinitializeSystem], whatever its outcome (an aborted run
    included), and with a port that opens the tear-down completes,
    starting with a home command, and [finished] is emitted. *)
Lemma process_phases (e : ProcessEnv) (w : Worker) (k : nat) :
  initPort e <> EmptyString -> deinitPort e <> EmptyString ->
  initOpen e = true -> deinitOpen e = true ->
  RunFull.controllerInit (runEnv e) = ret true -> RunFull.listing (runEnv e) <> Some [] ->
  wait_ready (fun k => readyToRunFull w || readyAt e k) (readyFuel e) 0 = Some k ->
  exists ri o ev c l,
    process e w = ([PInit ri; PRun o ev; PDeinit (ret Completed, c, led_calls (inputCurrent w))], true) /\
    wire (port c) = home_line ++ l.
Proof.
  intros Hpi Hpd Hi Hd Hc Hl Hr. unfold process. rewrite Hi, Hd.
  destruct (InitializeSystem_completes (initDev e) (initPort e) (initWaits e) (inputCurrent w) (initialPosition w)
              (inputVelocity w) (initialVelocity w) (startLastError e) Hpi) as (c0 & E0 & _).
  rewrite E0, Hr.
  pose proof (run_phase_continues (runEnv e) (runFuel e) w Hc Hl) as X.
  destruct (run_phase _ _ _) as [o ev]. cbn in X. rewrite X.
  destruct (DeinitializeSystem_completes (deinitDev e) (deinitPort e) (deinitWaits e) (inputCurrent w)
              (initialVelocity w) (LastError c0) Hpd) as (c & l & E & W).
  rewrite E. exists (ret Completed, c0, led_calls (inputCurrent w)), o, ev, c, l. split; [reflexivity|exact W].
Qed.

(** [on_setPosLimit_clicked] sends the text of [VelocityLineEdit] as the
    positive limit, not the text of [PosLimitLineEdit]. *)
Lemma setPosLimit_reads_velocity (ui : DialogUi) (c : Ctl) :
  isOpen (port c) = true ->
  exists c', appended c c' (command_pieces (SetCommand CommandType.PositiveSoftwareLim
                                              (fst (qt_toFloat (ui VelocityLineEdit)))
                                              CommandGetSetType.Set_)) /\
             on_setPosLimit_clicked ui c = (ret (ui, []), c').
Proof.
  intros Ho.
  exact (set_step CommandType.PositiveSoftwareLim (fst (qt_toFloat (ui VelocityLineEdit)))
           CommandGetSetType.Set_ (Mret (ui, [])) c Ho).
Qed.

End Gui.
