(* ===== verification/GuiSession.v ===== *)
(** * GuiSession: the main window as a state machine over its events

    Models the state of the main window [demoqt]
    ([src/unnamed/part_002]: the class; [src/unnamed/part_001]: its
    constructor, destructor and slots) and of a session: the user's
    events and the worker's queued signals ([GuiEvent]) change the
    widgets, the terminal and status labels, the file-global
    [globalComPort], the [Worker] and its thread. [handle] is one event;
    its [GuiResult] is the next state, the program's [exit], undefined
    behaviour ([GuiUB]: a call through the dangling [worker] pointer once
    the worker has finished and [deleteLater] has destroyed it, or an
    exception leaving a slot) or a model loop out of fuel. [session s evs
    s'] is the step relation closed under sequencing: from [s] the events
    [evs] lead to [s']. [demoqt_delete] is the destructor run when
    [a.exec()] returns.

    The advanced settings dialog ([src/unnamed/part_000]) is a nested
    session: its constructor opens its own controller, then each event
    runs one handler of Gui.v on it; an exception leaving a slot ends it.

    The session composes with [Worker::process] through the port name
    ([initializeController] opens the port [globalComPort] names, and
    [portOk] says which names open) and through the start flag, which
    only the Start button sets. *)

From Stdlib Require Import String Ascii List ZArith QArith Lia Bool.
From S2P Require Import Prelude Codec SyncEngine LayerSettingsTable DynamicEngine.
From S2P Require Import Controller StageHelpers LightEngine Bringup Gui.
Import ListNotations.

Module GuiSession.
Import StageLink Controller StageHelpers LightEngine Bringup LayerSettingsTable Gui.
Local Open Scope ctl_scope.

(** ** The main window *)

(** The state of [demoqt] and of the globals it writes. *)
Record MainWindow : Type := mkMainWindow {
  mui : MainUi;                  (* the fields, labels and buttons the handlers read *)
  comPortIndex : nat;            (* ui->comPortComboBox->currentIndex() *)
  comPortDirectInput : string;   (* ui->ComPortDirectInput->text() *)
  directInputVisible : bool;     (* ComPortDirectInput and comPortPushButton *)
  pumpingVisible : bool;         (* pumpingLabel and pumpingLineEdit *)
  runUpVisible : bool;           (* RunUpGroup *)
  globalComPort : string;        (* QString globalComPort (part_001, line 54) *)
  worker : Worker;
  workerAlive : bool;            (* false once finished() has deleted it *)
  threadRunning : bool;          (* runFullThread->isRunning() *)
  terminal : list string;        (* ui->outputTerminalTextEdit, one entry per append *)
  engineLabel : option StageStatus;               (* the stage status ui->engineLabel shows *)
  lighteEngineLabel : option LightEngineStatus    (* the status ui->lighteEngineLabel shows *)
}.

(** The items the constructor adds to the COM-port box. *)
Definition comPortItems : list string := ["COM3"; "COM4"; "Direct Input"]%string.

(** [demoqt::demoqt] (part_001, lines 57-129): [ui0] is what [setupUi]
    gives the fields; the pumping widgets, the run-up group and the
    direct-input widgets are hidden; the first item added, ["COM3"], is
    current, but the slot of [currentIndexChanged] is connected after
    the items are added, so [globalComPort] keeps its initial empty
    value; a new worker, its thread not started; the terminal and the
    status labels empty. *)
Definition demoqt_new (ui0 : MainUi) (w0 : Worker) : MainWindow :=
  mkMainWindow ui0 0 EmptyString false false false EmptyString (Worker_new w0) true false [] None None.

(** [currentText()]. *)
Definition comPortText (s : MainWindow) : string := nth (comPortIndex s) comPortItems EmptyString.

Definition with_ui (s : MainWindow) (u : MainUi) : MainWindow :=
  mkMainWindow u (comPortIndex s) (comPortDirectInput s) (directInputVisible s) (pumpingVisible s)
               (runUpVisible s) (globalComPort s) (worker s) (workerAlive s) (threadRunning s)
               (terminal s) (engineLabel s) (lighteEngineLabel s).

Definition with_worker (s : MainWindow) (w : Worker) (alive running : bool) : MainWindow :=
  mkMainWindow (mui s) (comPortIndex s) (comPortDirectInput s) (directInputVisible s) (pumpingVisible s)
               (runUpVisible s) (globalComPort s) w alive running
               (terminal s) (engineLabel s) (lighteEngineLabel s).

(** The widgets that only display: the terminal and the two status labels. *)
Definition with_views (s : MainWindow) (t : list string) (st : option StageStatus)
    (le : option LightEngineStatus) : MainWindow :=
  mkMainWindow (mui s) (comPortIndex s) (comPortDirectInput s) (directInputVisible s) (pumpingVisible s)
               (runUpVisible s) (globalComPort s) (worker s) (workerAlive s) (threadRunning s) t st le.

(** The user edits the fields: every text and the dynamic check box;
    the labels only change through the file dialogs, the radio button
    through [PrintingMethod]. *)
Definition edit_ui (old new : MainUi) : MainUi :=
  mkMainUi (ui_inputCurrent new) (ui_exposureTime new) (ui_minimumDarktime new) (ui_initialPosition new)
           (ui_inputVelocity new) (ui_inputStepSize new) (ui_initialLayerNumber new)
           (ui_initialExposureTime new) (ui_initialVelocity new) (ui_pumpingLineEdit new)
           (ui_label_selectFolder old) (ui_label_selectDynamicFolder old) (ui_radioButtonCLIP old)
           (ui_DynamicCheckBox new).

Definition set_labels (u : MainUi) (folder dynamic : string) (clip : bool) : MainUi :=
  mkMainUi (ui_inputCurrent u) (ui_exposureTime u) (ui_minimumDarktime u) (ui_initialPosition u)
           (ui_inputVelocity u) (ui_inputStepSize u) (ui_initialLayerNumber u)
           (ui_initialExposureTime u) (ui_initialVelocity u) (ui_pumpingLineEdit u)
           folder dynamic clip (ui_DynamicCheckBox u).

(** [demoqt::onComPortComboBoxChanged] (lines 460-479), the current
    index being [i]. *)
Definition onComPortComboBoxChanged (s : MainWindow) (i : nat) : MainWindow :=
  let t := nth i comPortItems EmptyString in
  if String.eqb t "Direct Input" then
    mkMainWindow (mui s) i (comPortDirectInput s) true (pumpingVisible s) (runUpVisible s)
                 (globalComPort s) (worker s) (workerAlive s) (threadRunning s)
                 (terminal s) (engineLabel s) (lighteEngineLabel s)
  else
    mkMainWindow (mui s) i (comPortDirectInput s) false (pumpingVisible s) (runUpVisible s)
                 t (worker s) (workerAlive s) (threadRunning s)
                 (terminal s) (engineLabel s) (lighteEngineLabel s).

(** [demoqt::onConfirmComPortButtonClicked] (lines 481-499). *)
Definition onConfirmComPortButtonClicked (s : MainWindow) : MainWindow :=
  let selected := if String.eqb (comPortText s) "Direct Input" then comPortDirectInput s
                  else comPortText s in
  mkMainWindow (mui s) (comPortIndex s) (comPortDirectInput s) (directInputVisible s) (pumpingVisible s)
               (runUpVisible s) selected (worker s) (workerAlive s) (threadRunning s)
               (terminal s) (engineLabel s) (lighteEngineLabel s).

(** [demoqt::on_selectFolderButton_clicked] (lines 316-326): the label
    takes the dialog's result, also when it was cancelled. *)
Definition on_selectFolderButton_clicked (s : MainWindow) (chosen : string) : MainWindow :=
  with_ui s (set_labels (mui s) chosen (ui_label_selectDynamicFolder (mui s)) (ui_radioButtonCLIP (mui s))).

(** The line appended to the terminal for one entry of the table
    (line 339); [QString::number(int)] is ["%d"]. *)
Definition settings_line (p : LayerSettings * Z) : string :=
  ("Layers with settings (Intensity: " ++ string_of_Z (intensity (fst p)) ++
   ", Exposure Time: " ++ string_of_Z (exposureTime (fst p)) ++
   ", Dark Time: " ++ string_of_Z (darkTime (fst p)) ++ ") = " ++ string_of_Z (snd p))%string.

(** [demoqt::on_selectDynamicFolderButton_clicked] (lines 328-345): a
    chosen file becomes the label, its table is read with
    [readSettingsOrdered] and appended to the terminal, one line per
    entry. *)
Definition on_selectDynamicFolderButton_clicked (files : string -> option string)
    (garbage : string -> LayerSettings) (s : MainWindow) (chosen : string) : MainWindow :=
  if String.eqb chosen EmptyString then s
  else
    let s1 := with_ui s (set_labels (mui s) (ui_label_selectFolder (mui s)) chosen (ui_radioButtonCLIP (mui s))) in
    with_views s1 (terminal s ++ map settings_line (readSettingsOrdered garbage (files chosen)))
               (engineLabel s) (lighteEngineLabel s).

(** [demoqt::onPrintingMethodChanged] (lines 452-456), after the radio
    button was set to CLIP ([clip]) or DLP. *)
Definition onPrintingMethodChanged (s : MainWindow) (clip : bool) : MainWindow :=
  let u := set_labels (mui s) (ui_label_selectFolder (mui s)) (ui_label_selectDynamicFolder (mui s)) clip in
  mkMainWindow u (comPortIndex s) (comPortDirectInput s) (directInputVisible s) (negb clip)
               (runUpVisible s) (globalComPort s) (worker s) (workerAlive s) (threadRunning s)
               (terminal s) (engineLabel s) (lighteEngineLabel s).

(** The lambda connected to [RunUpSettings_Button] (lines 96-100). *)
Definition toggle_runUp (s : MainWindow) : MainWindow :=
  mkMainWindow (mui s) (comPortIndex s) (comPortDirectInput s) (directInputVisible s)
               (pumpingVisible s) (negb (runUpVisible s)) (globalComPort s) (worker s)
               (workerAlive s) (threadRunning s) (terminal s) (engineLabel s) (lighteEngineLabel s).

(** [demoqt::handleLogMessage] (lines 425-427), the slot the worker's
    [logMessage] is queued to. *)
Definition handleLogMessage (s : MainWindow) (message : string) : MainWindow :=
  with_views s (terminal s ++ [message]) (engineLabel s) (lighteEngineLabel s).

(** The result of one event: the next state, the program's
    [exit(code)], undefined behaviour (a dangling [worker], or an
    exception leaving a slot, which Qt does not support), or a loop of
    the model out of fuel. *)
Inductive GuiResult : Type :=
| GuiNext (s : MainWindow)
| GuiExit (code : Z)
| GuiUB
| GuiOutOfFuel.

(** [demoqt::on_checkStageButton_clicked] (lines 298-315) on the
    window, [r] being what [checkStage] returned: the label shows the
    status; [checkStage]'s [exit(0)] ends the program. *)
Definition checkStage_shown (s : MainWindow) (r : cpp CheckOutcome) : GuiResult :=
  match r with
  | inr (CheckStatus st) => GuiNext (with_views s (terminal s) (Some st) (lighteEngineLabel s))
  | inr CheckExit0 => GuiExit 0
  | inl _ => GuiUB
  end.

Definition LF : string := String "010" EmptyString.

(** The warning [on_SM12onButton_clicked] appends (lines 366-369). *)
Definition SM12on_message : string :=
  ("Light Engine is initializing. You cannot execute any further actions until the light engine has booted up."
   ++ LF ++ " "
   ++ "If the light engine has not been turned on in a while it might take some time. "
   ++ "Should the process take longer than five minutes it might be a good idea to unplug the system and retry the process. "
   ++ LF
   ++ "If this does not work after multiple tries consider running the process for an extended period of time. "
   ++ LF
   ++ "The light engine has shown to be sensitive to temperature. If the temperature is too low it might not turn on.")%string.

(** [demoqt::on_SM12onButton_clicked] (lines 364-391) on the window:
    the warning appended, the engine turned on (its [exit] ends the
    program), the label showing the status read after. *)
Definition SM12on_shown (s : MainWindow) (e : LibEnv) : GuiResult :=
  match on_SM12onButton_clicked e with
  | (ExitProgram c, _, _) => GuiExit c
  | (WarmupOutOfFuel, _, _) => GuiOutOfFuel
  | (EngineReady, st, _) =>
      GuiNext (with_views s (terminal s ++ [SM12on_message]) (engineLabel s)
                          (match st with Some x => Some x | None => lighteEngineLabel s end))
  end.

(** ** The advanced settings dialog (part_000) *)

(** [class AdvancedSettingsDialog]: its widgets and its controller. *)
Record AdvancedSettingsDialog : Type := mkDialog {
  dui : DialogUi;
  controller : Ctl
}.

(** What the user does in the dialog: edit a field or press a button
    (with what the light-engine library answers, where the handler asks). *)
Inductive DialogEvent : Type :=
| DEdit (f : Field) (t : string)
| DGetLedStatus (led : option Z)
| DSetLedStatus (led : option Z) (setOk : bool)
| DSetIntensity
| DGetIntensity (cur : option Z)
| DGetPosition | DSetPosition | DGetAcceleration | DSetAcceleration
| DGetVelocity | DSetVelocity | DGetPosLimit | DSetPosLimit | DGetNegLimit | DSetNegLimit
| DStopStage.

(** The [connect] calls of the constructor (Worker.h, lines 115-130):
    each button to its slot. *)
Definition dialog_handler (dev : nat -> ReadEnv) (ev : DialogEvent) : Handler :=
  match ev with
  | DEdit f t => fun ui => Mret (setText ui f t, [])
  | DGetLedStatus led => on_getLedStatus_clicked led
  | DSetLedStatus led ok => on_setLedStatus_clicked led ok
  | DSetIntensity => on_setIntensity_clicked
  | DGetIntensity cur => on_getIntensity_clicked cur
  | DGetPosition => on_getPosition_clicked dev
  | DSetPosition => on_setPosition_clicked
  | DGetAcceleration => on_getAcceleration_clicked dev
  | DSetAcceleration => on_setAcceleration_clicked
  | DGetVelocity => on_getVelocity_clicked dev
  | DSetVelocity => on_setVelocity_clicked
  | DGetPosLimit => on_getPosLimit_clicked dev
  | DSetPosLimit => on_setPosLimit_clicked
  | DGetNegLimit => on_getNegLimit_clicked dev
  | DSetNegLimit => on_setNegLimit_clicked
  | DStopStage => on_stopStage_clicked
  end.

(** The buttons whose object name matches their slot's
    [on_<name>_clicked]: [setupUi] connects them by name
    ([connectSlotsByName]) and the constructor connects them again, so a
    click runs the slot twice. The LED and stop buttons' names differ
    from their slots' ([getLedDefault_Button], [setLedDefaultButton],
    [stopStageButton]). *)
Definition connected_twice (ev : DialogEvent) : bool :=
  match ev with
  | DSetIntensity | DGetIntensity _ | DGetPosition | DSetPosition | DGetAcceleration
  | DSetAcceleration | DGetVelocity | DSetVelocity | DGetPosLimit | DSetPosLimit
  | DGetNegLimit | DSetNegLimit => true
  | _ => false
  end.

(** One event: the slot, run a second time for a button connected twice. *)
Definition click (dev : nat -> ReadEnv) (ev : DialogEvent) : Handler :=
  fun ui =>
    p <-- dialog_handler dev ev ui ;;
    if connected_twice ev then
      q <-- dialog_handler dev ev (fst p) ;; Mret (fst q, snd p ++ snd q)
    else Mret p.

(** [dialog.exec()]: the events in order on the dialog's controller; an
    exception leaving a slot ends the dialog. *)
Fixpoint dialog_events (dev : nat -> ReadEnv) (evs : list DialogEvent) (ui : DialogUi)
    : M (DialogUi * list LECall) :=
  match evs with
  | [] => Mret (ui, [])
  | ev :: r =>
      p <-- click dev ev ui ;;
      q <-- dialog_events dev r (fst p) ;;
      Mret (fst q, snd p ++ snd q)
  end.

(** How the dialog ends. *)
Inductive DialogOutcome : Type :=
| DialogExit0                                   (* the constructor's exit(0) *)
| DialogClosed (ui : DialogUi) (calls : list LECall)
| DialogThrew (e : cpp_exn).

(** [demoqt::on_openAdvancedSettings_clicked] (part_001, lines 435-441):
    construct the dialog on a fresh controller, run its events. *)
Definition on_openAdvancedSettings_clicked (dev : nat -> ReadEnv) (comPort : string) (openOk : bool) (le : ascii)
    (ui0 : DialogUi) (evs : list DialogEvent) : DialogOutcome * Ctl :=
  match AdvancedSettingsDialog_new comPort openOk le with
  | (inr true, c) =>
      match dialog_events dev evs ui0 c with
      | (inr (ui, cs), c') => (DialogClosed ui cs, c')
      | (inl e, c') => (DialogThrew e, c')
      end
  | (inr false, c) => (DialogExit0, c)
  | (inl e, c) => (DialogThrew e, c)
  end.


(** [demoqt::on_openAdvancedSettings_clicked] on the window: the dialog
    writes nothing of the main window; its [exit(0)] ends the program. *)
Definition dialog_shown (s : MainWindow) (o : DialogOutcome) : GuiResult :=
  match o with
  | DialogClosed _ _ => GuiNext s
  | DialogExit0 => GuiExit 0
  | DialogThrew _ => GuiUB
  end.

(** ** Sessions of the main window *)

(** What the user does, and the worker's signals queued to the window.
    The events of the buttons that talk to a device carry what the
    device answers. *)
Inductive GuiEvent : Type :=
| Edit (u : MainUi)                (* types into the fields *)
| SelectFolder (chosen : string)   (* the folder dialog's result, empty when cancelled *)
| SelectDynamicFolder (chosen : string)
| ChooseComPort (i : nat)          (* picks the i-th item of the COM-port box *)
| ClickConfirmComPort              (* the confirm button, when it is shown *)
| TypeDirectInput (t : string)
| PrintingMethod (clip : bool)     (* the CLIP (true) or DLP (false) radio button *)
| ToggleRunUp
| ClickInitialize
| ClickStart
| ClickAbort
| ClickCheckStage (dev : nat -> ReadEnv) (openOk : bool) (le : ascii)
| ClickCheckLightEngine (e : LibEnv)
| ClickSM12on (e : LibEnv)
| ClickSM12off
| OpenAdvancedSettings (dev : nat -> ReadEnv) (openOk : bool) (le : ascii) (ui0 : DialogUi)
                       (evs : list DialogEvent)
| OpenInstructions                 (* a modal dialog that reads and writes nothing *)
| LogMessage (message : string)    (* the worker emitted logMessage *)
| WorkerFinished.                  (* process() emitted finished() *)

Section Session.
Context (files : string -> option string) (garbage : string -> LayerSettings).

(** One event. The handlers that call a method of [worker] are
    undefined once the worker has been deleted. *)
Definition handle (s : MainWindow) (ev : GuiEvent) : GuiResult :=
  match ev with
  | Edit u => GuiNext (with_ui s (edit_ui (mui s) u))
  | SelectFolder chosen => GuiNext (on_selectFolderButton_clicked s chosen)
  | SelectDynamicFolder chosen => GuiNext (on_selectDynamicFolderButton_clicked files garbage s chosen)
  | ChooseComPort i =>
      (* currentIndexChanged is emitted only when the index changes *)
      if (i <? length comPortItems)%nat && negb (i =? comPortIndex s)%nat
      then GuiNext (onComPortComboBoxChanged s i) else GuiNext s
  | TypeDirectInput t =>
      GuiNext (mkMainWindow (mui s) (comPortIndex s) t (directInputVisible s) (pumpingVisible s)
                            (runUpVisible s) (globalComPort s) (worker s) (workerAlive s) (threadRunning s)
                            (terminal s) (engineLabel s) (lighteEngineLabel s))
  | ClickConfirmComPort =>
      if directInputVisible s then GuiNext (onConfirmComPortButtonClicked s) else GuiNext s
  | PrintingMethod clip => GuiNext (onPrintingMethodChanged s clip)
  | ToggleRunUp => GuiNext (toggle_runUp s)
  | ClickInitialize =>
      if workerAlive s then
        let '(w', started) :=
          on_initializeSystemButton_clicked (mui s) (worker s) files garbage (threadRunning s) in
        GuiNext (with_worker s w' true (threadRunning s || started))
      else GuiUB
  | ClickStart =>
      if String.eqb (ui_label_selectFolder (mui s)) EmptyString then GuiNext s
      else if workerAlive s then
        let '(w', started) := on_startPrintButton_clicked (mui s) (worker s) (threadRunning s) in
        GuiNext (with_worker s w' true (threadRunning s || started))
      else GuiUB
  | ClickAbort =>
      if workerAlive s then GuiNext (with_worker s (on_abortButton_clicked (worker s)) true (threadRunning s))
      else GuiUB
  | ClickCheckStage dev ok le =>
      checkStage_shown s (fst (on_checkStageButton_clicked dev (globalComPort s) ok le))
  | ClickCheckLightEngine e =>
      GuiNext (with_views s (terminal s) (engineLabel s) (Some (fst (on_checkLightEngineButton_clicked e))))
  | ClickSM12on e => SM12on_shown s e
  | ClickSM12off =>
      let '(_, _, st) := on_SM12offButton_clicked in
      GuiNext (with_views s (terminal s) (engineLabel s) (Some st))
  | OpenAdvancedSettings dev ok le ui0 evs =>
      dialog_shown s (fst (on_openAdvancedSettings_clicked dev (globalComPort s) ok le ui0 evs))
  | OpenInstructions => GuiNext s
  | LogMessage m => GuiNext (handleLogMessage s m)
  | WorkerFinished =>
      (* finished() is connected to deleteLater and to runFullFinished,
         which only prints; the thread's event loop keeps running.
         deleteLater runs in runFullThread's event loop once process has
         returned, unordered with the window's handling of the queued
         finished(); the model deletes the worker at that handling, so a
         handler that runs before it still sees a live worker, whereas
         the code may already have destroyed it (the model's undefined
         behaviour is a lower bound). *)
      if threadRunning s && workerAlive s then GuiNext (with_worker s (worker s) false true) else GuiNext s
  end.

(** The events [evs] lead from [s] to [s']. *)
Inductive session : MainWindow -> list GuiEvent -> MainWindow -> Prop :=
| session_nil (s : MainWindow) : session s [] s
| session_cons (s s1 s2 : MainWindow) (ev : GuiEvent) (evs : list GuiEvent) :
    handle s ev = GuiNext s1 -> session s1 evs s2 -> session s (ev :: evs) s2.

(** The session as a function, for evaluation: the first event that
    does not lead to a state ends it. *)
Fixpoint run_events (s : MainWindow) (evs : list GuiEvent) : GuiResult :=
  match evs with
  | [] => GuiNext s
  | ev :: r => match handle s ev with GuiNext s1 => run_events s1 r | o => o end
  end.

End Session.

(** [main] (main.cpp): the window constructed, then the event loop
    [a.exec()] runs the user's events. *)
Definition app_main (files : string -> option string) (garbage : string -> LayerSettings)
    (ui0 : MainUi) (w0 : Worker) (evs : list GuiEvent) : GuiResult :=
  run_events files garbage (demoqt_new ui0 w0) evs.

(** [demoqt::startRunFullProcess] (part_001, lines 417-424), a slot no
    signal is connected to: start the thread unless it runs. *)
Definition startRunFullProcess (s : MainWindow) : MainWindow :=
  with_worker s (worker s) (workerAlive s) true.

(** How [demoqt::~demoqt] (lines 130-135) ends, once [a.exec()] has
    returned and [main] destroys the window. *)
Inductive DeleteOutcome : Type :=
| Deleted           (* the thread is not running, or runs only its event loop *)
| JoinsProcess.     (* [wait()] returns only when [process] returns *)

(** [runFullThread->quit()] ends the thread's event loop, but only when
    the slot it runs returns: while the worker has not finished, its
    [process] is that slot, and [wait()] waits for it. *)
Definition demoqt_delete (s : MainWindow) : DeleteOutcome :=
  if threadRunning s && workerAlive s then JoinsProcess else Deleted.

(** Whether an event touches the COM-port selection. *)
Definition port_event (ev : GuiEvent) : bool :=
  match ev with ChooseComPort _ | ClickConfirmComPort => true | _ => false end.

(** The environment of [process] in which both [initializeController]
    calls read [globalComPort] as the window [s] holds it, and the
    bring-up's port opens when [portOk] says a device has that name. *)
Definition port_env (portOk : string -> bool) (s : MainWindow) (e : ProcessEnv) : ProcessEnv :=
  mkProcessEnv (initDev e) (globalComPort s) (portOk (globalComPort s)) (initWaits e) (startLastError e)
               (readyAt e) (readyFuel e) (runEnv e) (runFuel e) (deinitDev e) (globalComPort s)
               (deinitOpen e) (deinitWaits e).

(** The environment of [process] once nothing sets [readyToRunFull]
    any more, its wait loop run for [fuel] checks. *)
Definition never_ready (e : ProcessEnv) (fuel : nat) : ProcessEnv :=
  mkProcessEnv (initDev e) (initPort e) (initOpen e) (initWaits e) (startLastError e) (fun _ => false)
               fuel (runEnv e) (runFuel e) (deinitDev e) (deinitPort e) (deinitOpen e) (deinitWaits e).

(** The events that set the start flag or report the end of [process]. *)
Definition start_or_finish (ev : GuiEvent) : bool :=
  match ev with ClickStart | WorkerFinished => true | _ => false end.

(** ** Concrete sessions *)

(** A worker whose uninitialised members hold zeros. *)
Definition sample_worker : Worker :=
  mkWorker false EmptyString 0 0 0 0 0 0 true 0 false 0 0 0 [] false.

Definition no_files (_ : string) : option string := None.
Definition zero_settings (_ : string) : LayerSettings := mkLayerSettings 0 0 0.

(** A process environment: a silent stage, an empty directory listing. *)
Definition sample_env : ProcessEnv :=
  mkProcessEnv silent_dev "COM3" true (fun _ => mkWaitEnv (fun _ => 0%nat)) "000"%char (fun _ => true) 1
               (RunFull.mkEnv None true (ret true) (fun _ => RunFull.swap_input)) 1
               silent_dev "COM3" true (fun _ => mkWaitEnv (fun _ => 0%nat)).

(** Only the port COM3 exists. *)
Definition com3_only (name : string) : bool := String.eqb name "COM3".

(** ** Lemmas *)

Lemma session_run (files : string -> option string) (garbage : string -> LayerSettings)
    (s s' : MainWindow) (evs : list GuiEvent) :
  run_events files garbage s evs = GuiNext s' <-> session files garbage s evs s'.
Proof.
  split.
  - revert s. induction evs as [|ev evs IH]; intros s H; cbn in H.
    + injection H as <-. constructor.
    + destruct (handle files garbage s ev) as [s1| | |] eqn:E; try discriminate.
      econstructor; [exact E|]. apply IH, H.
  - induction 1 as [s|s s1 s2 ev evs E _ IH]; [reflexivity|]. cbn. rewrite E. exact IH.
Qed.

(** A property every step allowed by [ok] keeps holds along a session
    of such steps. *)
Lemma session_invariant (files : string -> option string) (garbage : string -> LayerSettings)
    (P : MainWindow -> Prop) (ok : GuiEvent -> bool) :
  (forall s s1 ev, ok ev = true -> handle files garbage s ev = GuiNext s1 -> P s -> P s1) ->
  forall s evs s', session files garbage s evs s' -> forallb ok evs = true -> P s -> P s'.
Proof.
  intros Hstep s evs s' Hs. induction Hs as [s|s s1 s2 ev evs E _ IH]; intros Hf Hp; [exact Hp|].
  cbn in Hf. apply andb_true_iff in Hf as [He Hf]. exact (IH Hf (Hstep s s1 ev He E Hp)).
Qed.

Lemma with_views_eta (s : MainWindow) : with_views s (terminal s) (engineLabel s) (lighteEngineLabel s) = s.
Proof. destruct s; reflexivity. Qed.

(** The slots that only display leave everything else as it was. *)
Lemma checkStage_shown_views (s s1 : MainWindow) (r : cpp CheckOutcome) :
  checkStage_shown s r = GuiNext s1 -> exists t st le, s1 = with_views s t st le.
Proof. unfold checkStage_shown. intros H. destruct r as [|[|st]]; inversion H; eauto. Qed.

Lemma SM12on_shown_views (s s1 : MainWindow) (e : LibEnv) :
  SM12on_shown s e = GuiNext s1 -> exists t st le, s1 = with_views s t st le.
Proof.
  unfold SM12on_shown. intros H. destruct (on_SM12onButton_clicked e) as [[[] st] cs]; inversion H; eauto.
Qed.

Lemma dialog_shown_views (s s1 : MainWindow) (o : DialogOutcome) :
  dialog_shown s o = GuiNext s1 -> exists t st le, s1 = with_views s t st le.
Proof. unfold dialog_shown. intros H. destruct o; inversion H. rewrite <- (with_views_eta s1). eauto. Qed.

(** Split [handle s ev = GuiNext s1] into the handlers' branches. *)
Ltac handle_cases H :=
  cbn [handle] in H;
  lazymatch type of H with
  | checkStage_shown _ _ = _ => apply checkStage_shown_views in H as (? & ? & ? & ->)
  | SM12on_shown _ _ = _ => apply SM12on_shown_views in H as (? & ? & ? & ->)
  | dialog_shown _ _ = _ => apply dialog_shown_views in H as (? & ? & ? & ->)
  | _ => repeat match type of H with context [match ?x with _ => _ end] => destruct x eqn:? end;
         first [discriminate H | injection H as <-]
  end.

Lemma handle_keeps_port (files : string -> option string) (garbage : string -> LayerSettings)
    (s s1 : MainWindow) (ev : GuiEvent) :
  port_event ev = false -> handle files garbage s ev = GuiNext s1 -> globalComPort s1 = globalComPort s.
Proof.
  intros Hp H. destruct ev; cbn in Hp; try discriminate Hp; handle_cases H;
    unfold on_selectDynamicFolderButton_clicked; repeat case_if; reflexivity.
Qed.

(** A deleted worker stays deleted, a started thread keeps running. *)
Lemma handle_lifecycle (files : string -> option string) (garbage : string -> LayerSettings)
    (s s1 : MainWindow) (ev : GuiEvent) :
  handle files garbage s ev = GuiNext s1 ->
  (workerAlive s = false -> workerAlive s1 = false) /\ (threadRunning s = true -> threadRunning s1 = true).
Proof.
  intros H. destruct ev; handle_cases H;
    unfold onComPortComboBoxChanged, onConfirmComPortButtonClicked, on_selectDynamicFolderButton_clicked;
    repeat case_if; cbn;
    split; intros; try reflexivity; try assumption; try discriminate; apply orb_true_intro; left; assumption.
Qed.

(** Only [WorkerFinished] deletes the worker. *)
Lemma handle_keeps_alive (files : string -> option string) (garbage : string -> LayerSettings)
    (s s1 : MainWindow) (ev : GuiEvent) :
  ev <> WorkerFinished -> handle files garbage s ev = GuiNext s1 -> workerAlive s1 = workerAlive s.
Proof.
  intros Hf H. destruct ev; try congruence; handle_cases H;
    unfold onComPortComboBoxChanged, onConfirmComPortButtonClicked, on_selectDynamicFolderButton_clicked;
    repeat case_if; cbn; congruence.
Qed.

(** Initialising starts the thread, whether or not it ran. *)
Lemma handle_initialize_starts (files : string -> option string) (garbage : string -> LayerSettings)
    (s s1 : MainWindow) :
  handle files garbage s ClickInitialize = GuiNext s1 -> threadRunning s1 = true.
Proof.
  intros H. handle_cases H. cbn. unfold on_initializeSystemButton_clicked in *. cbv zeta in *.
  match goal with E : (_, _) = (_, _) |- _ => injection E as _ <- end.
  destruct (threadRunning s); reflexivity.
Qed.

(** Only [ClickStart] sets the start flag. *)
Lemma handle_keeps_ready (files : string -> option string) (garbage : string -> LayerSettings)
    (s s1 : MainWindow) (ev : GuiEvent) :
  ev <> ClickStart -> handle files garbage s ev = GuiNext s1 ->
  readyToRunFull (worker s1) = readyToRunFull (worker s).
Proof.
  intros Hst H. destruct ev; try congruence; handle_cases H;
    unfold onComPortComboBoxChanged, onConfirmComPortButtonClicked, on_selectDynamicFolderButton_clicked;
    repeat case_if; cbn; try reflexivity.
  unfold on_initializeSystemButton_clicked in *. cbv zeta in *.
  match goal with E : (_, _) = (_, _) |- _ => injection E as <- _ end.
  case_if; reflexivity.
Qed.

Lemma session_keeps_port (files : string -> option string) (garbage : string -> LayerSettings)
    (s s' : MainWindow) (evs : list GuiEvent) :
  session files garbage s evs s' -> forallb (fun ev => negb (port_event ev)) evs = true ->
  globalComPort s' = globalComPort s.
Proof.
  intros Hs Hf. apply (session_invariant files garbage (fun x => globalComPort x = globalComPort s)
                         (fun ev => negb (port_event ev))) with (s := s) (evs := evs); auto.
  intros x x1 ev He E <-. apply negb_true_iff in He. exact (handle_keeps_port files garbage x x1 ev He E).
Qed.

Lemma session_lifecycle (files : string -> option string) (garbage : string -> LayerSettings)
    (s s' : MainWindow) (evs : list GuiEvent) :
  session files garbage s evs s' ->
  (workerAlive s = false -> workerAlive s' = false) /\ (threadRunning s = true -> threadRunning s' = true).
Proof.
  induction 1 as [s|s s1 s2 ev evs E _ IH]; [tauto|].
  destruct (handle_lifecycle files garbage s s1 ev E). tauto.
Qed.

(** A session with [ClickInitialize] ends with the thread running. *)
Lemma session_initialized (files : string -> option string) (garbage : string -> LayerSettings)
    (s s' : MainWindow) (evs : list GuiEvent) :
  session files garbage s evs s' -> In ClickInitialize evs -> threadRunning s' = true.
Proof.
  induction 1 as [s|s s1 s2 ev evs E Hs IH]; [intros []|].
  intros [->|Hin]; [|exact (IH Hin)].
  apply (proj2 (session_lifecycle files garbage s1 s2 evs Hs)).
  exact (handle_initialize_starts files garbage s s1 E).
Qed.

(** Once the worker has finished, it is deleted and the main window
    keeps the dangling pointer: in every later state of the session,
    the abort and initialise buttons call a method of the deleted
    object. *)
Lemma finished_worker_dangling (files : string -> option string) (garbage : string -> LayerSettings)
    (s s' : MainWindow) (evs : list GuiEvent) :
  session files garbage s evs s' -> workerAlive s = false ->
  handle files garbage s' ClickAbort = GuiUB /\ handle files garbage s' ClickInitialize = GuiUB.
Proof.
  intros Hs Ha. destruct (session_lifecycle _ _ _ _ _ Hs) as [A _]. specialize (A Ha).
  cbn. rewrite A. split; reflexivity.
Qed.

(** A print, its end, then the abort button: undefined behaviour. *)
Lemma abort_after_run_ub :
  run_events no_files zero_settings (demoqt_new sample_ui sample_worker)
             [SelectFolder "C:/print"; ClickInitialize; ClickStart; WorkerFinished; ClickAbort] = GuiUB.
Proof. vm_compute. reflexivity. Qed.

(** The window's slots all return: the only loop among them, the
    warm-up of [TurnLightEngineOn], ends within its fuel. *)
Lemma SM12on_shown_total (s : MainWindow) (e : LibEnv) : SM12on_shown s e <> GuiOutOfFuel.
Proof.
  unfold SM12on_shown, on_SM12onButton_clicked, TurnLightEngineOn, warmup_fuel.
  pose proof (warmup_total e (10 * Z.to_nat (maxDuration + 1)) 0 ltac:(vm_compute; discriminate)) as T.
  destruct (warmup e _ 0) as [[] cs]; cbn in T |- *; [|discriminate|congruence].
  destruct (getLightEngineStatus e). discriminate.
Qed.

Lemma handle_total (files : string -> option string) (garbage : string -> LayerSettings)
    (s : MainWindow) (ev : GuiEvent) :
  handle files garbage s ev <> GuiOutOfFuel.
Proof.
  destruct ev; cbn [handle]; try apply SM12on_shown_total;
    try (unfold checkStage_shown; destruct (fst _) as [|[]]);
    try (unfold dialog_shown; destruct (fst _));
    repeat match goal with |- context [match ?x with _ => _ end] => destruct x end; discriminate.
Qed.

Lemma run_events_total (files : string -> option string) (garbage : string -> LayerSettings)
    (s : MainWindow) (evs : list GuiEvent) :
  run_events files garbage s evs <> GuiOutOfFuel.
Proof.
  revert s. induction evs as [|ev evs IH]; intros s; cbn; [discriminate|].
  pose proof (handle_total files garbage s ev). destruct (handle files garbage s ev); congruence.
Qed.

(** The start flag's wait loop never ends when the flag is never seen. *)
Lemma wait_ready_never (ready : nat -> bool) (fuel k : nat) :
  (forall j, ready j = false) -> wait_ready ready fuel k = None.
Proof.
  intros H. revert k. induction fuel as [|f IH]; intros k; cbn; [reflexivity|]. rewrite H. apply IH.
Qed.

(** [InitializeSystem] on the empty port name: [Serial::open] throws
    [std::invalid_argument] before touching a device, nothing is sent
    and no light-engine call is made. *)
Lemma InitializeSystem_port_empty (dev : nat -> ReadEnv) (openOk : bool) (ws : nat -> WaitEnv)
    (inputCurrent : Z) (initialPosition velocity initialVelocity : float) (le : ascii) :
  InitializeSystem dev EmptyString openOk ws inputCurrent initialPosition velocity initialVelocity le =
    (throw InvalidArgument, new_controller le, []).
Proof. reflexivity. Qed.

(** C10: in every session of the main window in which the user never
    changes the COM-port box nor confirms a typed port, [globalComPort]
    is still the empty string the program starts with (the box shows
    ["COM3"], but its slot is connected after the item is added), so the
    worker's [InitializeSystem] hands [""] to [Serial::open], which
    throws [std::invalid_argument] before touching any device: nothing
    is sent, no light-engine call is made, and the exception leaves
    [process] (the [catch (IOException&)] of [SMC100CInit] does not
    match it and [process] has no handler around [InitializeSystem]), so
    the worker thread ends the program through [std::terminate]. This
    holds whichever devices exist. *)
Theorem default_port_throws (files : string -> option string) (garbage : string -> LayerSettings)
    (ui0 : MainUi) (w0 : Worker) (evs : list GuiEvent) (s : MainWindow)
    (portOk : string -> bool) (e : ProcessEnv) :
  session files garbage (demoqt_new ui0 w0) evs s ->
  forallb (fun ev => negb (port_event ev)) evs = true ->
  process (port_env portOk s e) (worker s) =
    ([PInit (throw InvalidArgument, new_controller (startLastError e), [])], false).
Proof.
  intros Hs Hf. pose proof (session_keeps_port _ _ _ _ _ Hs Hf) as G. cbn in G.
  unfold process, port_env. cbn [initDev initPort initOpen initWaits startLastError].
  rewrite G, InitializeSystem_port_empty. reflexivity.
Qed.

Lemma default_port_throws_witness :
  session no_files zero_settings (demoqt_new sample_ui sample_worker)
          [SelectFolder "C:/print"; ClickInitialize; ClickStart]
          (match run_events no_files zero_settings (demoqt_new sample_ui sample_worker)
                            [SelectFolder "C:/print"; ClickInitialize; ClickStart] with
           | GuiNext s => s | _ => demoqt_new sample_ui sample_worker end) /\
  process (port_env com3_only
             (match run_events no_files zero_settings (demoqt_new sample_ui sample_worker)
                               [SelectFolder "C:/print"; ClickInitialize; ClickStart] with
              | GuiNext s => s | _ => demoqt_new sample_ui sample_worker end) sample_env)
          (worker (match run_events no_files zero_settings (demoqt_new sample_ui sample_worker)
                                    [SelectFolder "C:/print"; ClickInitialize; ClickStart] with
                   | GuiNext s => s | _ => demoqt_new sample_ui sample_worker end)) =
    ([PInit (throw InvalidArgument, new_controller "000"%char, [])], false).
Proof.
  assert (H : session no_files zero_settings (demoqt_new sample_ui sample_worker)
                [SelectFolder "C:/print"; ClickInitialize; ClickStart]
                (match run_events no_files zero_settings (demoqt_new sample_ui sample_worker)
                                  [SelectFolder "C:/print"; ClickInitialize; ClickStart] with
                 | GuiNext s => s | _ => demoqt_new sample_ui sample_worker end))
    by (apply session_run; vm_compute; reflexivity).
  split; [exact H|].
  exact (default_port_throws no_files zero_settings sample_ui sample_worker _ _ com3_only sample_env
           H eq_refl).
Defined.

(** C30: closing the main window after Initialize and before Start
    hangs the program. In a session from the constructor with a click on
    Initialize, no click on Start and no [finished] signal (the abort
    button allowed), in which [globalComPort] names a device that opens,
    the destructor's [wait()] joins [process]; there [InitializeSystem]
    runs to its end (the stage homed and moved, the light engine
    switched on) and returns, and then, the start flag set by nothing any
    more, however long the wait loop runs, [process] neither reaches
    [RunFull] nor emits [finished]: [wait()] never returns. *)
Theorem close_before_start_hangs (files : string -> option string) (garbage : string -> LayerSettings)
    (ui0 : MainUi) (w0 : Worker) (evs : list GuiEvent) (s : MainWindow)
    (portOk : string -> bool) (e : ProcessEnv) :
  session files garbage (demoqt_new ui0 w0) evs s ->
  In ClickInitialize evs -> forallb (fun ev => negb (start_or_finish ev)) evs = true ->
  globalComPort s <> EmptyString -> portOk (globalComPort s) = true ->
  demoqt_delete s = JoinsProcess /\
  forall fuel, exists c,
    process (never_ready (port_env portOk s e) fuel) (worker s) =
      ([PInit (ret Completed, c, led_calls (inputCurrent (worker s)))], false).
Proof.
  intros Hs Hin Hf Hn Hp.
  assert (A : workerAlive s = true).
  { refine (session_invariant files garbage (fun x => workerAlive x = true) _ _ _ _ _ Hs Hf eq_refl).
    intros x x1 ev He E Hx. rewrite <- Hx. apply (handle_keeps_alive files garbage x x1 ev); [|exact E].
    intros ->. discriminate He. }
  assert (R : readyToRunFull (worker s) = false).
  { refine (session_invariant files garbage (fun x => readyToRunFull (worker x) = false) _ _ _ _ _ Hs Hf eq_refl).
    intros x x1 ev He E Hx. rewrite <- Hx. apply (handle_keeps_ready files garbage x x1 ev); [|exact E].
    intros ->. discriminate He. }
  split.
  - unfold demoqt_delete. rewrite A, (session_initialized files garbage _ _ _ Hs Hin). reflexivity.
  - intros fuel. unfold process, never_ready, port_env.
    cbn [initDev initPort initOpen initWaits startLastError readyAt readyFuel]. rewrite Hp.
    destruct (InitializeSystem_completes (initDev e) (globalComPort s) (initWaits e) (inputCurrent (worker s))
                (initialPosition (worker s)) (inputVelocity (worker s)) (initialVelocity (worker s))
                (startLastError e) Hn) as (c & E & _).
    rewrite E, wait_ready_never; [exists c; reflexivity|]. intros j. rewrite R. reflexivity.
Qed.

Lemma close_before_start_hangs_witness :
  session no_files zero_settings (demoqt_new sample_ui sample_worker)
          [ChooseComPort 1; ClickInitialize; ClickAbort]
          (match run_events no_files zero_settings (demoqt_new sample_ui sample_worker)
                            [ChooseComPort 1; ClickInitialize; ClickAbort] with
           | GuiNext s => s | _ => demoqt_new sample_ui sample_worker end) /\
  demoqt_delete (match run_events no_files zero_settings (demoqt_new sample_ui sample_worker)
                                  [ChooseComPort 1; ClickInitialize; ClickAbort] with
                 | GuiNext s => s | _ => demoqt_new sample_ui sample_worker end) = JoinsProcess.
Proof.
  assert (H : session no_files zero_settings (demoqt_new sample_ui sample_worker)
                [ChooseComPort 1; ClickInitialize; ClickAbort]
                (match run_events no_files zero_settings (demoqt_new sample_ui sample_worker)
                                  [ChooseComPort 1; ClickInitialize; ClickAbort] with
                 | GuiNext s => s | _ => demoqt_new sample_ui sample_worker end))
    by (apply session_run; vm_compute; reflexivity).
  split; [exact H|].
  exact (proj1 (close_before_start_hangs no_files zero_settings sample_ui sample_worker _ _
                  (fun _ => true) sample_env H (or_intror (or_introl eq_refl)) eq_refl
                  ltac:(vm_compute; discriminate) eq_refl)).
Defined.

(** ** The dialog *)

Definition empty_dialog_ui : DialogUi := fun _ => EmptyString.

(** The limit buttons of the dialog send the velocity field: with
    ["5"] typed as velocity and ["100"] as positive limit, the positive
    limit is set to 5, and the command is sent twice (the button is
    connected twice). *)
Lemma dialog_poslimit_from_velocity :
  let '(o, c) := on_openAdvancedSettings_clicked silent_dev "COM3" true "000"%char empty_dialog_ui
                   [DEdit VelocityLineEdit "5"; DEdit PosLimitLineEdit "100"; DSetPosLimit] in
  wire (port c) =
    SMC100C.command_pieces (SMC100C.SetCommand CommandType.PositiveSoftwareLim 5 CommandGetSetType.Set_) ++
    SMC100C.command_pieces (SMC100C.SetCommand CommandType.PositiveSoftwareLim 5 CommandGetSetType.Set_).
Proof. vm_compute. reflexivity. Qed.

(** The LED toggle button is connected once: one click with the LED
    flag off asks for the flag, sets it to 1 and shows ["On"]. *)
Lemma dialog_led_toggle_once :
  match on_openAdvancedSettings_clicked silent_dev "COM3" true "000"%char empty_dialog_ui
          [DSetLedStatus (Some 0%Z) true] with
  | (DialogClosed ui cs, _) => ui LedDefaultLabel = "On"%string /\ cs = [GetLedDefaultStatus; SetLedDefaultStatus 1]
  | _ => False
  end.
Proof. vm_compute. split; reflexivity. Qed.

(** A reply shorter than three characters makes the get handlers'
    [substr(3, ...)] throw [out_of_range] out of the slot. *)
Lemma dialog_short_reply_throws :
  fst (on_openAdvancedSettings_clicked (line_dev (list_ascii_of_string "1T") []) "COM3" true "000"%char
         empty_dialog_ui [DGetPosition]) = DialogThrew OutOfRange.
Proof. vm_compute. reflexivity. Qed.

End GuiSession.
