(* ===== verification/System.v ===== *)
(** * System: the main window and the worker thread, interleaved

    The program runs two threads that share the [Worker] object: the
    main thread runs the window's event loop ([GuiSession.handle]), the
    thread [runFullThread] runs [Worker::process] (Worker.cpp, lines
    76-170) once it is started. The main thread writes the worker's
    members ([setParameters], [setReadyToRunFullSlot], [setAbortFlag]);
    the worker thread reads them when it gets to them: the start flag at
    each check of its wait loop, the parameters at each phase.

    A state [Sys] is the window and the point [WorkerPC] the worker
    thread has reached in [process]; [sys_step] is one step of either
    thread, labelled with the window's event ([Some ev]) or a step of
    the worker ([None]). A worker step runs one phase of [process] on
    the shared object as it is at that moment: [InitializeSystem], one
    check of the start flag, the run, [DeinitializeSystem]. Every phase
    opens the port [globalComPort] names at that moment ([portOk]).
    [finished] is queued to the window: the window receives
    [WorkerFinished] only after [process] has returned.

    The theorems: the invariant of every reachable state (the thread
    runs iff [process] was started, the worker is deleted only after it
    returned, it prints only once the start flag is set); the
    refinement of the linear life cycle [Life], in which a deleted
    worker is deleted whatever phase it was in; what Start without
    Initialize prints. *)

From Stdlib Require Import String Ascii List ZArith QArith Lia Bool.
From S2P Require Import Prelude Codec SyncEngine LayerSettingsTable DynamicEngine.
From S2P Require Import Controller StageHelpers LightEngine Bringup Gui GuiSession.
Import ListNotations.

Module System.
Import StageLink Controller StageHelpers LightEngine Bringup LayerSettingsTable Gui GuiSession.

(** Where the worker thread is in [process]. *)
Inductive WorkerPC : Type :=
| NotStarted                (* runFullThread->start() not called yet *)
| Initializing              (* InitializeSystem *)
| Waiting (c : Ctl)         (* while (!readyToRunFull) *)
| Printing (c : Ctl)        (* RunFull or RunFullDynamic *)
| Deinitializing (c : Ctl)  (* DeinitializeSystem *)
| Returned.                 (* finished() emitted, process returned *)

Record Sys : Type := mkSys { win : MainWindow; pc : WorkerPC }.

Definition sys_init (ui0 : MainUi) (w0 : Worker) : Sys := mkSys (demoqt_new ui0 w0) NotStarted.

(** The phases that come after the start flag was seen. *)
Definition printing_or_later (p : WorkerPC) : bool :=
  match p with Printing _ | Deinitializing _ | Returned => true | _ => false end.

Section System.
Context (files : string -> option string) (garbage : string -> LayerSettings)
        (portOk : string -> bool) (e : ProcessEnv).

(** The environment of [process] in the window's state [s]: each phase's
    [initializeController] reads [globalComPort] as [s] holds it and
    opens the port of that name (throwing on the empty name); the run's
    controller is the result of the same call. *)
Definition sys_env (s : MainWindow) : ProcessEnv :=
  let ok := portOk (globalComPort s) in
  let r := runEnv e in
  mkProcessEnv (initDev e) (globalComPort s) ok (initWaits e) (startLastError e) (readyAt e) (readyFuel e)
               (RunFull.mkEnv (RunFull.listing r) (RunFull.firstLoadOk r)
                  (fst (initializeController (globalComPort s) ok (new_controller (startLastError e))))
                  (RunFull.frames r))
               (runFuel e) (deinitDev e) (globalComPort s) ok (deinitWaits e).

(** One step of the worker thread on the shared worker as it is in
    [s]; [None] when the thread has no step (not started, returned) or
    the phase ends the program ([exit(0)], an exception leaving the
    thread, undefined behaviour). *)
Definition worker_step (s : MainWindow) (p : WorkerPC) : option WorkerPC :=
  let w := worker s in
  let pe := sys_env s in
  match p with
  | NotStarted | Returned => None
  | Initializing =>
      match InitializeSystem (initDev pe) (initPort pe) (initOpen pe) (initWaits pe) (inputCurrent w)
              (initialPosition w) (inputVelocity w) (initialVelocity w) (startLastError pe) with
      | (inr Completed, c, _) => Some (Waiting c)
      | _ => None
      end
  | Waiting c => if readyToRunFull w then Some (Printing c) else Some (Waiting c)
  | Printing c => if run_exits (fst (run_phase (runEnv pe) (runFuel pe) w)) then None else Some (Deinitializing c)
  | Deinitializing c =>
      match DeinitializeSystem (deinitDev pe) (deinitPort pe) (deinitOpen pe) (deinitWaits pe) (inputCurrent w)
              (initialVelocity w) (LastError c) with
      | (inr Completed, _, _) => Some Returned
      | _ => None
      end
  end.

(** [finished] reaches the window only once [process] has returned. *)
Definition gui_allowed (p : WorkerPC) (ev : GuiEvent) : bool :=
  match ev with
  | WorkerFinished => match p with Returned => true | _ => false end
  | _ => true
  end.

(** [runFullThread->start()] starts [process] when the thread did not run. *)
Definition thread_start (s s' : MainWindow) (p : WorkerPC) : WorkerPC :=
  if negb (threadRunning s) && threadRunning s' then Initializing else p.

(** One step of the system. *)
Inductive sys_step : Sys -> option GuiEvent -> Sys -> Prop :=
| step_gui (s s' : MainWindow) (p : WorkerPC) (ev : GuiEvent) :
    gui_allowed p ev = true -> handle files garbage s ev = GuiNext s' ->
    sys_step (mkSys s p) (Some ev) (mkSys s' (thread_start s s' p))
| step_worker (s : MainWindow) (p p' : WorkerPC) :
    worker_step s p = Some p' -> sys_step (mkSys s p) None (mkSys s p').

(** The steps of a trace, in order. *)
Inductive sys_run : Sys -> list (option GuiEvent) -> Sys -> Prop :=
| run_nil (x : Sys) : sys_run x [] x
| run_cons (x y z : Sys) (l : option GuiEvent) (tr : list (option GuiEvent)) :
    sys_step x l y -> sys_run y tr z -> sys_run x (l :: tr) z.

(** The step as a function, for evaluation. *)
Definition sys_next (x : Sys) (l : option GuiEvent) : option Sys :=
  match l with
  | Some ev =>
      if gui_allowed (pc x) ev then
        match handle files garbage (win x) ev with
        | GuiNext s' => Some (mkSys s' (thread_start (win x) s' (pc x)))
        | _ => None
        end
      else None
  | None => option_map (mkSys (win x)) (worker_step (win x) (pc x))
  end.

Fixpoint sys_exec (x : Sys) (tr : list (option GuiEvent)) : option Sys :=
  match tr with
  | [] => Some x
  | l :: r => match sys_next x l with Some y => sys_exec y r | None => None end
  end.

End System.

(** ** The life cycle the system promises *)

(** The worker's life, in order: idle, initialising, waiting for the
    start flag, printing, tearing down, returned, deleted. *)
Inductive Life : Type := LIdle | LInit | LWait | LPrint | LDeinit | LDone | LDeleted.

Definition life_next (a : Life) : Life :=
  match a with
  | LIdle => LInit | LInit => LWait | LWait => LPrint | LPrint => LDeinit
  | LDeinit => LDone | LDone => LDeleted | LDeleted => LDeleted
  end.

(** A step of the specification: stay, or go on to the next stage. *)
Definition life_step (a b : Life) : Prop := b = a \/ b = life_next a.

(** The stage a state of the system is in: a worker the window has
    deleted is [LDeleted], whatever point its thread is at. *)
Definition alpha (x : Sys) : Life :=
  if negb (workerAlive (win x)) then LDeleted else
  match pc x with
  | NotStarted => LIdle
  | Initializing => LInit
  | Waiting _ => LWait
  | Printing _ => LPrint
  | Deinitializing _ => LDeinit
  | Returned => LDone
  end.

(** The invariant of the reachable states. *)
Definition sys_inv (x : Sys) : Prop :=
  (threadRunning (win x) = false <-> pc x = NotStarted) /\
  (workerAlive (win x) = false -> pc x = Returned) /\
  (printing_or_later (pc x) = true -> readyToRunFull (worker (win x)) = true).

(** The members of the worker a print reads: the folder, the kind of
    run, the current, the positions and velocities. *)
Definition print_params (w : Worker) : string * bool * Z * float * float * float :=
  (directoryPath w, dynamicFlag w, inputCurrent w, initialPosition w, inputVelocity w, initialVelocity w).

(** ** Concrete runs *)

(** Every port opens. *)
Definition all_ports (_ : string) : bool := true.

(** A silent controller whose queries take 100 s: every wait gives up
    at its first check; an empty listing, one frame. *)
Definition slow_env : ProcessEnv :=
  mkProcessEnv silent_dev "COM4" true (fun _ => mkWaitEnv (fun _ => Z.to_nat 100000)) "000"%char
               (fun _ => false) 1 (RunFull.mkEnv None true (ret true) (fun _ => RunFull.swap_input)) 1
               silent_dev "COM4" true (fun _ => mkWaitEnv (fun _ => Z.to_nat 100000)).

(** COM4 picked, Start (no Initialize), the worker's bring-up and its
    first check of the flag. *)
Definition start_trace : list (option GuiEvent) := [Some (ChooseComPort 1); Some ClickStart; None; None].

(** The state a trace leads to from the constructor, when it runs. *)
Definition after (tr : list (option GuiEvent)) : Sys :=
  match sys_exec no_files zero_settings all_ports slow_env (sys_init sample_ui sample_worker) tr with
  | Some y => y
  | None => sys_init sample_ui sample_worker
  end.

(** ** Lemmas *)

(** What an event does to the shared worker: Initialize sets its
    parameters, Start its start flag, Abort its abort flag; every other
    event leaves it alone. *)
Lemma handle_worker (files : string -> option string) (garbage : string -> LayerSettings)
    (s s1 : MainWindow) (ev : GuiEvent) :
  handle files garbage s ev = GuiNext s1 ->
  ev = ClickInitialize \/ worker s1 = worker s \/
  worker s1 = setReadyToRunFull (worker s) true \/ worker s1 = setAbortFlag (worker s) true.
Proof.
  intros H. destruct ev; try (left; reflexivity); handle_cases H;
    unfold onComPortComboBoxChanged, onConfirmComPortButtonClicked, on_selectDynamicFolderButton_clicked;
    repeat case_if; cbn; auto.
  unfold on_startPrintButton_clicked in *.
  match goal with E : String.eqb _ _ = false, F : (if String.eqb _ _ then _ else _) = _ |- _ =>
    rewrite E in F; injection F as <- _ end. auto.
Qed.

Lemma handle_ready_mono (files : string -> option string) (garbage : string -> LayerSettings)
    (s s1 : MainWindow) (ev : GuiEvent) :
  handle files garbage s ev = GuiNext s1 ->
  readyToRunFull (worker s) = true -> readyToRunFull (worker s1) = true.
Proof.
  intros H R. destruct (handle_worker files garbage s s1 ev H) as [->|[W|[W|W]]]; try (rewrite W; assumption);
    [|rewrite W; reflexivity].
  handle_cases H. cbn. unfold on_initializeSystemButton_clicked in *. cbv zeta in *.
  match goal with E : (_, _) = (_, _) |- _ => injection E as <- _ end.
  case_if; exact R.
Qed.

(** Whether an event is [WorkerFinished]. *)
Lemma GuiEvent_eq_WorkerFinished (ev : GuiEvent) : {ev = WorkerFinished} + {ev <> WorkerFinished}.
Proof. destruct ev; (left; reflexivity) || (right; discriminate). Qed.

(** A worker step leaves [NotStarted] alone, never returns to it, never
    starts from [Returned], and enters the printing phases only from
    one of them or once the start flag is set. *)
Lemma worker_step_shape (portOk : string -> bool) (e : ProcessEnv) (s : MainWindow) (p p' : WorkerPC) :
  worker_step portOk e s p = Some p' ->
  p <> NotStarted /\ p <> Returned /\ p' <> NotStarted /\
  (printing_or_later p' = true -> printing_or_later p = true \/ readyToRunFull (worker s) = true).
Proof.
  intros H. destruct p; cbn in H; try discriminate H.
  - destruct (InitializeSystem _ _ _ _ _ _ _ _ _) as [[[|[]] c] cs]; try discriminate H.
    injection H as <-. repeat split; try discriminate.
  - destruct (readyToRunFull (worker s)) eqn:R; injection H as <-; repeat split; try discriminate; auto.
  - destruct (run_exits _); [discriminate H|]. injection H as <-. repeat split; try discriminate; auto.
  - destruct (DeinitializeSystem _ _ _ _ _ _ _) as [[[|[]] c'] cs]; try discriminate H.
    injection H as <-. repeat split; try discriminate; auto.
Qed.

(** An event deletes the worker only if it is [WorkerFinished]. *)
Lemma handle_deletes (files : string -> option string) (garbage : string -> LayerSettings)
    (s s1 : MainWindow) (ev : GuiEvent) :
  handle files garbage s ev = GuiNext s1 -> workerAlive s = true -> workerAlive s1 = false ->
  ev = WorkerFinished.
Proof.
  intros H A A1. destruct (GuiEvent_eq_WorkerFinished ev) as [->|D]; [reflexivity|].
  rewrite (handle_keeps_alive files garbage s s1 ev D H) in A1. congruence.
Qed.

Lemma sys_step_inv (files : string -> option string) (garbage : string -> LayerSettings)
    (portOk : string -> bool) (e : ProcessEnv) (x y : Sys) (l : option GuiEvent) :
  sys_step files garbage portOk e x l y -> sys_inv x -> sys_inv y.
Proof.
  intros H [I1 [I2 I3]]. destruct H as [s s' p ev Ha Hh|s p p' Hw]; unfold sys_inv; cbn [win pc] in *.
  - destruct (handle_lifecycle files garbage s s' ev Hh) as [_ Lt].
    assert (D : workerAlive s' = false -> p = Returned).
    { intros A1. destruct (workerAlive s) eqn:A; [|exact (I2 eq_refl)].
      rewrite (handle_deletes files garbage s s' ev Hh A A1) in Ha. destruct p; cbn in Ha; congruence. }
    unfold thread_start. destruct (threadRunning s) eqn:Ts.
    + rewrite (Lt eq_refl). cbn [negb andb].
      assert (N : p <> NotStarted) by (intros E; apply I1 in E; discriminate E).
      split; [split; [discriminate|congruence]|]. split; [exact D|].
      intros P. exact (handle_ready_mono files garbage s s' ev Hh (I3 P)).
    + assert (E : p = NotStarted) by (apply I1; reflexivity). subst p.
      destruct (threadRunning s') eqn:Ts'; cbn [negb andb];
        (split; [split; [congruence|discriminate]|split; [intros A1; discriminate (D A1)|discriminate]])
        || (split; [tauto|split; [intros A1; discriminate (D A1)|discriminate]]).
  - destruct (worker_step_shape portOk e s p p' Hw) as (N & R & N' & P).
    assert (Ts : threadRunning s = true) by (destruct (threadRunning s); [reflexivity|tauto]).
    split; [rewrite Ts; split; [discriminate|tauto]|]. split; [intros A; tauto|].
    intros Pp. destruct (P Pp) as [Q|Q]; [exact (I3 Q)|exact Q].
Qed.

Lemma sys_run_inv (files : string -> option string) (garbage : string -> LayerSettings)
    (portOk : string -> bool) (e : ProcessEnv) (x y : Sys) (tr : list (option GuiEvent)) :
  sys_run files garbage portOk e x tr y -> sys_inv x -> sys_inv y.
Proof. induction 1 as [x|x y z l tr S _ IH]; [tauto|]. intros I. exact (IH (sys_step_inv _ _ _ _ _ _ _ S I)). Qed.

Lemma sys_init_inv (ui0 : MainUi) (w0 : Worker) : sys_inv (sys_init ui0 w0).
Proof. unfold sys_inv; cbn. repeat split; discriminate. Qed.

(** C12: the invariant of every reachable state of the two threads,
    whatever the user does and whatever the devices answer: the thread
    runs exactly when [process] has been started; the window deletes
    the worker (through [finished] and [deleteLater]) only after
    [process] has returned, so the dangling pointer is never used while
    [process] runs; and [process] gets past its wait loop only once the
    start flag is set, which only the Start button does. *)
Theorem reachable_inv (files : string -> option string) (garbage : string -> LayerSettings)
    (portOk : string -> bool) (e : ProcessEnv) (ui0 : MainUi) (w0 : Worker)
    (tr : list (option GuiEvent)) (x : Sys) :
  sys_run files garbage portOk e (sys_init ui0 w0) tr x -> sys_inv x.
Proof. intros H. exact (sys_run_inv _ _ _ _ _ _ _ H (sys_init_inv ui0 w0)). Qed.

Lemma worker_step_life (portOk : string -> bool) (e : ProcessEnv) (s : MainWindow) (p p' : WorkerPC) :
  worker_step portOk e s p = Some p' -> workerAlive s = true ->
  life_step (alpha (mkSys s p)) (alpha (mkSys s p')).
Proof.
  intros H A. unfold life_step, alpha; cbn [win pc]. rewrite A. cbn [negb].
  destruct p; cbn in H; try discriminate H.
  - destruct (InitializeSystem _ _ _ _ _ _ _ _ _) as [[[|[]] c] cs]; try discriminate H.
    injection H as <-. right. reflexivity.
  - destruct (readyToRunFull (worker s)); injection H as <-; [right|left]; reflexivity.
  - destruct (run_exits _); [discriminate H|]. injection H as <-. right. reflexivity.
  - destruct (DeinitializeSystem _ _ _ _ _ _ _) as [[[|[]] c'] cs]; try discriminate H.
    injection H as <-. right. reflexivity.
Qed.

(** C16: refinement of the life cycle. Every step of either thread,
    from a reachable state, is a step of the specification [life_step]:
    the worker's life only goes forward, one stage at a time (idle,
    initialising, waiting for the start flag, printing, tearing down,
    returned, deleted); no event restarts [process]; and since a deleted
    worker is [LDeleted] whatever its phase, the only way into
    [LDeleted] is from [LDone]: the window deletes the worker only after
    [process] has returned, and the thread takes no step after that. *)
Theorem sys_refines_life (files : string -> option string) (garbage : string -> LayerSettings)
    (portOk : string -> bool) (e : ProcessEnv) (ui0 : MainUi) (w0 : Worker)
    (tr : list (option GuiEvent)) (x y : Sys) (l : option GuiEvent) :
  sys_run files garbage portOk e (sys_init ui0 w0) tr x -> sys_step files garbage portOk e x l y ->
  life_step (alpha x) (alpha y).
Proof.
  intros R S. destruct (sys_run_inv _ _ _ _ _ _ _ R (sys_init_inv ui0 w0)) as [I1 [I2 _]].
  destruct S as [s s' p ev Ha Hh|s p p' Hw]; cbn [win pc] in *.
  - destruct (handle_lifecycle files garbage s s' ev Hh) as [La Lt].
    assert (D : workerAlive s = true -> workerAlive s' = false -> p = Returned).
    { intros A A1. rewrite (handle_deletes files garbage s s' ev Hh A A1) in Ha. destruct p; cbn in Ha; congruence. }
    unfold life_step, alpha, thread_start; cbn [win pc].
    destruct (workerAlive s) eqn:A; [|rewrite (La eq_refl); left; reflexivity].
    destruct (workerAlive s') eqn:A1; cbn [negb]; [|rewrite (D eq_refl eq_refl); right; reflexivity].
    destruct (threadRunning s) eqn:Ts.
    + rewrite (Lt eq_refl). left. reflexivity.
    + assert (E : p = NotStarted) by (apply I1; reflexivity). subst p.
      destruct (threadRunning s'); cbn; [right|left]; reflexivity.
  - apply (worker_step_life portOk e s p p' Hw).
    destruct (workerAlive s) eqn:A; [reflexivity|]. specialize (I2 eq_refl). subst p. discriminate Hw.
Qed.

Lemma sys_next_step (files : string -> option string) (garbage : string -> LayerSettings)
    (portOk : string -> bool) (e : ProcessEnv) (x y : Sys) (l : option GuiEvent) :
  sys_next files garbage portOk e x l = Some y -> sys_step files garbage portOk e x l y.
Proof.
  destruct x as [s p]. unfold sys_next; cbn [win pc]. destruct l as [ev|].
  - destruct (gui_allowed p ev) eqn:Ha; [|discriminate].
    destruct (handle files garbage s ev) eqn:Hh; try discriminate. intros H; injection H as <-.
    constructor; assumption.
  - destruct (worker_step portOk e s p) eqn:Hw; [|discriminate]. intros H; injection H as <-.
    constructor; assumption.
Qed.

Lemma sys_exec_run (files : string -> option string) (garbage : string -> LayerSettings)
    (portOk : string -> bool) (e : ProcessEnv) (x y : Sys) (tr : list (option GuiEvent)) :
  sys_exec files garbage portOk e x tr = Some y -> sys_run files garbage portOk e x tr y.
Proof.
  revert x. induction tr as [|l tr IH]; intros x H; cbn in H; [injection H as <-; constructor|].
  destruct (sys_next files garbage portOk e x l) as [x1|] eqn:N; [|discriminate].
  econstructor; [exact (sys_next_step _ _ _ _ _ _ _ N)|exact (IH _ H)].
Qed.

(** Without Initialize, no step changes what a print reads. *)
Lemma sys_step_keeps_params (files : string -> option string) (garbage : string -> LayerSettings)
    (portOk : string -> bool) (e : ProcessEnv) (x y : Sys) (l : option GuiEvent) :
  sys_step files garbage portOk e x l y -> l <> Some ClickInitialize ->
  print_params (worker (win y)) = print_params (worker (win x)).
Proof.
  intros S Hl. destruct S as [s s' p ev Ha Hh|s p p' Hw]; cbn [win]; [|reflexivity].
  destruct (handle_worker files garbage s s' ev Hh) as [->|[W|[W|W]]]; [congruence| | |]; rewrite W; reflexivity.
Qed.

(** C8: Start without Initialize prints with the worker's
    uninitialised members and no folder. [on_startPrintButton_clicked]
    checks that a folder is selected but does not pass it on (its
    [setParameters] call is commented out): in every run of the two
    threads without a click on Initialize, once [process] is past its
    wait loop the worker it runs on has the empty folder, the static
    run, and the current, positions and velocities the [new Worker()]
    left uninitialised, whatever the window's fields and folder label. *)
Theorem start_without_initialize (files : string -> option string) (garbage : string -> LayerSettings)
    (portOk : string -> bool) (e : ProcessEnv) (ui0 : MainUi) (w0 : Worker)
    (tr : list (option GuiEvent)) (x : Sys) :
  sys_run files garbage portOk e (sys_init ui0 w0) tr x -> ~ In (Some ClickInitialize) tr ->
  printing_or_later (pc x) = true ->
  print_params (worker (win x)) =
    (EmptyString, false, inputCurrent w0, initialPosition w0, inputVelocity w0, initialVelocity w0).
Proof.
  intros R N _. change (EmptyString, false, inputCurrent w0, initialPosition w0, inputVelocity w0, initialVelocity w0)
    with (print_params (worker (win (sys_init ui0 w0)))).
  induction R as [x|x y z l tr S _ IH]; [reflexivity|].
  cbn [In] in N. rewrite IH by tauto. apply (sys_step_keeps_params _ _ _ _ _ _ _ S). intros ->. tauto.
Qed.

Lemma after_run (tr : list (option GuiEvent)) :
  sys_exec no_files zero_settings all_ports slow_env (sys_init sample_ui sample_worker) tr <> None ->
  sys_run no_files zero_settings all_ports slow_env (sys_init sample_ui sample_worker) tr (after tr).
Proof.
  unfold after. destruct (sys_exec _ _ _ _ _ tr) eqn:E; [|congruence]. intros _. exact (sys_exec_run _ _ _ _ _ _ _ E).
Qed.

Lemma start_without_initialize_witness :
  print_params (worker (win (after start_trace))) =
    (EmptyString, false, inputCurrent sample_worker, initialPosition sample_worker,
     inputVelocity sample_worker, initialVelocity sample_worker).
Proof.
  apply (start_without_initialize no_files zero_settings all_ports slow_env sample_ui sample_worker start_trace).
  - apply after_run. vm_compute. discriminate.
  - cbn. intuition discriminate.
  - vm_compute. reflexivity.
Defined.

Lemma reachable_inv_witness : sys_inv (after start_trace).
Proof.
  apply (reachable_inv no_files zero_settings all_ports slow_env sample_ui sample_worker start_trace).
  apply after_run. vm_compute. discriminate.
Defined.

Lemma sys_refines_life_witness :
  life_step (alpha (after [Some (ChooseComPort 1); Some ClickStart; None; None; None; None]))
            (alpha (after [Some (ChooseComPort 1); Some ClickStart; None; None; None; None; Some WorkerFinished])).
Proof.
  assert (S : sys_step no_files zero_settings all_ports slow_env
                (after [Some (ChooseComPort 1); Some ClickStart; None; None; None; None]) (Some WorkerFinished)
                (after [Some (ChooseComPort 1); Some ClickStart; None; None; None; None; Some WorkerFinished]))
    by (apply sys_next_step; vm_compute; reflexivity).
  assert (R : sys_run no_files zero_settings all_ports slow_env (sys_init sample_ui sample_worker)
                [Some (ChooseComPort 1); Some ClickStart; None; None; None; None] (after [Some (ChooseComPort 1); Some ClickStart; None; None; None; None]))
    by (apply after_run; vm_compute; discriminate).
  exact (sys_refines_life no_files zero_settings all_ports slow_env sample_ui sample_worker
           [Some (ChooseComPort 1); Some ClickStart; None; None; None; None] (after [Some (ChooseComPort 1); Some ClickStart; None; None; None; None])
           (after [Some (ChooseComPort 1); Some ClickStart; None; None; None; None; Some WorkerFinished]) (Some WorkerFinished) R S).
Defined.

End System.
